(** * BaseRunner: hook scheduling and checkpoint-state aggregation

    A shallow embedding of [detecter/runner/base_runner.py] (class
    [BaseRunner]) and the properties of its hook registry, its
    snapshot/restore pair and its resume logic.

    Python objects live in a store: hook objects are reached through
    references, so that a hook handed to [register_hook] and the hook
    held by the registry are one object.  Methods of the runner are
    computations in a state-and-exception monad; a raised exception keeps
    the mutations made before it, as in Python. *)

From Stdlib Require Import ZArith Lia Sorted.
From stdpp Require Import base list strings.

Set Default Proof Using "Type".

(** ** Python values *)

(** The opaque payloads that travel through the runner (state dicts of
    hooks and of the optimizer, private data of a hook). *)
#[local] Unset Elimination Schemes.
Inductive pyval :=
| PyNone
| PyBool (b : bool)
| PyInt (n : Z)
| PyStr (s : string)
| PyList (l : list pyval)
| PyDict (d : list (string * pyval)).
#[local] Set Elimination Schemes.

(** Truth value of an object, as tested by [if sd:]. *)
Definition truthy (v : pyval) : bool :=
  match v with
  | PyNone => false
  | PyBool b => b
  | PyInt n => negb (n =? 0)%Z
  | PyStr s => negb (String.eqb s EmptyString)
  | PyList l => match l with [] => false | _ => true end
  | PyDict d => match d with [] => false | _ => true end
  end.

(** ** Exceptions *)

Inductive Exc :=
| ValueError_reserved_priority
    (* ValueError: "priority" is a reserved attribute for hooks *)
| ValueError_both_budgets
    (* ValueError: Only one of `max_epochs` or `max_iters` can be set. *)
| TypeError_work_dir
    (* TypeError: "work_dir" must be a str or None *)
| AttributeError (attr : string)
| IndexError
| PriorityError
    (* whatever cvcore.get_priority raises on a priority it rejects *)
| CollaboratorError (tag : string).
    (* raised inside an external collaborator: hook, optimizer, storage *)

(** The spec's error taxonomy (section 7): a [ConfigurationError] is an
    invalid construction: both budgets set, a working directory of the
    wrong type, or a second priority assignment. *)
Definition ConfigurationError (e : Exc) : bool :=
  match e with
  | ValueError_reserved_priority | ValueError_both_budgets
  | TypeError_work_dir => true
  | _ => false
  end.

Inductive Res (A : Type) :=
| Ok (a : A)
| Raise (e : Exc).
Arguments Ok {A} a.
Arguments Raise {A} e.

(** ** The store *)

(** A reference to a hook object. *)
Definition href := nat.

(** The [priority] argument of [register_hook]:
    int or str or [Priority]. *)
Inductive priority_arg :=
| PrioInt (n : Z)
| PrioStr (name : string)
| PrioEnum (value : Z).

(** A hook object: [qualname] is [type(h).__qualname__]; [priority] is
    the attribute of that name, absent until the hook is registered;
    [hdata] is whatever else the object holds. *)
Record HookObj := mkHook {
  qualname : string;
  priority : option Z;
  hdata : pyval
}.

(** [cfg.checkpoint]. *)
Record Cfg := mkCfg {
  checkpoint_by_epoch : bool;
  checkpoint_period : Z
}.

(** The snapshot dict built by [state_dict]: the keys "iter", "epoch" and
    "optimizer" are always there, "hooks" only when some hook has state.
    The hooks dict keeps insertion order. *)
Record Snapshot := mkSnapshot {
  sn_iter : Z;
  sn_epoch : Z;
  sn_optimizer : pyval;
  sn_hooks : option (list (string * pyval))
}.

(** The attributes of the runner that the core reads and writes. *)
Record Runner := mkRunner {
  _hooks : list href;
  _epoch : Z;
  _iter : Z;
  _inner_iter : Z;
  mode : option string;
  _max_epochs : option Z;
  _max_iters : option Z;
  work_dir : option string;
  cfg : option Cfg
}.

(** The object graph: the runner, the hook objects, the optimizer, what
    the checkpoint storage holds, and the next free reference. *)
Record Store := mkStore {
  runner : Runner;
  heap : href -> HookObj;
  optimizer : pyval;
  last_checkpoint : option Snapshot;
  next_ref : href
}.

(** Calls that leave the core for a collaborator, in the order made. *)
Inductive Event :=
| EvWarning (msg : string)
| EvHookStateDict (h : href)
| EvHookLoadStateDict (h : href) (value : pyval)
| EvOptimizerStateDict
| EvOptimizerLoadStateDict (value : pyval)
| EvCallback (h : href) (fn_name : string)
| EvMkdir (path : string)
| EvLoadCheckpoint (path : string) (with_states : bool).

Record World := mkWorld {
  store : Store;
  events : list Event
}.

(** ** The monad *)

Definition M (A : Type) := World -> Res A * World.

Definition ret {A} (a : A) : M A := fun w => (Ok a, w).

Definition bind {A B} (c : M A) (k : A -> M B) : M B :=
  fun w =>
    match c w with
    | (Ok a, w') => k a w'
    | (Raise e, w') => (Raise e, w')
    end.

Definition raise {A} (e : Exc) : M A := fun w => (Raise e, w).

Notation "x <- c1 ;; c2" := (bind c1 (fun x => c2))
  (at level 100, c1 at next level, right associativity).
Notation "c1 ;; c2" := (bind c1 (fun _ => c2))
  (at level 100, right associativity).

Definition gets {A} (f : Store -> A) : M A := fun w => (Ok (f (store w)), w).

Definition modify (f : Store -> Store) : M unit :=
  fun w => (Ok tt, mkWorld (f (store w)) (events w)).

Definition emit (ev : Event) : M unit :=
  fun w => (Ok tt, mkWorld (store w) (events w ++ [ev])).

(** The outcome of a collaborator that touches nothing in the store. *)
Definition lift_res {A} (r : Res A) : M A := fun w => (r, w).

(** A call into a collaborator that is handed part of the store. *)
Definition call {A} (ev : Event) (op : Store -> Res A * Store) : M A :=
  fun w =>
    let '(r, s) := op (store w) in
    (r, mkWorld s (events w ++ [ev])).

(** ** Field updates *)

Definition set_runner (r : Runner) (s : Store) : Store :=
  mkStore r (heap s) (optimizer s) (last_checkpoint s) (next_ref s).

Definition set_heap (hp : href -> HookObj) (s : Store) : Store :=
  mkStore (runner s) hp (optimizer s) (last_checkpoint s) (next_ref s).

Definition set_optimizer (o : pyval) (s : Store) : Store :=
  mkStore (runner s) (heap s) o (last_checkpoint s) (next_ref s).

Definition set_next_ref (n : href) (s : Store) : Store :=
  mkStore (runner s) (heap s) (optimizer s) (last_checkpoint s) n.

Definition set_hooks (l : list href) (r : Runner) : Runner :=
  mkRunner l (_epoch r) (_iter r) (_inner_iter r) (mode r)
           (_max_epochs r) (_max_iters r) (work_dir r) (cfg r).

Definition set_iter (n : Z) (r : Runner) : Runner :=
  mkRunner (_hooks r) (_epoch r) n (_inner_iter r) (mode r)
           (_max_epochs r) (_max_iters r) (work_dir r) (cfg r).

Definition set_epoch (n : Z) (r : Runner) : Runner :=
  mkRunner (_hooks r) n (_iter r) (_inner_iter r) (mode r)
           (_max_epochs r) (_max_iters r) (work_dir r) (cfg r).

Definition set_budgets (max_epochs max_iters : option Z) (r : Runner)
  : Runner :=
  mkRunner (_hooks r) (_epoch r) (_iter r) (_inner_iter r) (mode r)
           max_epochs max_iters (work_dir r) (cfg r).

Definition set_work_dir (d : option string) (r : Runner) : Runner :=
  mkRunner (_hooks r) (_epoch r) (_iter r) (_inner_iter r) (mode r)
           (_max_epochs r) (_max_iters r) d (cfg r).

Definition set_cfg (c : option Cfg) (r : Runner) : Runner :=
  mkRunner (_hooks r) (_epoch r) (_iter r) (_inner_iter r) (mode r)
           (_max_epochs r) (_max_iters r) (work_dir r) c.

(** [mode = None], [_hooks = []] and the three counters at 0. *)
Definition set_fresh (r : Runner) : Runner :=
  mkRunner [] 0 0 0 None (_max_epochs r) (_max_iters r) (work_dir r) (cfg r).

Definition set_priority (p : Z) (o : HookObj) : HookObj :=
  mkHook (qualname o) (Some p) (hdata o).

Definition set_hdata (d : pyval) (o : HookObj) : HookObj :=
  mkHook (qualname o) (priority o) d.

(** Rebinding one reference of the heap. *)
Definition heap_set (h : href) (o : HookObj) (hp : href -> HookObj)
  : href -> HookObj :=
  fun h' => if Nat.eqb h' h then o else hp h'.

(** [l.insert(i, x)] for [i >= 0]: past the end it appends. *)
Definition list_insert_at {A} (i : nat) (x : A) (l : list A) : list A :=
  take i l ++ x :: drop i l.

(** ** Collaborators *)

(** What the core calls but does not define.  A method of a hook or of
    the optimizer that is not handed the runner works on the private data
    of its own object; a lifecycle callback is handed the runner and may
    change anything it can reach from it.  Each may raise. *)
Record Collaborators := mkCollaborators {
  (* cvcore.get_priority: an int, a name or a Priority to an integer *)
  get_priority : priority_arg -> option Z;
  (* h.state_dict() *)
  hook_state_dict : href -> pyval -> Res pyval * pyval;
  (* h.load_state_dict(value) *)
  hook_load_state_dict : href -> pyval -> pyval -> Res unit * pyval;
  (* self.optimizer.state_dict() *)
  optimizer_state_dict : pyval -> Res pyval * pyval;
  (* self.optimizer.load_state_dict(value) *)
  optimizer_load_state_dict : pyval -> pyval -> Res unit * pyval;
  (* getattr(hook, fn_name)(self) *)
  hook_callback : href -> string -> Store -> Res unit * Store;
  (* dist_comm *)
  dist_world_size : Z;
  dist_local_rank : Z;
  dist_is_main_process : bool;
  (* DistributedDataParallel(model, broadcast_buffers, device_ids) *)
  DistributedDataParallel : pyval -> bool -> list Z -> Res pyval;
  (* osp.abspath and cvcore.mkdir_or_exist *)
  abspath : string -> string;
  mkdir_or_exist : string -> Res unit
}.

(** The arguments of the constructor that the core looks at. *)
Inductive work_dir_arg :=
| WorkDirStr (path : string)
| WorkDirNone
| WorkDirOther.   (* neither a str nor None *)

Record InitArgs := mkInitArgs {
  arg_model : pyval;
  arg_optimizer : pyval;
  arg_work_dir : work_dir_arg;
  arg_max_iters : option Z;
  arg_max_epochs : option Z;
  arg_cfg : option Cfg
}.

Section Methods.

Variable C : Collaborators.

(** ** register_hook *)

(** [self._hooks[i].priority] *)
Definition hook_priority_at (i : nat) : M Z :=
  hooks <- gets (fun s => _hooks (runner s)) ;;
  match hooks !! i with
  | None => raise IndexError
  | Some h =>
      p <- gets (fun s => priority (heap s h)) ;;
      match p with
      | None => raise (AttributeError "priority")
      | Some p => ret p
      end
  end.

(** [self._hooks.insert(pos, hook)] *)
Definition insert_hook (pos : nat) (hook : href) : M unit :=
  modify (fun s =>
    set_runner (set_hooks (list_insert_at pos hook (_hooks (runner s)))
                          (runner s)) s).

(** The loop [for i in range(n - 1, -1, -1)]: the result is the flag
    [inserted]. *)
Fixpoint register_scan (hook : href) (prio : Z) (n : nat) : M bool :=
  match n with
  | O => ret false
  | S i =>
      p_i <- hook_priority_at i ;;
      if (prio >=? p_i)%Z
      then insert_hook (S i) hook ;; ret true
      else register_scan hook prio i
  end.

Definition register_hook (hook : href) (prio : priority_arg) : M unit :=
  (* assert isinstance(hook, Hook): a reference denotes a hook object *)
  has <- gets (fun s => priority (heap s hook)) ;;
  match has with
  | Some _ => raise ValueError_reserved_priority
  | None =>
      match get_priority C prio with
      | None => raise PriorityError
      | Some p =>
          modify (fun s =>
            set_heap (heap_set hook (set_priority p (heap s hook)) (heap s)) s) ;;
          n <- gets (fun s => length (_hooks (runner s))) ;;
          inserted <- register_scan hook p n ;;
          if inserted : bool then ret tt else insert_hook 0 hook
      end
  end.

(** ** call_hook *)

(** [for hook in self._hooks: getattr(hook, fn_name)(self)].  The list
    iterator holds an index into the list the runner holds, and a
    callback may register hooks while the loop runs, so the loop reads
    the list again at every step; [fuel] bounds the number of steps and
    [None] says that it ran out. *)
Fixpoint call_hook_from (fuel : nat) (fn_name : string) (i : nat)
    (w : World) : option (Res unit * World) :=
  match fuel with
  | O => None
  | S fuel' =>
      match _hooks (runner (store w)) !! i with
      | None => Some (Ok tt, w)
      | Some hook =>
          match call (EvCallback hook fn_name)
                     (hook_callback C hook fn_name) w with
          | (Ok _, w') => call_hook_from fuel' fn_name (S i) w'
          | (Raise e, w') => Some (Raise e, w')
          end
      end
  end.

Definition call_hook (fuel : nat) (fn_name : string) (w : World)
  : option (Res unit * World) :=
  call_hook_from fuel fn_name 0 w.

(** ** state_dict *)

(** A method of hook [h] that works on the hook's own data. *)
Definition on_hook {A} (h : href) (op : pyval -> Res A * pyval)
  : Store -> Res A * Store :=
  fun s =>
    let '(r, d) := op (hdata (heap s h)) in
    (r, set_heap (heap_set h (set_hdata d (heap s h)) (heap s)) s).

(** A method of the optimizer. *)
Definition on_optimizer {A} (op : pyval -> Res A * pyval)
  : Store -> Res A * Store :=
  fun s =>
    let '(r, o) := op (optimizer s) in
    (r, set_optimizer o s).

(** [name in hooks_state] *)
Definition dict_has (name : string) (d : list (string * pyval)) : bool :=
  existsb (fun kv => String.eqb (fst kv) name) d.

(** The loop [for h in self._hooks] of [state_dict], with the dict
    [hooks_state] built so far. *)
Fixpoint state_dict_hooks (hs : list href)
    (hooks_state : list (string * pyval)) : M (list (string * pyval)) :=
  match hs with
  | [] => ret hooks_state
  | h :: rest =>
      sd <- call (EvHookStateDict h) (on_hook h (hook_state_dict C h)) ;;
      if truthy sd then
        name <- gets (fun s => qualname (heap s h)) ;;
        if dict_has name hooks_state
        then (* TODO handle repetitive stateful hooks *)
             state_dict_hooks rest hooks_state
        else state_dict_hooks rest (hooks_state ++ [(name, sd)])
      else state_dict_hooks rest hooks_state
  end.

Definition state_dict : M Snapshot :=
  it <- gets (fun s => _iter (runner s)) ;;
  ep <- gets (fun s => _epoch (runner s)) ;;
  opt <- call EvOptimizerStateDict (on_optimizer (optimizer_state_dict C)) ;;
  hs <- gets (fun s => _hooks (runner s)) ;;
  hooks_state <- state_dict_hooks hs [] ;;
  ret (mkSnapshot it ep opt
         (match hooks_state with [] => None | _ => Some hooks_state end)).

(** ** load_state_dict *)

Definition missing_hook_warning (key : string) : string :=
  "Cannot find the hook '" +:+ key +:+ "', its state_dict is ignored.".

(** The inner loop [for h in self._hooks] for one entry; the result
    says whether the loop left through [break].  Every class has a
    [__qualname__], so the [except AttributeError] arm is never taken. *)
Fixpoint load_hook_state (key : string) (value : pyval) (hs : list href)
  : M bool :=
  match hs with
  | [] => ret false
  | h :: rest =>
      name <- gets (fun s => qualname (heap s h)) ;;
      if String.eqb name key
      then call (EvHookLoadStateDict h value)
                (on_hook h (hook_load_state_dict C h value)) ;;
           ret true
      else load_hook_state key value rest
  end.

(** The outer loop over [state_dict.get("hooks", {}).items()]. *)
Fixpoint load_hooks_state (items : list (string * pyval)) : M unit :=
  match items with
  | [] => ret tt
  | (key, value) :: rest =>
      hs <- gets (fun s => _hooks (runner s)) ;;
      found <- load_hook_state key value hs ;;
      (if found : bool then ret tt
       else emit (EvWarning (missing_hook_warning key))) ;;
      load_hooks_state rest
  end.

Definition load_state_dict (sd : Snapshot) : M unit :=
  modify (fun s => set_runner (set_iter (sn_iter sd) (runner s)) s) ;;
  modify (fun s => set_runner (set_epoch (sn_epoch sd) (runner s)) s) ;;
  call (EvOptimizerLoadStateDict (sn_optimizer sd))
       (on_optimizer (optimizer_load_state_dict C (sn_optimizer sd))) ;;
  load_hooks_state (default [] (sn_hooks sd)).

(** ** __init__ *)

(** [create_ddp_model(model, **kwargs)], with the keyword arguments
    [broadcast_buffers] and, when given, [device_ids]. *)
Definition create_ddp_model (model : pyval) (broadcast_buffers : bool)
    (device_ids : option (list Z)) : Res pyval :=
  if (dist_world_size C =? 1)%Z then Ok model
  else
    let device_ids :=
      match device_ids with
      | None => [dist_local_rank C]
      | Some ids => ids
      end in
    DistributedDataParallel C model broadcast_buffers device_ids.

(** A new hook object without a [priority] attribute. *)
Definition new_hook (name : string) (data : pyval) : M href :=
  h <- gets next_ref ;;
  modify (fun s =>
    set_next_ref (S h) (set_heap (heap_set h (mkHook name None data) (heap s)) s)) ;;
  ret h.

Definition _register_default_hook : M unit :=
  if dist_is_main_process C then
    c <- gets (fun s => cfg (runner s)) ;;
    match c with
    | None => raise (AttributeError "checkpoint")
    | Some c =>
        hook <- new_hook "PeriodicCheckpointer"
                  (PyDict [("by_epoch", PyBool (checkpoint_by_epoch c));
                           ("period", PyInt (checkpoint_period c))]) ;;
        register_hook hook (PrioStr "NORMAL")
    end
  else ret tt.

(** [__init__]; of the attributes it sets, those of [Runner] are kept,
    each written where the source assigns it: [cfg] before the model is
    wrapped, [work_dir] before the directory is created, [mode], [_hooks]
    and the counters before the check of the budgets, the budgets after
    it.  The constructors of the checkpointer and of the checkpoint hook
    only store their arguments. *)
Definition init (a : InitArgs) : M unit :=
  modify (fun s => set_runner (set_cfg (arg_cfg a) (runner s)) s) ;;
  _ <- lift_res (create_ddp_model (arg_model a) false None) ;;
  modify (set_optimizer (arg_optimizer a)) ;;
  match arg_work_dir a with
  | WorkDirStr path =>
      modify (fun s =>
        set_runner (set_work_dir (Some (abspath C path)) (runner s)) s) ;;
      emit (EvMkdir (abspath C path)) ;;
      lift_res (mkdir_or_exist C (abspath C path))
  | WorkDirNone =>
      modify (fun s => set_runner (set_work_dir None (runner s)) s)
  | WorkDirOther => raise TypeError_work_dir
  end ;;
  modify (fun s => set_runner (set_fresh (runner s)) s) ;;
  match arg_max_epochs a, arg_max_iters a with
  | Some _, Some _ => raise ValueError_both_budgets
  | max_epochs, max_iters =>
      modify (fun s =>
        set_runner (set_budgets max_epochs max_iters (runner s)) s) ;;
      _register_default_hook
  end.

(** ** resume_or_load *)




End Methods.

(** ** Observations *)

Definition registry (w : World) : list href := _hooks (runner (store w)).

Definition hook_priority (s : Store) (h : href) : option Z :=
  priority (heap s h).

Definition hook_kind (s : Store) (h : href) : string :=
  qualname (heap s h).

(** Every registered hook carries a priority. *)
Definition registry_wf (s : Store) : Prop :=
  Forall (fun h => is_Some (hook_priority s h)) (_hooks (runner s)).

Definition prio_le (s : Store) (h1 h2 : href) : Prop :=
  match hook_priority s h1, hook_priority s h2 with
  | Some p1, Some p2 => (p1 <= p2)%Z
  | _, _ => False
  end.

(** The registry is sorted by non-decreasing priority. *)
Definition registry_sorted (s : Store) : Prop :=
  StronglySorted (prio_le s) (_hooks (runner s)).

(** The world once [hook.priority = p] is done. *)
Definition with_priority (hook : href) (p : Z) (w : World) : World :=
  mkWorld
    (set_heap (heap_set hook (set_priority p (heap (store w) hook))
                        (heap (store w))) (store w))
    (events w).

(** The registry after [hook] went in at position [k]. *)
Definition inserted_at (k : nat) (hook : href) (w : World) : World :=
  mkWorld
    (set_runner (set_hooks (list_insert_at k hook (registry w))
                           (runner (store w))) (store w))
    (events w).

(** The hooks of a list that carry priority [q], in the order of the
    list. *)
Definition of_priority (s : Store) (q : Z) (l : list href) : list href :=
  filter (fun h => hook_priority s h = Some q) l.

(** The registry holds the hooks [registered] so far: each carries a
    priority, the order is by priority, and hooks of one priority
    stand in the order in which they were registered. *)
Definition registry_holds (w : World) (registered : list href) : Prop :=
  registry_wf (store w) /\
  registry_sorted (store w) /\
  registry w ≡ₚ registered /\
  forall q, of_priority (store w) q (registry w)
            = of_priority (store w) q registered.

(** A sequence of [register_hook] calls, each made in the world the
    previous one left, whether it returned or raised; the result lists
    the hooks whose registration returned, in call order. *)
Fixpoint register_hooks (C : Collaborators)
    (calls : list (href * priority_arg)) (w : World) : list href * World :=
  match calls with
  | [] => ([], w)
  | (h, p) :: rest =>
      let '(r, w') := register_hook C h p w in
      let '(registered, w'') := register_hooks C rest w' in
      (match r with Ok _ => h :: registered | Raise _ => registered end, w'')
  end.

(** The first entry of a dict kept as an association list. *)
Fixpoint assoc (key : string) (d : list (string * pyval)) : option pyval :=
  match d with
  | [] => None
  | (k, v) :: rest => if String.eqb k key then Some v else assoc key rest
  end.

(** The first hook of a list whose kind is [key]. *)
Fixpoint first_of_kind (s : Store) (key : string) (hs : list href)
  : option href :=
  match hs with
  | [] => None
  | h :: rest =>
      if String.eqb (hook_kind s h) key then Some h
      else first_of_kind s key rest
  end.

(** The callbacks of a list of hooks run one after the other on the
    store, up to the first that raises; the result also lists the hooks
    whose callback was entered. *)
Fixpoint run_callbacks (C : Collaborators) (fn_name : string)
    (hs : list href) (s : Store) : Res unit * Store * list href :=
  match hs with
  | [] => (Ok tt, s, [])
  | h :: rest =>
      match hook_callback C h fn_name s with
      | (Ok _, s') =>
          let '(r, s'', entered) := run_callbacks C fn_name rest s' in
          (r, s'', h :: entered)
      | (Raise e, s') => (Raise e, s', [h])
      end
  end.

(** Two stores that hold the same objects. *)
Definition same_store (s s' : Store) : Prop :=
  runner s' = runner s /\
  (forall h, heap s' h = heap s h) /\
  optimizer s' = optimizer s /\
  last_checkpoint s' = last_checkpoint s /\
  next_ref s' = next_ref s.

(** What [h.state_dict()] gives in store [s]. *)
Definition exported (C : Collaborators) (s : Store) (h : href) : Res pyval :=
  fst (hook_state_dict C h (hdata (heap s h))).

Definition exported_value (C : Collaborators) (s : Store) (h : href) : pyval :=
  match exported C s h with
  | Ok v => v
  | Raise _ => PyNone
  end.

(** The hooks of a list as (kind, exported state) pairs. *)
Definition entries (C : Collaborators) (s : Store) (hs : list href)
  : list (string * pyval) :=
  map (fun h => (hook_kind s h, exported_value C s h)) hs.

(** The exported state of the first hook of a list that is of kind [k]
    and has a non-empty state. *)
Fixpoint first_state (C : Collaborators) (s : Store) (k : string)
    (hs : list href) : option pyval :=
  match hs with
  | [] => None
  | h :: rest =>
      if truthy (exported_value C s h) && String.eqb (hook_kind s h) k
      then Some (exported_value C s h)
      else first_state C s k rest
  end.

(** Section 4.3, step 3, in the spec's words: "for each hook in registry
    order, call its export_state" ... *)
Fixpoint export_all (C : Collaborators) (hs : list href)
  : M (list (string * pyval)) :=
  match hs with
  | [] => ret []
  | h :: rest =>
      sd <- call (EvHookStateDict h) (on_hook h (hook_state_dict C h)) ;;
      name <- gets (fun s => hook_kind s h) ;;
      l <- export_all C rest ;;
      ret ((name, sd) :: l)
  end.

Definition key_in (k : string) (seen : list string) : bool :=
  existsb (String.eqb k) seen.

(** ... "key surviving entries by hook kind; on a kind collision, keep the
    first occurrence and silently discard the rest" ... *)
Fixpoint keep_first (seen : list string) (l : list (string * pyval))
  : list (string * pyval) :=
  match l with
  | [] => []
  | (k, v) :: rest =>
      if key_in k seen then keep_first seen rest
      else (k, v) :: keep_first (seen ++ [k]) rest
  end.

(** ... "skip hooks returning empty/absent state". *)
Definition snapshot_hooks_spec (l : list (string * pyval))
  : list (string * pyval) :=
  keep_first [] (filter (fun kv => truthy (snd kv) = true) l).

(** Section 4.3, [snapshot], steps 1 to 4. *)
Definition state_dict_spec (C : Collaborators) : M Snapshot :=
  it <- gets (fun s => _iter (runner s)) ;;
  ep <- gets (fun s => _epoch (runner s)) ;;
  opt <- call EvOptimizerStateDict (on_optimizer (optimizer_state_dict C)) ;;
  hs <- gets (fun s => _hooks (runner s)) ;;
  l <- export_all C hs ;;
  ret (mkSnapshot it ep opt
         (match snapshot_hooks_spec l with [] => None | d => Some d end)).

(** What the restore of the entries [items] asks of the collaborators:
    per entry one import by the first hook of that kind, or one warning. *)
Definition restore_events (s : Store) (hs : list href)
    (items : list (string * pyval)) : list Event :=
  flat_map
    (fun kv =>
       match first_of_kind s (fst kv) hs with
       | Some h => [EvHookLoadStateDict h (snd kv)]
       | None => [EvWarning (missing_hook_warning (fst kv))]
       end)
    items.

(** ** register_hook_from_cfg *)

(** The dict [hook_cfg]: its entry 'priority', when it has one, and its
    other entries, 'type' among them. *)
Record HookCfg := mkHookCfg {
  hc_priority : option priority_arg;
  hc_items : list (string * pyval)
}.

(** [register_hook_from_cfg]; [build_from_cfg] is
    [cvcore.build_from_cfg(hook_cfg, HOOKS)], which makes the hook object
    and may raise.  The copy of the dict is what [pop] shortens, the
    caller's dict is not written. *)
Definition register_hook_from_cfg (C : Collaborators)
    (build_from_cfg : list (string * pyval) -> Store -> Res href * Store)
    (hook_cfg : HookCfg) : M unit :=
  let priority := default (PrioStr "NORMAL") (hc_priority hook_cfg) in
  let hook_cfg := hc_items hook_cfg in
  hook <- (fun w => let '(r, s) := build_from_cfg hook_cfg (store w) in
                    (r, mkWorld s (events w))) ;;
  register_hook C hook priority.

(** ** Sample collaborators *)

(** Modelled from the spec: [cvcore.get_priority] is not among the
    sources.  By the glossary an integer priority is the ordering key
    itself and the symbolic levels resolve to fixed integers. *)
Definition sample_get_priority (p : priority_arg) : option Z :=
  match p with
  | PrioInt n => Some n
  | PrioEnum v => Some v
  | PrioStr name =>
      if String.eqb name "HIGH" then Some 30%Z
      else if String.eqb name "NORMAL" then Some 50%Z
      else if String.eqb name "LOW" then Some 70%Z
      else None
  end.

(** Hooks that export their data and import by overwriting it, an
    optimizer of the same kind, and callbacks that count the steps in
    [_inner_iter]; the callback of a hook whose data is [PyNone] raises
    after counting. *)
Definition sample_callback (h : href) (fn_name : string) (s : Store)
  : Res unit * Store :=
  let r := runner s in
  let s' := set_runner
              (mkRunner (_hooks r) (_epoch r) (_iter r) (_inner_iter r + 1)
                        (mode r) (_max_epochs r) (_max_iters r) (work_dir r)
                        (cfg r)) s in
  match hdata (heap s h) with
  | PyNone => (Raise (CollaboratorError fn_name), s')
  | _ => (Ok tt, s')
  end.

Definition sample : Collaborators :=
  mkCollaborators
    sample_get_priority
    (fun _ d => (Ok d, d))
    (fun _ v _ => (Ok tt, v))
    (fun o => (Ok o, o))
    (fun v _ => (Ok tt, v))
    sample_callback
    1%Z 0%Z true
    (fun m _ _ => Ok m)
    (fun path => path)
    (fun _ => Ok tt).

(** A store with hook objects of the given kinds and data at references
    0, 1, ..., none registered. *)
Definition sample_heap (objs : list (string * pyval)) : href -> HookObj :=
  fun h =>
    match objs !! h with
    | Some (k, d) => mkHook k None d
    | None => mkHook "Hook" None PyNone
    end.

Definition sample_store (objs : list (string * pyval)) : Store :=
  mkStore (mkRunner [] 0 0 0 None None None None None)
          (sample_heap objs) PyNone None (length objs).

Definition sample_world (objs : list (string * pyval)) : World :=
  mkWorld (sample_store objs) [].

(** Two hooks of one kind "K": hook 0, with state 1, is registered first
    with priority 50; hook 1, with state 2, second with priority 10. *)
Definition sample_two_of_a_kind : World :=
  snd (register_hooks sample [(0, PrioInt 50); (1, PrioInt 10)]
         (sample_world [("K", PyInt 1); ("K", PyInt 2)])).

(** Two hooks of one kind and one priority, with states 1 and 2, and a
    fresh runner with the same hook set, its hooks without state. *)
Definition sample_twins : World :=
  snd (register_hooks sample [(0, PrioStr "NORMAL"); (1, PrioStr "NORMAL")]
         (sample_world [("K", PyInt 1); ("K", PyInt 2)])).


(** Hooks of distinct kinds: a timer with state 3 and a logger without
    state; and a fresh runner with the same hook set. *)
Definition sample_distinct : World :=
  snd (register_hooks sample [(0, PrioStr "NORMAL"); (1, PrioStr "LOW")]
         (sample_world [("IterTimerHook", PyInt 3); ("LoggerHook", PyNone)])).


(** Three hooks of which the second raises in its callbacks. *)
Definition sample_three : World :=
  snd (register_hooks sample
         [(0, PrioInt 50); (1, PrioInt 50); (2, PrioInt 50)]
         (sample_world [("A", PyInt 1); ("B", PyNone); ("C", PyInt 3)])).


Definition sample_args (wd : work_dir_arg) (max_iters max_epochs : option Z)
  : InitArgs :=
  mkInitArgs PyNone PyNone wd max_iters max_epochs (Some (mkCfg true 1)).

(** A builder that makes a hook object of the kind named by 'type', with
    the other entries as its data, at the next free reference; without a
    'type' it raises. *)
Definition sample_build_from_cfg (items : list (string * pyval)) (s : Store)
  : Res href * Store :=
  match assoc "type" items with
  | Some (PyStr name) =>
      let h := next_ref s in
      (Ok h, set_next_ref (S h)
               (set_heap (heap_set h (mkHook name None (PyDict items)) (heap s)) s))
  | _ => (Raise (CollaboratorError "build_from_cfg"), s)
  end.

(** Two hooks of one kind, the first without state and the second with
    state 2. *)
Definition sample_silent_first : World :=
  snd (register_hooks sample [(0, PrioStr "NORMAL"); (1, PrioStr "NORMAL")]
         (sample_world [("K", PyNone); ("K", PyInt 2)])).

(** Collaborators that fail: a hook or an optimizer without data raises
    in its export, hook 1 raises in its import, the wrapping of a model
    [PyNone] raises on a job of two processes, and no directory can be
    created. *)
Definition sample_failing : Collaborators :=
  mkCollaborators
    sample_get_priority
    (fun _ d => match d with
                | PyNone => (Raise (CollaboratorError "state_dict"), d)
                | _ => (Ok d, d)
                end)
    (fun h v d => if Nat.eqb h 1
                  then (Raise (CollaboratorError "load_state_dict"), d)
                  else (Ok tt, v))
    (fun o => match o with
              | PyNone => (Raise (CollaboratorError "optimizer"), o)
              | _ => (Ok o, o)
              end)
    (fun v _ => (Ok tt, v))
    sample_callback
    2%Z 0%Z true
    (fun m _ _ => match m with
                  | PyNone => Raise (CollaboratorError "DistributedDataParallel")
                  | _ => Ok m
                  end)
    (fun path => path)
    (fun _ => Raise (CollaboratorError "mkdir_or_exist")).

(** The three hooks of [sample_three] with an optimizer that has data. *)
Definition sample_three_optimized : World :=
  mkWorld (set_optimizer (PyInt 7) (store sample_three)) [].



(** * Properties *)

Ltac munfold :=
  unfold bind, gets, modify, ret, raise, emit, call, lift_res.

(** ** Lists *)

Lemma StronglySorted_insert {A} (R : A -> A -> Prop) (l1 l2 : list A) (x : A) :
  StronglySorted R (l1 ++ l2) ->
  Forall (fun y => R y x) l1 ->
  Forall (fun y => R x y) l2 ->
  StronglySorted R (l1 ++ x :: l2).
Proof.
  induction l1 as [|a l1 IH]; simpl; intros Hs H1 H2.
  - constructor; assumption.
  - inversion Hs as [|? ? Hs' Ha]; subst.
    inversion H1 as [|? ? Hax H1']; subst.
    constructor.
    + apply IH; assumption.
    + apply Forall_app in Ha as [Ha1 Ha2].
      apply Forall_app; split; [assumption|].
      constructor; assumption.
Qed.

Lemma StronglySorted_ext {A} (R R' : A -> A -> Prop) (l : list A) :
  (forall x y, x ∈ l -> y ∈ l -> R x y -> R' x y) ->
  StronglySorted R l -> StronglySorted R' l.
Proof.
  induction l as [|a l IH]; intros Hext Hs.
  - constructor.
  - inversion Hs as [|? ? Hs' Ha]; subst. constructor.
    + apply IH; [|assumption].
      intros x y Hx Hy. apply Hext; right; assumption.
    + rewrite Forall_forall in Ha |- *. intros y Hy.
      apply Hext; [left | right; assumption | apply Ha; assumption].
Qed.

(** In a sorted list whatever precedes an element is below it. *)
Lemma StronglySorted_take_le {A} (R : A -> A -> Prop) (l : list A) i x :
  StronglySorted R l -> l !! i = Some x ->
  Forall (fun y => R y x) (take i l).
Proof.
  intros Hs. revert i. induction Hs as [|a l Hs IH Ha]; intros i Hi.
  - discriminate.
  - destruct i as [|i]; simpl in *; [constructor|].
    constructor.
    + rewrite Forall_forall in Ha. apply Ha.
      apply list_elem_of_lookup. eauto.
    + apply IH; assumption.
Qed.

Lemma filter_ext_in {A} (P Q : A -> Prop)
    `{!forall x, Decision (P x)} `{!forall x, Decision (Q x)} (l : list A) :
  (forall x, x ∈ l -> P x <-> Q x) -> filter P l = filter Q l.
Proof.
  induction l as [|a l IH]; intros Hext; [reflexivity|].
  rewrite !filter_cons.
  rewrite IH by (intros x Hx; apply Hext; right; assumption).
  destruct (decide (P a)) as [Hp|Hp], (decide (Q a)) as [Hq|Hq];
    try reflexivity; exfalso.
  - apply Hq, (Hext a); [left|assumption].
  - apply Hp, (Hext a); [left|assumption].
Qed.

Lemma filter_none {A} (P : A -> Prop) `{!forall x, Decision (P x)} (l : list A) :
  Forall (fun x => ~ P x) l -> filter P l = [].
Proof.
  induction 1 as [|a l Ha _ IH]; [reflexivity|].
  rewrite filter_cons_False by assumption. exact IH.
Qed.

(** ** register_hook *)

Section RegistryFacts.

Variable C : Collaborators.

Lemma hook_priority_at_eq i w :
  hook_priority_at i w =
  match registry w !! i with
  | None => (Raise IndexError, w)
  | Some h =>
      match hook_priority (store w) h with
      | None => (Raise (AttributeError "priority"), w)
      | Some p => (Ok p, w)
      end
  end.
Proof.
  unfold hook_priority_at, registry, hook_priority. munfold.
  destruct (_ !! i) as [h|]; [|reflexivity].
  destruct (priority _); reflexivity.
Qed.

(** The backward scan stops just after the last hook that the new
    priority does not undercut. *)
Lemma register_scan_spec hook p n w :
  n <= length (registry w) ->
  registry_wf (store w) ->
  exists k, k <= n /\
    Forall (fun h => exists q, hook_priority (store w) h = Some q /\ (p < q)%Z)
           (drop k (take n (registry w))) /\
    match k with
    | O => register_scan hook p n w = (Ok false, w)
    | S i =>
        (exists h q, registry w !! i = Some h /\
                     hook_priority (store w) h = Some q /\ (q <= p)%Z) /\
        register_scan hook p n w = (Ok true, inserted_at k hook w)
    end.
Proof.
  intros Hn Hwf. induction n as [|i IH].
  - exists 0. split; [lia|]. split; [constructor|reflexivity].
  - destruct (lookup_lt_is_Some_2 (registry w) i) as [h Hh]; [lia|].
    assert (Hin : h ∈ registry w) by (apply list_elem_of_lookup; eauto).
    unfold registry_wf in Hwf. rewrite Forall_forall in Hwf.
    destruct (Hwf h Hin) as [q Hq].
    assert (Hstep : register_scan hook p (S i) w =
              if (p >=? q)%Z then (Ok true, inserted_at (S i) hook w)
              else register_scan hook p i w).
    { simpl. unfold bind at 1. rewrite hook_priority_at_eq, Hh, Hq.
      destruct (p >=? q)%Z; reflexivity. }
    rewrite Hstep. clear Hstep.
    destruct (Z.geb_spec p q) as [Hge|Hlt].
    + exists (S i). split; [lia|]. split.
      * rewrite drop_ge; [constructor|]. rewrite length_take. lia.
      * split; [|reflexivity].
        exists h, q. repeat split; [assumption..|lia].
    + destruct IH as (k & Hk & Hall & Hres); [lia|].
      exists k. split; [lia|]. split.
      * rewrite (take_S_r _ _ h) by assumption.
        rewrite drop_app_le by (rewrite length_take; lia).
        apply Forall_app; split; [assumption|].
        constructor; [|constructor]. exists q; split; [assumption|lia].
      * destruct k; [assumption|].
        destruct Hres as [Hex Hres]. split; assumption.
Qed.

Lemma hook_priority_with_priority hook p w h :
  hook_priority (store (with_priority hook p w)) h =
  if Nat.eqb h hook then Some p else hook_priority (store w) h.
Proof.
  unfold hook_priority, with_priority, heap_set. simpl.
  destruct (Nat.eqb h hook); reflexivity.
Qed.

Lemma unregistered_not_in hook w :
  registry_wf (store w) -> hook_priority (store w) hook = None ->
  hook ∉ registry w.
Proof.
  intros Hwf Hnone Hin. unfold registry_wf in Hwf.
  rewrite Forall_forall in Hwf. destruct (Hwf hook Hin) as [q Hq].
  congruence.
Qed.

Lemma hook_priority_registered hook p w h :
  registry_wf (store w) -> hook_priority (store w) hook = None ->
  h ∈ registry w ->
  hook_priority (store (with_priority hook p w)) h = hook_priority (store w) h.
Proof.
  intros Hwf Hnone Hin. rewrite hook_priority_with_priority.
  destruct (Nat.eqb_spec h hook) as [->|]; [|reflexivity].
  exfalso. eapply unregistered_not_in; eassumption.
Qed.

(** A successful registration: the priority is assigned and the hook
    goes in after every hook of lower or equal priority and before
    every hook of higher priority. *)
Lemma register_hook_ok hook pa p w :
  registry_wf (store w) -> registry_sorted (store w) ->
  hook_priority (store w) hook = None ->
  get_priority C pa = Some p ->
  exists k,
    register_hook C hook pa w
      = (Ok tt, inserted_at k hook (with_priority hook p w)) /\
    Forall (fun h => exists q, hook_priority (store w) h = Some q /\ (q <= p)%Z)
           (take k (registry w)) /\
    Forall (fun h => exists q, hook_priority (store w) h = Some q /\ (p < q)%Z)
           (drop k (registry w)).
Proof.
  intros Hwf Hs Hnone Hget.
  set (w1 := with_priority hook p w).
  assert (Hreg : registry w1 = registry w) by reflexivity.
  assert (Hsame : forall h, h ∈ registry w ->
            hook_priority (store w1) h = hook_priority (store w) h).
  { intros h Hh. apply hook_priority_registered; assumption. }
  assert (Hwf1 : registry_wf (store w1)).
  { unfold registry_wf in *. rewrite Forall_forall in Hwf |- *.
    intros h Hh. fold (registry w1) in Hh. rewrite Hreg in Hh.
    rewrite Hsame by assumption. apply Hwf, Hh. }
  destruct (register_scan_spec hook p (length (registry w1)) w1)
    as (k & Hk & Habove & Hres); [lia|assumption|].
  rewrite firstn_all, Hreg in Habove.
  assert (Habove' : Forall (fun h => exists q,
            hook_priority (store w) h = Some q /\ (p < q)%Z)
            (drop k (registry w))).
  { rewrite Forall_forall in Habove |- *. intros h Hh.
    destruct (Habove h Hh) as (q & Hq & Hlt). exists q. split; [|lia].
    rewrite <- Hsame; [assumption|].
    eapply subseteq_drop; eassumption. }
  assert (Hrun : register_hook C hook pa w =
            (match register_scan hook p (length (registry w1)) w1 with
             | (Ok true, w') => (Ok tt, w')
             | (Ok false, w') => insert_hook 0 hook w'
             | (Raise e, w') => (Raise e, w')
             end)).
  { unfold register_hook. munfold. unfold hook_priority in Hnone.
    rewrite Hnone, Hget. subst w1. unfold with_priority, registry. simpl.
    match goal with
    | |- context [register_scan ?a ?b ?c ?d] =>
        destruct (register_scan a b c d) as [[[|]|] ?]
    end; reflexivity. }
  exists k. split; [|split; [|assumption]].
  - rewrite Hrun. destruct k as [|i].
    + rewrite Hres. reflexivity.
    + destruct Hres as [_ ->]. reflexivity.
  - destruct k as [|i]; [constructor|].
    destruct Hres as [(h & q & Hh & Hq & Hle) _].
    rewrite Hreg in Hh.
    rewrite (take_S_r _ _ h) by assumption.
    apply Forall_app; split.
    + pose proof (StronglySorted_take_le _ _ _ _ Hs Hh) as Hbelow.
      rewrite Forall_forall in Hbelow |- *. intros y Hy.
      specialize (Hbelow y Hy). unfold prio_le in Hbelow.
      rewrite <- (Hsame h) in Hbelow
        by (apply list_elem_of_lookup; eauto).
      rewrite Hq in Hbelow.
      destruct (hook_priority (store w) y) as [py|]; [|contradiction].
      exists py. split; [reflexivity|lia].
    + constructor; [|constructor]. exists q. split; [|assumption].
      rewrite <- Hsame; [assumption|]. apply list_elem_of_lookup; eauto.
Qed.

Lemma register_hook_reserved hook pa q w :
  hook_priority (store w) hook = Some q ->
  register_hook C hook pa w = (Raise ValueError_reserved_priority, w).
Proof.
  intros Hq. unfold register_hook, hook_priority in *. munfold.
  rewrite Hq. reflexivity.
Qed.

Lemma register_hook_rejected hook pa w :
  hook_priority (store w) hook = None ->
  get_priority C pa = None ->
  register_hook C hook pa w = (Raise PriorityError, w).
Proof.
  intros Hq Hget. unfold register_hook, hook_priority in *. munfold.
  rewrite Hq, Hget. reflexivity.
Qed.

(** One call keeps the registry in order, whether it returns or raises. *)
Lemma register_hook_step hook pa w registered r w' :
  registry_holds w registered ->
  register_hook C hook pa w = (r, w') ->
  registry_holds w'
    (match r with Ok _ => registered ++ [hook] | Raise _ => registered end).
Proof.
  intros (Hwf & Hs & Hperm & Hstable) Hrun.
  destruct (hook_priority (store w) hook) as [q|] eqn:Hprio.
  { rewrite (register_hook_reserved _ _ _ _ Hprio) in Hrun.
    inversion Hrun; subst. repeat split; assumption. }
  destruct (get_priority C pa) as [p|] eqn:Hget.
  2:{ rewrite (register_hook_rejected _ _ _ Hprio Hget) in Hrun.
      inversion Hrun; subst. repeat split; assumption. }
  destruct (register_hook_ok hook pa p w Hwf Hs Hprio Hget)
    as (k & Heq & Hbelow & Habove).
  rewrite Heq in Hrun. inversion Hrun; subst r w'. clear Hrun Heq.
  set (w1 := with_priority hook p w).
  assert (Hnotin : hook ∉ registry w)
    by (apply unregistered_not_in; assumption).
  assert (Hsame : forall h, h ∈ registry w ->
            hook_priority (store w1) h = hook_priority (store w) h).
  { intros h Hh. apply hook_priority_registered; assumption. }
  assert (Hnew : hook_priority (store w1) hook = Some p).
  { unfold w1. rewrite hook_priority_with_priority, Nat.eqb_refl. reflexivity. }
  assert (Hsplit : registry w = take k (registry w) ++ drop k (registry w))
    by (symmetry; apply take_drop).
  assert (Hreg' : registry (inserted_at k hook w1)
                  = take k (registry w) ++ hook :: drop k (registry w))
    by reflexivity.
  assert (Hprio' : forall h, hook_priority (store (inserted_at k hook w1)) h
                             = hook_priority (store w1) h) by reflexivity.
  assert (Hbelow1 : Forall (fun h => exists q,
            hook_priority (store w1) h = Some q /\ (q <= p)%Z)
            (take k (registry w))).
  { rewrite Forall_forall in Hbelow |- *. intros h Hh.
    destruct (Hbelow h Hh) as (q & Hq & Hle). exists q. split; [|assumption].
    rewrite Hsame; [assumption|]. eapply subseteq_take; eassumption. }
  assert (Habove1 : Forall (fun h => exists q,
            hook_priority (store w1) h = Some q /\ (p < q)%Z)
            (drop k (registry w))).
  { rewrite Forall_forall in Habove |- *. intros h Hh.
    destruct (Habove h Hh) as (q & Hq & Hlt). exists q. split; [|assumption].
    rewrite Hsame; [assumption|]. eapply subseteq_drop; eassumption. }
  clear Hbelow Habove.
  unfold registry_holds, registry_wf, registry_sorted.
  fold (registry (inserted_at k hook w1)). rewrite Hreg'.
  split; [|split; [|split]].
  - apply Forall_app; split; [|constructor].
    + eapply Forall_impl; [exact Hbelow1|]. intros h (q & Hq & _).
      rewrite Hprio', Hq. eexists; reflexivity.
    + rewrite Hprio', Hnew. eexists; reflexivity.
    + eapply Forall_impl; [exact Habove1|]. intros h (q & Hq & _).
      rewrite Hprio', Hq. eexists; reflexivity.
  - apply StronglySorted_insert.
    + rewrite <- Hsplit.
      apply (StronglySorted_ext (prio_le (store w))); [|exact Hs].
      intros x y Hx Hy. unfold prio_le.
      rewrite !Hprio', !Hsame by assumption. trivial.
    + eapply Forall_impl; [exact Hbelow1|]. intros h (q & Hq & Hle).
      unfold prio_le. rewrite !Hprio', Hq, Hnew. exact Hle.
    + eapply Forall_impl; [exact Habove1|]. intros h (q & Hq & Hlt).
      unfold prio_le. rewrite !Hprio', Hq, Hnew. lia.
  - rewrite <- Permutation_middle, <- Hsplit, Hperm.
    apply Permutation_cons_append.
  - intros q. unfold of_priority in *.
    assert (Hold : forall l, l ⊆ registry w ->
              filter (fun h => hook_priority (store (inserted_at k hook w1)) h = Some q) l
              = filter (fun h => hook_priority (store w) h = Some q) l).
    { intros l Hl. apply filter_ext_in. intros h Hh.
      rewrite Hprio', Hsame by (apply Hl; assumption). reflexivity. }
    rewrite !filter_app, !filter_cons, filter_nil.
    rewrite (Hold (take k (registry w))) by apply subseteq_take.
    rewrite (Hold (drop k (registry w))) by apply subseteq_drop.
    rewrite (Hold registered) by (intros h Hh; rewrite Hperm; exact Hh).
    rewrite <- Hstable.
    replace (filter (fun h => hook_priority (store w) h = Some q) (registry w))
      with (filter (fun h => hook_priority (store w) h = Some q)
                   (take k (registry w) ++ drop k (registry w)))
      by (rewrite <- Hsplit; reflexivity).
    rewrite filter_app.
    rewrite Hprio', Hnew.
    destruct (decide (Some p = Some q)) as [Heq|Hne].
    + assert (Hnone : filter (fun h => hook_priority (store w) h = Some q)
                             (drop k (registry w)) = []).
      { apply filter_none. rewrite Forall_forall in Habove1 |- *.
        intros h Hh. destruct (Habove1 h Hh) as (q' & Hq' & Hlt).
        rewrite Hsame in Hq' by (eapply subseteq_drop; eassumption).
        rewrite Hq'. intros Hc. inversion Hc; inversion Heq; subst. lia. }
      rewrite Hnone, !app_nil_r. reflexivity.
    + rewrite app_nil_r. reflexivity.
Qed.

Lemma register_hooks_holds calls : forall w registered0 registered w',
  registry_holds w registered0 ->
  register_hooks C calls w = (registered, w') ->
  registry_holds w' (registered0 ++ registered).
Proof.
  induction calls as [|[h pa] calls IH]; intros w reg0 reg w' Hinv Hrun.
  - inversion Hrun; subst. rewrite app_nil_r. exact Hinv.
  - simpl in Hrun.
    destruct (register_hook C h pa w) as [r w1] eqn:Hcall.
    destruct (register_hooks C calls w1) as [reg1 w2] eqn:Hrest.
    inversion Hrun; subst reg w'. clear Hrun.
    pose proof (register_hook_step _ _ _ _ _ _ Hinv Hcall) as Hinv1.
    pose proof (IH _ _ _ _ Hinv1 Hrest) as Hinv2.
    destruct r; [|exact Hinv2].
    rewrite <- app_assoc in Hinv2. exact Hinv2.
Qed.

Lemma registry_holds_empty w : registry w = [] -> registry_holds w [].
Proof.
  intros Hempty. unfold registry_holds, registry_wf, registry_sorted.
  fold (registry w). rewrite Hempty.
  repeat split; [constructor | constructor | reflexivity].
Qed.

(** A successful registration, with the invariant it keeps. *)
Lemma register_hook_next hook pa p w registered :
  registry_holds w registered ->
  hook_priority (store w) hook = None ->
  get_priority C pa = Some p ->
  exists k,
    register_hook C hook pa w
      = (Ok tt, inserted_at k hook (with_priority hook p w)) /\
    Forall (fun h => exists q, hook_priority (store w) h = Some q /\ (q <= p)%Z)
           (take k (registry w)) /\
    Forall (fun h => exists q, hook_priority (store w) h = Some q /\ (p < q)%Z)
           (drop k (registry w)) /\
    registry_holds (inserted_at k hook (with_priority hook p w))
                   (registered ++ [hook]).
Proof.
  intros Hinv Hprio Hget.
  destruct Hinv as (Hwf & Hs & Hrest).
  destruct (register_hook_ok hook pa p w Hwf Hs Hprio Hget)
    as (k & Heq & Hbelow & Habove).
  exists k. split; [exact Heq|]. split; [exact Hbelow|].
  split; [exact Habove|].
  apply (register_hook_step hook pa w registered (Ok tt)); [|exact Heq].
  split; [|split]; assumption.
Qed.

(** Three hooks A, B, C with priorities n, n and m < n, registered in
    this order into an empty registry, end up in the order C, A, B. *)
Lemma register_three a b c pa pb pc n m w0 :
  registry w0 = [] ->
  a <> b -> a <> c -> b <> c ->
  hook_priority (store w0) a = None ->
  hook_priority (store w0) b = None ->
  hook_priority (store w0) c = None ->
  get_priority C pa = Some n ->
  get_priority C pb = Some n ->
  get_priority C pc = Some m ->
  (m < n)%Z ->
  exists w, register_hooks C [(a, pa); (b, pb); (c, pc)] w0 = ([a; b; c], w) /\
            registry w = [c; a; b].
Proof.
  intros Hempty Hab Hac Hbc Ha Hb Hc Hpa Hpb Hpc Hlt.
  pose proof (registry_holds_empty _ Hempty) as H0.
  destruct (register_hook_next a pa n w0 [] H0 Ha Hpa)
    as (k1 & E1 & _ & _ & H1).
  set (w1 := inserted_at k1 a (with_priority a n w0)) in *.
  assert (R1 : registry w1 = [a]).
  { change (registry w1) with (list_insert_at k1 a (registry w0)).
    rewrite Hempty. unfold list_insert_at.
    rewrite take_nil, drop_nil. reflexivity. }
  assert (P1 : forall h, hook_priority (store w1) h
                 = if Nat.eqb h a then Some n else hook_priority (store w0) h).
  { intros h. apply hook_priority_with_priority. }
  assert (Hb1 : hook_priority (store w1) b = None).
  { rewrite P1. destruct (Nat.eqb_spec b a); [congruence|assumption]. }
  destruct (register_hook_next b pb n w1 _ H1 Hb1 Hpb)
    as (k2 & E2 & _ & Habove2 & H2).
  set (w2 := inserted_at k2 b (with_priority b n w1)) in *.
  assert (R2 : registry w2 = [a; b]).
  { change (registry w2) with (list_insert_at k2 b (registry w1)).
    rewrite R1 in Habove2 |- *. unfold list_insert_at.
    destruct k2 as [|k2]; simpl.
    - exfalso. inversion Habove2 as [|? ? (q & Hq & Hq') _]; subst.
      rewrite P1, Nat.eqb_refl in Hq. inversion Hq; subst. lia.
    - rewrite take_nil, drop_nil. reflexivity. }
  assert (P2 : forall h, hook_priority (store w2) h
                 = if Nat.eqb h b then Some n else hook_priority (store w1) h).
  { intros h. apply hook_priority_with_priority. }
  assert (Hc2 : hook_priority (store w2) c = None).
  { rewrite P2, P1.
    destruct (Nat.eqb_spec c b); [congruence|].
    destruct (Nat.eqb_spec c a); [congruence|assumption]. }
  destruct (register_hook_next c pc m w2 _ H2 Hc2 Hpc)
    as (k3 & E3 & Hbelow3 & _ & H3).
  set (w3 := inserted_at k3 c (with_priority c m w2)) in *.
  assert (R3 : registry w3 = [c; a; b]).
  { change (registry w3) with (list_insert_at k3 c (registry w2)).
    rewrite R2 in Hbelow3 |- *. unfold list_insert_at.
    destruct k3 as [|k3]; simpl; [reflexivity|].
    exfalso. simpl in Hbelow3.
    inversion Hbelow3 as [|? ? (q & Hq & Hq') _]; subst.
    rewrite P2, P1, Nat.eqb_refl in Hq.
    destruct (Nat.eqb_spec a b); [congruence|].
    inversion Hq; subst. lia. }
  exists w3. split; [|exact R3].
  simpl. rewrite E1. fold w1. rewrite E2. fold w2. rewrite E3. reflexivity.
Qed.

Lemma register_hook_run hook pa p w :
  hook_priority (store w) hook = None ->
  get_priority C pa = Some p ->
  register_hook C hook pa w =
  match register_scan hook p (length (registry w)) (with_priority hook p w) with
  | (Ok true, w') => (Ok tt, w')
  | (Ok false, w') => insert_hook 0 hook w'
  | (Raise e, w') => (Raise e, w')
  end.
Proof.
  intros Hnone Hget. unfold register_hook. munfold.
  unfold hook_priority in Hnone. rewrite Hnone, Hget.
  unfold with_priority, registry. simpl.
  match goal with
  | |- context [register_scan ?a ?b ?c ?d] =>
      destruct (register_scan a b c d) as [[[|]|] ?]
  end; reflexivity.
Qed.

(** The scan writes nothing but the registry list, and what it raises is
    no configuration error. *)
Lemma register_scan_frame hook p n : forall w r w',
  register_scan hook p n w = (r, w') ->
  heap (store w') = heap (store w) /\
  match r with
  | Raise e => ConfigurationError e = false
  | Ok _ => True
  end.
Proof.
  induction n as [|i IH]; intros w r w' Hrun.
  - inversion Hrun; subst. split; [reflexivity|exact I].
  - simpl in Hrun. unfold bind at 1 in Hrun.
    rewrite hook_priority_at_eq in Hrun.
    destruct (registry w !! i) as [h|].
    2:{ inversion Hrun; subst. split; reflexivity. }
    destruct (hook_priority (store w) h) as [q|].
    2:{ inversion Hrun; subst. split; reflexivity. }
    destruct (p >=? q)%Z.
    + inversion Hrun; subst. split; [reflexivity|exact I].
    + apply IH. exact Hrun.
Qed.

(** C6: [register_hook] fails with a configuration error exactly when the
    hook already carries a [priority] attribute; that failure leaves the
    whole world, so the registry and the hook, as it was; and a
    registration that returns has assigned the resolved priority to a
    hook that had none, has touched no other hook object, and no later
    registration can assign it again. *)
Theorem register_hook_double_registration
    (hook : href) (pa : priority_arg) (w : World) :
  ((exists e w', register_hook C hook pa w = (Raise e, w') /\
                 ConfigurationError e = true)
   <-> is_Some (hook_priority (store w) hook)) /\
  (is_Some (hook_priority (store w) hook) ->
   register_hook C hook pa w = (Raise ValueError_reserved_priority, w)) /\
  (forall w', register_hook C hook pa w = (Ok tt, w') ->
     hook_priority (store w) hook = None /\
     (exists p, get_priority C pa = Some p /\
                heap (store w') hook = set_priority p (heap (store w) hook)) /\
     (forall h, h <> hook -> heap (store w') h = heap (store w) h) /\
     (forall pa', register_hook C hook pa' w'
                  = (Raise ValueError_reserved_priority, w'))).
Proof.
  assert (Hfail : is_Some (hook_priority (store w) hook) ->
            register_hook C hook pa w = (Raise ValueError_reserved_priority, w)).
  { intros [q Hq]. eapply register_hook_reserved; eassumption. }
  split; [split|split; [exact Hfail|]].
  - intros (e & w' & Hrun & Hcfg).
    destruct (hook_priority (store w) hook) as [q|] eqn:Hprio; [eauto|].
    exfalso. destruct (get_priority C pa) as [p|] eqn:Hget.
    + rewrite (register_hook_run _ _ _ _ Hprio Hget) in Hrun.
      destruct (register_scan hook p _ _) as [[[|]|e'] w1] eqn:Hscan;
        try discriminate.
      inversion Hrun; subst.
      destruct (register_scan_frame _ _ _ _ _ _ Hscan) as [_ Hne].
      congruence.
    + rewrite (register_hook_rejected _ _ _ Hprio Hget) in Hrun.
      inversion Hrun; subst. discriminate.
  - intros Hsome. eexists _, _. split; [apply Hfail, Hsome|reflexivity].
  - intros w' Hrun.
    destruct (hook_priority (store w) hook) as [q|] eqn:Hprio.
    { rewrite Hfail in Hrun by eauto. discriminate. }
    destruct (get_priority C pa) as [p|] eqn:Hget.
    2:{ rewrite (register_hook_rejected _ _ _ Hprio Hget) in Hrun.
        discriminate. }
    rewrite (register_hook_run _ _ _ _ Hprio Hget) in Hrun.
    destruct (register_scan hook p _ _) as [[[|]|e'] w1] eqn:Hscan;
      try discriminate;
      destruct (register_scan_frame _ _ _ _ _ _ Hscan) as [Hheap _];
      inversion Hrun; subst w'; clear Hrun.
    + assert (Hobj : heap (store w1) hook = set_priority p (heap (store w) hook)).
      { rewrite Hheap. unfold with_priority, heap_set. simpl.
        rewrite Nat.eqb_refl. reflexivity. }
      split; [reflexivity|]. split; [exists p; split; [reflexivity|exact Hobj]|].
      split.
      * intros h Hne. rewrite Hheap. unfold with_priority, heap_set. simpl.
        destruct (Nat.eqb_spec h hook); [contradiction|reflexivity].
      * intros pa'. apply (register_hook_reserved _ _ p).
        unfold hook_priority. rewrite Hobj. reflexivity.
    + assert (Hobj : heap (store w1) hook = set_priority p (heap (store w) hook)).
      { rewrite Hheap. unfold with_priority, heap_set. simpl.
        rewrite Nat.eqb_refl. reflexivity. }
      split; [reflexivity|]. split; [exists p; split; [reflexivity|exact Hobj]|].
      split.
      * intros h Hne. simpl. rewrite Hheap. unfold with_priority, heap_set. simpl.
        destruct (Nat.eqb_spec h hook); [contradiction|reflexivity].
      * intros pa'. apply (register_hook_reserved _ _ p).
        unfold hook_priority. simpl. rewrite Hobj. reflexivity.
Qed.

(** C1: after every sequence of [register_hook] calls on a registry that
    starts empty, the registry is sorted by non-decreasing priority and
    holds exactly the hooks whose registration returned, those of equal
    priority in their registration order.  In particular hooks A, B, C
    whose priorities resolve to n, n and m < n (10, 10 and 5), registered
    in the order A, B, C, end up in the order C, A, B. *)
Theorem register_hook_sorted_stable
    (calls : list (href * priority_arg)) (w0 w : World)
    (registered : list href) :
  registry w0 = [] ->
  register_hooks C calls w0 = (registered, w) ->
  (registry_wf (store w) /\
   registry_sorted (store w) /\
   registry w ≡ₚ registered /\
   forall q, of_priority (store w) q (registry w)
             = of_priority (store w) q registered) /\
  (forall a b c pa pb pc n m,
     a <> b -> a <> c -> b <> c ->
     hook_priority (store w0) a = None ->
     hook_priority (store w0) b = None ->
     hook_priority (store w0) c = None ->
     get_priority C pa = Some n ->
     get_priority C pb = Some n ->
     get_priority C pc = Some m ->
     (m < n)%Z ->
     exists w3,
       register_hooks C [(a, pa); (b, pb); (c, pc)] w0 = ([a; b; c], w3) /\
       registry w3 = [c; a; b]).
Proof.
  intros Hempty Hrun. split.
  - apply (register_hooks_holds calls w0 [] registered w);
      [apply registry_holds_empty|]; assumption.
  - intros a b c pa pb pc n m Hab Hac Hbc Ha Hb Hc Hpa Hpb Hpc Hlt.
    exact (register_three a b c pa pb pc n m w0
             Hempty Hab Hac Hbc Ha Hb Hc Hpa Hpb Hpc Hlt).
Qed.

End RegistryFacts.

(** The scenario of the spec: A and B with priority 10, then C with
    priority 5. *)
Lemma register_hook_sorted_stable_witness :
  let w0 := sample_world [("A", PyNone); ("B", PyNone); ("C", PyNone)] in
  let calls := [(0, PrioInt 10); (1, PrioInt 10); (2, PrioInt 5)] in
  let w := snd (register_hooks sample calls w0) in
  registry w0 = [] /\
  register_hooks sample calls w0 = ([0; 1; 2], w) /\
  registry w = [2; 0; 1] /\
  registry_sorted (store w) /\
  of_priority (store w) 10 (registry w) = [0; 1].
Proof.
  intros w0 calls w.
  assert (H0 : registry w0 = []) by reflexivity.
  assert (H1 : register_hooks sample calls w0 = ([0; 1; 2], w))
    by (vm_compute; reflexivity).
  destruct (register_hook_sorted_stable sample calls w0 w [0; 1; 2] H0 H1)
    as [(_ & Hsorted & _ & Hstable) _].
  split; [exact H0|]. split; [exact H1|].
  split; [vm_compute; reflexivity|].
  split; [exact Hsorted|].
  rewrite Hstable. vm_compute. reflexivity.
Defined.

(** A hook registered once, then offered again. *)
Lemma register_hook_double_registration_witness :
  let w0 := sample_world [("A", PyNone)] in
  let w1 := snd (register_hook sample 0 (PrioInt 10) w0) in
  register_hook sample 0 (PrioInt 10) w0 = (Ok tt, w1) /\
  hook_priority (store w0) 0 = None /\
  hook_priority (store w1) 0 = Some 10%Z /\
  registry w1 = [0] /\
  register_hook sample 0 (PrioStr "LOW") w1
    = (Raise ValueError_reserved_priority, w1).
Proof.
  intros w0 w1.
  assert (H1 : register_hook sample 0 (PrioInt 10) w0 = (Ok tt, w1))
    by (vm_compute; reflexivity).
  destruct (register_hook_double_registration sample 0 (PrioInt 10) w0)
    as (_ & _ & Hok).
  destruct (Hok w1 H1) as (Hnone & _ & _ & Hagain).
  split; [exact H1|]. split; [exact Hnone|].
  split; [vm_compute; reflexivity|]. split; [vm_compute; reflexivity|].
  apply Hagain.
Defined.

(** ** The monad, step by step *)

Lemma bind_unfold {A B} (c : M A) (k : A -> M B) w :
  bind c k w =
  match c w with
  | (Ok a, w') => k a w'
  | (Raise e, w') => (Raise e, w')
  end.
Proof. reflexivity. Qed.

Lemma bind_gets {A B} (f : Store -> A) (k : A -> M B) w :
  bind (gets f) k w = k (f (store w)) w.
Proof. reflexivity. Qed.

Lemma bind_modify {B} (f : Store -> Store) (k : unit -> M B) w :
  bind (modify f) k w = k tt (mkWorld (f (store w)) (events w)).
Proof. reflexivity. Qed.

Lemma bind_emit {B} (ev : Event) (k : unit -> M B) w :
  bind (emit ev) k w = k tt (mkWorld (store w) (events w ++ [ev])).
Proof. reflexivity. Qed.

Lemma bind_ret {A B} (a : A) (k : A -> M B) w :
  bind (ret a) k w = k a w.
Proof. reflexivity. Qed.

Lemma call_unfold {A} (ev : Event) (op : Store -> Res A * Store) w :
  call ev op w
  = (fst (op (store w)), mkWorld (snd (op (store w))) (events w ++ [ev])).
Proof. unfold call. destruct (op (store w)); reflexivity. Qed.

(** ** Stores *)

Lemma same_store_refl s : same_store s s.
Proof. repeat split. Qed.

Lemma same_store_trans s1 s2 s3 :
  same_store s1 s2 -> same_store s2 s3 -> same_store s1 s3.
Proof.
  intros (Hr & Hh & Ho & Hc & Hn) (Hr' & Hh' & Ho' & Hc' & Hn').
  unfold same_store. split; [congruence|]. split; [|repeat split; congruence].
  intros h. rewrite Hh', Hh. reflexivity.
Qed.

Lemma set_hdata_same o : set_hdata (hdata o) o = o.
Proof. destruct o; reflexivity. Qed.

(** A method of a hook that hands its data back unchanged leaves every
    object as it was. *)
Lemma on_hook_pure {A} h (op : pyval -> Res A * pyval) s :
  snd (op (hdata (heap s h))) = hdata (heap s h) ->
  same_store s (snd (on_hook h op s)).
Proof.
  intros Hpure. unfold on_hook.
  destruct (op (hdata (heap s h))) as [r d]. simpl in *. subst d.
  repeat split. intros h'. simpl. unfold heap_set.
  destruct (Nat.eqb_spec h' h) as [->|]; [apply set_hdata_same|reflexivity].
Qed.

Lemma on_optimizer_pure {A} (op : pyval -> Res A * pyval) s :
  snd (op (optimizer s)) = optimizer s ->
  same_store s (snd (on_optimizer op s)).
Proof.
  intros Hpure. unfold on_optimizer.
  destruct (op (optimizer s)) as [r o]. simpl in *. subst o.
  repeat split.
Qed.

(** ** state_dict *)

Lemma dict_has_key_in name (d : list (string * pyval)) :
  dict_has name d = key_in name (map fst d).
Proof.
  unfold dict_has, key_in. induction d as [|[k v] d IH]; [reflexivity|].
  simpl. rewrite IH, (String.eqb_sym k name). reflexivity.
Qed.

Lemma key_in_app k seen k' :
  key_in k (seen ++ [k']) = key_in k seen || String.eqb k k'.
Proof.
  unfold key_in. rewrite existsb_app. simpl. rewrite orb_false_r. reflexivity.
Qed.

Lemma assoc_None_iff k (d : list (string * pyval)) :
  assoc k d = None <-> k ∉ map fst d.
Proof.
  induction d as [|[k' v] d IH]; simpl.
  - split; [intros _ H; inversion H | reflexivity].
  - rewrite not_elem_of_cons. destruct (String.eqb_spec k' k) as [->|Hne].
    + split; [discriminate | intros [Hc _]; contradiction].
    + rewrite IH. split; [intros H; split; [congruence|exact H] | intros [_ H]; exact H].
Qed.

(** Keeping first occurrences: a key already seen is dropped, any other
    key keeps the value of its first occurrence. *)
Lemma keep_first_assoc l : forall seen k,
  assoc k (keep_first seen l) = if key_in k seen then None else assoc k l.
Proof.
  induction l as [|[k' v] rest IH]; intros seen k; simpl.
  - destruct (key_in k seen); reflexivity.
  - destruct (key_in k' seen) eqn:Hseen.
    + rewrite IH. destruct (String.eqb_spec k' k) as [->|Hne].
      * rewrite Hseen. reflexivity.
      * reflexivity.
    + simpl. destruct (String.eqb_spec k' k) as [->|Hne].
      * rewrite Hseen. reflexivity.
      * rewrite IH, key_in_app.
        destruct (String.eqb_spec k k') as [->|_]; [contradiction|].
        rewrite orb_false_r. reflexivity.
Qed.

Lemma keep_first_NoDup l : forall seen, NoDup (map fst (keep_first seen l)).
Proof.
  induction l as [|[k' v] rest IH]; intros seen; simpl; [constructor|].
  destruct (key_in k' seen); [apply IH|].
  simpl. constructor; [|apply IH].
  apply assoc_None_iff. rewrite keep_first_assoc, key_in_app.
  rewrite String.eqb_refl, orb_true_r. reflexivity.
Qed.


(** Where no key occurs twice nothing is dropped. *)
Lemma keep_first_NoDup_id l : forall seen,
  NoDup (map fst l) ->
  (forall k, k ∈ map fst l -> key_in k seen = false) ->
  keep_first seen l = l.
Proof.
  induction l as [|[k' v] rest IH]; intros seen Hnd Hseen; simpl; [reflexivity|].
  simpl in Hnd. inversion Hnd as [|? ? Hnotin Hnd']; subst.
  rewrite (Hseen k') by (left).
  f_equal. apply IH; [assumption|].
  intros k Hk. rewrite key_in_app, (Hseen k) by (right; assumption).
  destruct (String.eqb_spec k k') as [->|_]; [contradiction|reflexivity].
Qed.

(** ** Hooks of one kind and one priority *)

Lemma first_of_kind_filter s key (P : href -> Prop)
    `{!forall h, Decision (P h)} (l : list href) :
  (forall h, h ∈ l -> hook_kind s h = key -> P h) ->
  first_of_kind s key (filter P l) = first_of_kind s key l.
Proof.
  induction l as [|a l IH]; intros HP; [reflexivity|].
  assert (IH' : first_of_kind s key (filter P l) = first_of_kind s key l)
    by (apply IH; intros h Hh; apply HP; right; exact Hh).
  rewrite filter_cons. simpl.
  destruct (decide (P a)) as [Hp|Hn]; simpl.
  - rewrite IH'. reflexivity.
  - destruct (String.eqb_spec (hook_kind s a) key) as [Hk|_]; [|exact IH'].
    exfalso. apply Hn, HP; [left|exact Hk].
Qed.

Lemma first_state_filter C s k (P : href -> Prop)
    `{!forall h, Decision (P h)} (l : list href) :
  (forall h, h ∈ l -> hook_kind s h = k -> P h) ->
  first_state C s k (filter P l) = first_state C s k l.
Proof.
  induction l as [|a l IH]; intros HP; [reflexivity|].
  assert (IH' : first_state C s k (filter P l) = first_state C s k l)
    by (apply IH; intros h Hh; apply HP; right; exact Hh).
  rewrite filter_cons. simpl.
  destruct (decide (P a)) as [Hp|Hn]; simpl.
  - rewrite IH'. reflexivity.
  - destruct (String.eqb_spec (hook_kind s a) k) as [Hk|_].
    + exfalso. apply Hn, HP; [left|exact Hk].
    + rewrite andb_false_r. exact IH'.
Qed.

(** Among hooks of one priority the registry has the order of
    registration: where the hooks of a kind share one priority, the first
    of them in the registry is the first of them registered. *)
Lemma first_of_kind_registered w registered q key :
  registry_holds w registered ->
  (forall h, h ∈ registry w -> hook_kind (store w) h = key ->
             hook_priority (store w) h = Some q) ->
  first_of_kind (store w) key (registry w)
  = first_of_kind (store w) key registered.
Proof.
  intros (_ & _ & Hperm & Hstable) Hq.
  rewrite <- (first_of_kind_filter _ _
                (fun h => hook_priority (store w) h = Some q) (registry w))
    by exact Hq.
  rewrite <- (first_of_kind_filter _ _
                (fun h => hook_priority (store w) h = Some q) registered)
    by (intros h Hh; apply Hq; rewrite Hperm; exact Hh).
  specialize (Hstable q). unfold of_priority in Hstable.
  rewrite Hstable. reflexivity.
Qed.

Lemma first_state_registered C w registered q k :
  registry_holds w registered ->
  (forall h, h ∈ registry w -> hook_kind (store w) h = k ->
             hook_priority (store w) h = Some q) ->
  first_state C (store w) k (registry w)
  = first_state C (store w) k registered.
Proof.
  intros (_ & _ & Hperm & Hstable) Hq.
  rewrite <- (first_state_filter C _ _
                (fun h => hook_priority (store w) h = Some q) (registry w))
    by exact Hq.
  rewrite <- (first_state_filter C _ _
                (fun h => hook_priority (store w) h = Some q) registered)
    by (intros h Hh; apply Hq; rewrite Hperm; exact Hh).
  specialize (Hstable q). unfold of_priority in Hstable.
  rewrite Hstable. reflexivity.
Qed.

Section SnapshotFacts.

Variable C : Collaborators.

(** The loop of [state_dict] is the spec's collect-then-key. *)
Lemma state_dict_hooks_refines hs : forall acc w,
  state_dict_hooks C hs acc w =
  (l <- export_all C hs ;;
   ret (acc ++ keep_first (map fst acc)
                 (filter (fun kv => truthy (snd kv) = true) l))) w.
Proof.
  induction hs as [|h rest IH]; intros acc w.
  - simpl. rewrite bind_ret. unfold ret. rewrite filter_nil. simpl.
    rewrite app_nil_r. reflexivity.
  - simpl state_dict_hooks. simpl export_all.
    rewrite !bind_unfold.
    destruct (call (EvHookStateDict h) (on_hook h (hook_state_dict C h)) w)
      as [[sd|e] w1]; [|reflexivity].
    rewrite (bind_gets (fun s => hook_kind s h)).
    rewrite (bind_unfold (export_all C rest)).
    destruct (truthy sd) eqn:Hsd.
    + rewrite bind_gets. fold (hook_kind (store w1) h).
      rewrite dict_has_key_in.
      destruct (key_in (hook_kind (store w1) h) (map fst acc)) eqn:Hin;
        rewrite IH, bind_unfold;
        destruct (export_all C rest w1) as [[l|e] w2]; try reflexivity;
        unfold ret; rewrite filter_cons_True by exact Hsd; simpl;
        rewrite Hin; [reflexivity|].
      rewrite map_app, <- app_assoc. reflexivity.
    + rewrite IH, bind_unfold.
      destruct (export_all C rest w1) as [[l|e] w2]; [|reflexivity].
      unfold ret. rewrite filter_cons_False; [reflexivity|].
      simpl. rewrite Hsd. discriminate.
Qed.

Lemma state_dict_refines w : state_dict C w = state_dict_spec C w.
Proof.
  unfold state_dict, state_dict_spec.
  rewrite !bind_gets. rewrite !(bind_unfold (call _ _)).
  destruct (call EvOptimizerStateDict _ w) as [[opt|e] w1]; [|reflexivity].
  rewrite !bind_gets. rewrite !bind_unfold.
  rewrite state_dict_hooks_refines. rewrite bind_unfold.
  destruct (export_all C _ w1) as [[l|e] w2]; [|reflexivity].
  unfold ret, snapshot_hooks_spec. simpl.
  destruct (keep_first _ _); reflexivity.
Qed.

Lemma export_all_frame hs :
  (forall h d, snd (hook_state_dict C h d) = d) ->
  forall w r w', export_all C hs w = (r, w') ->
  same_store (store w) (store w').
Proof.
  intros Hpure. induction hs as [|h rest IH]; intros w r w' Hrun.
  - inversion Hrun; subst. apply same_store_refl.
  - simpl in Hrun. rewrite bind_unfold, call_unfold in Hrun.
    pose proof (on_hook_pure h (hook_state_dict C h) (store w) (Hpure _ _))
      as Hstep.
    destruct (fst (on_hook h (hook_state_dict C h) (store w))) as [sd|e].
    2:{ inversion Hrun; subst. exact Hstep. }
    rewrite bind_gets, bind_unfold in Hrun.
    destruct (export_all C rest _) as [[l|e] w2] eqn:Hrest;
      inversion Hrun; subst; clear Hrun;
      apply IH in Hrest; simpl in Hrest;
      eapply same_store_trans; eassumption.
Qed.

Lemma entries_same_store s s' hs :
  same_store s s' -> entries C s' hs = entries C s hs.
Proof.
  intros (_ & Hh & _). unfold entries. apply map_ext. intros h.
  unfold hook_kind, exported_value, exported. rewrite Hh. reflexivity.
Qed.

Lemma first_state_assoc s k hs :
  assoc k (filter (fun kv => truthy (snd kv) = true) (entries C s hs))
  = first_state C s k hs.
Proof.
  induction hs as [|h rest IH]; [reflexivity|].
  simpl. rewrite filter_cons. simpl.
  destruct (decide (truthy (exported_value C s h) = true)) as [Ht|Hf].
  - rewrite Ht. simpl. destruct (String.eqb (hook_kind s h) k);
      [reflexivity|exact IH].
  - apply not_true_is_false in Hf. rewrite Hf. simpl. exact IH.
Qed.

Lemma fst_on_hook {A} h (op : pyval -> Res A * pyval) s :
  fst (on_hook h op s) = fst (op (hdata (heap s h))).
Proof. unfold on_hook. destruct (op _); reflexivity. Qed.

Lemma fst_on_optimizer {A} (op : pyval -> Res A * pyval) s :
  fst (on_optimizer op s) = fst (op (optimizer s)).
Proof. unfold on_optimizer. destruct (op _); reflexivity. Qed.

(** With exports that are reads and return, the pass over the hooks
    returns their (kind, state) pairs in the order of the list and asks
    each hook once. *)
Lemma export_all_pure hs :
  (forall h d, exists v, hook_state_dict C h d = (Ok v, d)) ->
  forall w, exists w',
    export_all C hs w = (Ok (entries C (store w) hs), w') /\
    same_store (store w) (store w') /\
    events w' = events w ++ map EvHookStateDict hs.
Proof.
  intros Hexp. induction hs as [|h rest IH]; intros w.
  - exists w. simpl. rewrite app_nil_r.
    repeat split.
  - simpl export_all. rewrite bind_unfold, call_unfold, fst_on_hook.
    destruct (Hexp h (hdata (heap (store w) h))) as [v Hv].
    pose proof (on_hook_pure h (hook_state_dict C h) (store w)) as Hstep.
    rewrite Hv in Hstep |- *. specialize (Hstep eq_refl). cbn [fst].
    rewrite bind_gets, bind_unfold.
    match goal with
    | |- context [export_all C rest ?w1] =>
        destruct (IH w1) as (w2 & Hrun & Hsame & Hev); rewrite Hrun
    end.
    simpl in Hsame, Hev.
    exists w2. split; [|split].
    + unfold ret. f_equal. f_equal. simpl.
      rewrite (entries_same_store _ _ _ Hstep). f_equal.
      destruct Hstep as (_ & Hh & _).
      unfold hook_kind, exported_value, exported. rewrite Hh, Hv.
      reflexivity.
    + eapply same_store_trans; eassumption.
    + rewrite Hev, <- app_assoc. reflexivity.
Qed.

(** The snapshot of a runner whose collaborators export by reading. *)
Lemma state_dict_pure w :
  (forall h d, exists v, hook_state_dict C h d = (Ok v, d)) ->
  (forall o, exists v, optimizer_state_dict C o = (Ok v, o)) ->
  exists opt w',
    state_dict C w
    = (Ok (mkSnapshot (_iter (runner (store w))) (_epoch (runner (store w))) opt
             (match snapshot_hooks_spec (entries C (store w) (registry w)) with
              | [] => None
              | d => Some d
              end)), w') /\
    same_store (store w) (store w') /\
    events w' = events w ++ EvOptimizerStateDict :: map EvHookStateDict (registry w).
Proof.
  intros Hexp Hopt. rewrite state_dict_refines. unfold state_dict_spec.
  rewrite !bind_gets, bind_unfold, call_unfold, fst_on_optimizer.
  destruct (Hopt (optimizer (store w))) as [opt Hv].
  pose proof (on_optimizer_pure (optimizer_state_dict C) (store w)) as Hstep.
  rewrite Hv in Hstep |- *. specialize (Hstep eq_refl). cbn [fst].
  rewrite bind_gets, bind_unfold.
  match goal with
  | |- context [export_all C ?hs ?w1] =>
      destruct (export_all_pure hs Hexp w1) as (w2 & Hrun & Hsame & Hev);
      rewrite Hrun
  end.
  simpl in Hsame, Hev.
  assert (Hhooks :
    _hooks (runner (snd (on_optimizer (optimizer_state_dict C) (store w))))
    = registry w).
  { destruct Hstep as (Hr & _). rewrite Hr. reflexivity. }
  exists opt, w2. split; [|split].
  - unfold ret. cbn [store]. rewrite Hhooks.
    rewrite (entries_same_store _ _ _ Hstep). reflexivity.
  - eapply same_store_trans; eassumption.
  - rewrite Hev, Hhooks, <- app_assoc. reflexivity.
Qed.

(** C4, as the code has it: with exports that are reads and return,
    [state_dict] returns and is the spec's snapshot: it asks the hooks in
    registry order; a kind is a key of the hooks mapping exactly when some
    hook of that kind exports a non-empty state, and the value kept for it
    is the state of the first such hook in registry order, that is by
    priority before time of registration; no key occurs twice; the mapping
    is left out when it is empty.  Where the hooks of a kind share one
    priority, the state kept is that of the first-registered of them. *)
Theorem state_dict_keeps_first_in_registry_order (w : World) :
  (forall h d, exists v, hook_state_dict C h d = (Ok v, d)) ->
  (forall o, exists v, optimizer_state_dict C o = (Ok v, o)) ->
  state_dict C w = state_dict_spec C w /\
  exists sn w',
    state_dict C w = (Ok sn, w') /\
    events w' = events w ++ EvOptimizerStateDict
                  :: map EvHookStateDict (registry w) /\
    NoDup (map fst (default [] (sn_hooks sn))) /\
    (forall k, assoc k (default [] (sn_hooks sn))
               = first_state C (store w) k (registry w)) /\
    (sn_hooks sn = None <->
     forall k, first_state C (store w) k (registry w) = None) /\
    (forall registered q k,
       registry_holds w registered ->
       (forall h, h ∈ registry w -> hook_kind (store w) h = k ->
                  hook_priority (store w) h = Some q) ->
       assoc k (default [] (sn_hooks sn))
       = first_state C (store w) k registered).
Proof.
  intros Hexp Hopt. split; [apply state_dict_refines|].
  destruct (state_dict_pure w Hexp Hopt) as (opt & w' & Hrun & _ & Hev).
  eexists _, w'. split; [exact Hrun|]. split; [exact Hev|]. simpl.
  set (d := snapshot_hooks_spec (entries C (store w) (registry w))).
  assert (Hd : default [] (match d with [] => None | p :: l => Some (p :: l) end)
               = d) by (destruct d; reflexivity).
  assert (Hassoc : forall k, assoc k d = first_state C (store w) k (registry w)).
  { intros k. unfold d, snapshot_hooks_spec.
    rewrite keep_first_assoc. simpl. apply first_state_assoc. }
  rewrite Hd. split; [apply keep_first_NoDup|]. split; [exact Hassoc|].
  split; [split|].
  - intros Hnone k. rewrite <- Hassoc. destruct d; [reflexivity|discriminate].
  - intros Hnone. destruct d as [|[k v] d']; [reflexivity|].
    specialize (Hnone k). rewrite <- Hassoc in Hnone. simpl in Hnone.
    rewrite String.eqb_refl in Hnone. discriminate.
  - intros registered q k Hholds Hq. rewrite Hassoc.
    eapply first_state_registered; eassumption.
Qed.

(** C9: when the [state_dict] methods of the optimizer and of the hooks
    hand their objects back unchanged, [state_dict] of the runner leaves
    the runner (its counters [_iter], [_epoch] and [_inner_iter], its hook
    list and the order of it, its mode), every hook object and the
    optimizer as they were, whether it returns or one of those methods
    raises. *)
Theorem state_dict_no_side_effect (w : World) :
  (forall h d, snd (hook_state_dict C h d) = d) ->
  (forall o, snd (optimizer_state_dict C o) = o) ->
  let w' := snd (state_dict C w) in
  runner (store w') = runner (store w) /\
  (_iter (runner (store w')) = _iter (runner (store w)) /\
   _epoch (runner (store w')) = _epoch (runner (store w)) /\
   _inner_iter (runner (store w')) = _inner_iter (runner (store w)) /\
   _hooks (runner (store w')) = _hooks (runner (store w)) /\
   mode (runner (store w')) = mode (runner (store w))) /\
  (forall h, heap (store w') h = heap (store w) h) /\
  optimizer (store w') = optimizer (store w).
Proof.
  intros Hhooks Hopt w'.
  assert (Hsame : same_store (store w) (store w')).
  { subst w'. rewrite state_dict_refines. unfold state_dict_spec.
    rewrite !bind_gets, bind_unfold, call_unfold.
    pose proof (on_optimizer_pure (optimizer_state_dict C) (store w) (Hopt _))
      as Hstep.
    destruct (fst (on_optimizer (optimizer_state_dict C) (store w)))
      as [opt|e]; [|exact Hstep].
    rewrite bind_gets, bind_unfold.
    destruct (export_all C _ _) as [[l|e] w2] eqn:Hrest;
      apply (export_all_frame _ Hhooks) in Hrest; simpl in Hrest |- *;
      eapply same_store_trans; eassumption. }
  destruct Hsame as (Hr & Hh & Ho & _ & _).
  rewrite Hr. repeat split; assumption.
Qed.

End SnapshotFacts.

(** ** load_state_dict *)

(** A method of a hook writes the data of its own object and nothing
    else. *)
Lemma on_hook_frame {A} h (op : pyval -> Res A * pyval) s :
  let s' := snd (on_hook h op s) in
  runner s' = runner s /\
  optimizer s' = optimizer s /\
  (forall h', qualname (heap s' h') = qualname (heap s h')) /\
  (forall h', priority (heap s' h') = priority (heap s h')) /\
  (forall h', h' <> h -> heap s' h' = heap s h') /\
  hdata (heap s' h) = snd (op (hdata (heap s h))).
Proof.
  unfold on_hook. destruct (op (hdata (heap s h))) as [r d]. simpl.
  unfold heap_set. repeat split.
  - intros h'. destruct (Nat.eqb_spec h' h) as [->|]; reflexivity.
  - intros h'. destruct (Nat.eqb_spec h' h) as [->|]; reflexivity.
  - intros h' Hne. destruct (Nat.eqb_spec h' h); [contradiction|reflexivity].
  - rewrite Nat.eqb_refl. reflexivity.
Qed.

Lemma first_of_kind_ext s s' key hs :
  (forall h, hook_kind s' h = hook_kind s h) ->
  first_of_kind s' key hs = first_of_kind s key hs.
Proof.
  intros Hk. induction hs as [|h rest IH]; [reflexivity|].
  simpl. rewrite Hk, IH. reflexivity.
Qed.

(** The hook found is the first of its kind in the list. *)
Lemma first_of_kind_Some s key hs h :
  first_of_kind s key hs = Some h ->
  exists l1 l2, hs = l1 ++ h :: l2 /\ hook_kind s h = key /\
                Forall (fun h' => hook_kind s h' <> key) l1.
Proof.
  induction hs as [|h0 rest IH]; [discriminate|]. simpl.
  destruct (String.eqb_spec (hook_kind s h0) key) as [Heq|Hne].
  - intros [= ->]. exists [], rest. repeat split; [assumption|constructor].
  - intros Hrest. destruct (IH Hrest) as (l1 & l2 & -> & Hk & Hall).
    exists (h0 :: l1), l2. repeat split; [assumption|].
    constructor; assumption.
Qed.

Lemma first_of_kind_None s key hs :
  first_of_kind s key hs = None ->
  Forall (fun h' => hook_kind s h' <> key) hs.
Proof.
  induction hs as [|h0 rest IH]; [constructor|]. simpl.
  destruct (String.eqb_spec (hook_kind s h0) key) as [Heq|Hne]; [discriminate|].
  intros Hrest. constructor; [assumption|apply IH, Hrest].
Qed.

Lemma restore_events_ext s s' hs items :
  (forall h, hook_kind s' h = hook_kind s h) ->
  restore_events s' hs items = restore_events s hs items.
Proof.
  intros Hk. unfold restore_events. induction items as [|kv items IH];
    [reflexivity|].
  simpl. rewrite IH, (first_of_kind_ext s s' _ _ Hk). reflexivity.
Qed.

Section RestoreFacts.

Variable C : Collaborators.

(** The inner loop of the restore hands the value to the first hook of
    the kind and stops, or finds none. *)
Lemma load_hook_state_eq key value hs w :
  load_hook_state C key value hs w =
  match first_of_kind (store w) key hs with
  | None => (Ok false, w)
  | Some h =>
      (call (EvHookLoadStateDict h value)
            (on_hook h (hook_load_state_dict C h value)) ;;
       ret true) w
  end.
Proof.
  induction hs as [|h rest IH]; [reflexivity|].
  simpl. rewrite bind_gets. fold (hook_kind (store w) h).
  destruct (String.eqb (hook_kind (store w) h) key); [reflexivity|exact IH].
Qed.

(** One entry of the snapshot: what the world is afterwards. *)
Lemma load_entry_step key value w :
  let step := (found <- load_hook_state C key value (registry w) ;;
               if found : bool then ret tt
               else emit (EvWarning (missing_hook_warning key))) in
  match first_of_kind (store w) key (registry w) with
  | None =>
      step w = (Ok tt, mkWorld (store w)
                         (events w ++ [EvWarning (missing_hook_warning key)]))
  | Some h =>
      step w =
      (match fst (hook_load_state_dict C h value (hdata (heap (store w) h))) with
       | Ok _ => Ok tt
       | Raise e => Raise e
       end,
       mkWorld (snd (on_hook h (hook_load_state_dict C h value) (store w)))
               (events w ++ [EvHookLoadStateDict h value]))
  end.
Proof.
  intros step. subst step. rewrite bind_unfold, load_hook_state_eq.
  destruct (first_of_kind (store w) key (registry w)) as [h|]; [|reflexivity].
  rewrite bind_unfold, call_unfold, fst_on_hook.
  destruct (fst (hook_load_state_dict C h value _)); reflexivity.
Qed.

Lemma bind_assoc {A B D} (c : M A) (k1 : A -> M B) (k2 : B -> M D) w :
  bind (bind c k1) k2 w = bind c (fun a => bind (k1 a) k2) w.
Proof. unfold bind. destruct (c w) as [[a|e] w']; reflexivity. Qed.

Lemma load_hooks_state_cons key value rest w :
  load_hooks_state C ((key, value) :: rest) w =
  ((found <- load_hook_state C key value (registry w) ;;
    if found : bool then ret tt
    else emit (EvWarning (missing_hook_warning key))) ;;
   load_hooks_state C rest) w.
Proof.
  simpl. rewrite bind_gets, bind_assoc. reflexivity.
Qed.

(** An entry of a kind that no registered hook has is skipped with a
    warning: the restore goes on as it would without the entry. *)
Lemma load_hooks_state_unmatched key value rest w :
  first_of_kind (store w) key (registry w) = None ->
  load_hooks_state C ((key, value) :: rest) w =
  load_hooks_state C rest
    (mkWorld (store w) (events w ++ [EvWarning (missing_hook_warning key)])).
Proof.
  intros Hnone. rewrite load_hooks_state_cons, bind_unfold.
  pose proof (load_entry_step key value w) as Hstep. simpl in Hstep.
  rewrite Hnone in Hstep. rewrite Hstep. reflexivity.
Qed.

(** The restore of the entries leaves the runner and the kinds alone, and
    the calls it makes are those of [restore_events], all of them when it
    returns and the first few when an import raises. *)
Lemma load_hooks_state_run items : forall w r w',
  load_hooks_state C items w = (r, w') ->
  runner (store w') = runner (store w) /\
  optimizer (store w') = optimizer (store w) /\
  (forall h, hook_kind (store w') h = hook_kind (store w) h) /\
  (exists n, events w'
             = events w ++ take n (restore_events (store w) (registry w) items)) /\
  (r = Ok tt ->
   events w' = events w ++ restore_events (store w) (registry w) items).
Proof.
  induction items as [|[key value] rest IH]; intros w r w' Hrun.
  - inversion Hrun; subst. repeat split; try (rewrite app_nil_r; reflexivity).
    exists 0. rewrite app_nil_r. reflexivity.
  - rewrite load_hooks_state_cons, bind_unfold in Hrun.
    pose proof (load_entry_step key value w) as Hstep. simpl in Hstep.
    unfold restore_events. simpl flat_map. fold (restore_events (store w) (registry w) rest).
    destruct (first_of_kind (store w) key (registry w)) as [h|];
      rewrite Hstep in Hrun; clear Hstep.
    + pose proof (on_hook_frame h (hook_load_state_dict C h value) (store w))
        as (Hr & Ho & Hq & _ & _ & _).
      destruct (fst (hook_load_state_dict C h value _)) as [[]|e].
      * apply IH in Hrun. simpl in Hrun.
        destruct Hrun as (Hr' & Ho' & Hk' & (n & Hn) & Hall).
        assert (Hreg : registry {| store := snd (on_hook h (hook_load_state_dict C h value) (store w));
                                   events := events w ++ [EvHookLoadStateDict h value] |}
                       = registry w) by (unfold registry; simpl; rewrite Hr; reflexivity).
        rewrite Hreg in Hn, Hall.
        rewrite (restore_events_ext (store w)) in Hn, Hall by exact Hq.
        split; [congruence|]. split; [congruence|].
        split; [intros h'; rewrite Hk'; apply Hq|]. split.
        -- exists (S n). simpl. rewrite Hn, <- app_assoc. reflexivity.
        -- intros Hok. rewrite (Hall Hok), <- app_assoc. reflexivity.
      * inversion Hrun; subst. simpl.
        split; [exact Hr|]. split; [exact Ho|]. split; [exact Hq|]. split.
        -- exists 1. simpl. rewrite take_0. reflexivity.
        -- discriminate.
    + apply IH in Hrun. simpl in Hrun.
      destruct Hrun as (Hr' & Ho' & Hk' & (n & Hn) & Hall).
      change (registry {| store := store w;
                          events := events w ++ [EvWarning (missing_hook_warning key)] |})
        with (registry w) in Hn, Hall.
      split; [exact Hr'|]. split; [exact Ho'|]. split; [exact Hk'|]. split.
      * exists (S n). simpl. rewrite Hn, <- app_assoc. reflexivity.
      * intros Hok. rewrite (Hall Hok), <- app_assoc. reflexivity.
Qed.

(** With imports that return, the restore of the entries returns. *)
Lemma load_hooks_state_returns items :
  (forall h v d, exists d', hook_load_state_dict C h v d = (Ok tt, d')) ->
  forall w, exists w', load_hooks_state C items w = (Ok tt, w').
Proof.
  intros Himp. induction items as [|[key value] rest IH]; intros w.
  - exists w. reflexivity.
  - rewrite load_hooks_state_cons, bind_unfold.
    pose proof (load_entry_step key value w) as Hstep. simpl in Hstep.
    destruct (first_of_kind (store w) key (registry w)) as [h|];
      rewrite Hstep; clear Hstep; [|apply IH].
    destruct (Himp h value (hdata (heap (store w) h))) as [d' Hd'].
    rewrite Hd'. simpl. apply IH.
Qed.

(** [load_state_dict] up to the loop over the entries. *)
Lemma load_state_dict_unfold sn w :
  load_state_dict C sn w =
  let s1 := set_runner (set_epoch (sn_epoch sn)
                          (set_iter (sn_iter sn) (runner (store w)))) (store w) in
  let op := on_optimizer (optimizer_load_state_dict C (sn_optimizer sn)) s1 in
  let w1 := mkWorld (snd op)
              (events w ++ [EvOptimizerLoadStateDict (sn_optimizer sn)]) in
  match fst op with
  | Ok _ => load_hooks_state C (default [] (sn_hooks sn)) w1
  | Raise e => (Raise e, w1)
  end.
Proof.
  unfold load_state_dict. rewrite !bind_modify, bind_unfold, call_unfold.
  simpl. destruct (fst (on_optimizer _ _)); reflexivity.
Qed.

Lemma on_optimizer_frame {A} (op : pyval -> Res A * pyval) s :
  runner (snd (on_optimizer op s)) = runner s /\
  heap (snd (on_optimizer op s)) = heap s.
Proof.
  unfold on_optimizer. destruct (op (optimizer s)); split; reflexivity.
Qed.

(** The restore as a whole: the counters are overwritten, the hook list
    and the kinds stay, and the calls made are the optimizer's import
    followed by those of [restore_events], or the first few of them when
    an import raises. *)
Lemma load_state_dict_run sn w r w' :
  load_state_dict C sn w = (r, w') ->
  _iter (runner (store w')) = sn_iter sn /\
  _epoch (runner (store w')) = sn_epoch sn /\
  registry w' = registry w /\
  (forall h, hook_kind (store w') h = hook_kind (store w) h) /\
  (exists n, events w'
     = events w ++ take n (EvOptimizerLoadStateDict (sn_optimizer sn)
         :: restore_events (store w) (registry w) (default [] (sn_hooks sn)))) /\
  (r = Ok tt ->
   events w'
   = events w ++ EvOptimizerLoadStateDict (sn_optimizer sn)
       :: restore_events (store w) (registry w) (default [] (sn_hooks sn))).
Proof.
  rewrite load_state_dict_unfold. cbv zeta.
  set (s1 := set_runner _ (store w)).
  destruct (on_optimizer_frame (optimizer_load_state_dict C (sn_optimizer sn)) s1)
    as [Hr Hh].
  set (w1 := mkWorld _ _).
  assert (Hreg1 : registry w1 = registry w)
    by (unfold registry, w1; simpl; rewrite Hr; reflexivity).
  assert (Hk1 : forall h, hook_kind (store w1) h = hook_kind (store w) h)
    by (intros h; unfold hook_kind, w1; simpl; rewrite Hh; reflexivity).
  assert (Hit1 : _iter (runner (store w1)) = sn_iter sn)
    by (unfold w1; simpl; rewrite Hr; reflexivity).
  assert (Hep1 : _epoch (runner (store w1)) = sn_epoch sn)
    by (unfold w1; simpl; rewrite Hr; reflexivity).
  destruct (fst (on_optimizer _ s1)) as [[]|e]; intros Hrun.
  - apply load_hooks_state_run in Hrun.
    destruct Hrun as (Hr' & _ & Hk' & (n & Hn) & Hall).
    rewrite Hreg1, (restore_events_ext (store w)) in Hn, Hall by exact Hk1.
    split; [rewrite Hr'; exact Hit1|]. split; [rewrite Hr'; exact Hep1|].
    split; [unfold registry in *; rewrite Hr'; exact Hreg1|].
    split; [intros h; rewrite Hk'; apply Hk1|]. split.
    + exists (S n). rewrite Hn. unfold w1. simpl. rewrite <- app_assoc.
      reflexivity.
    + intros Hok. rewrite (Hall Hok). unfold w1. simpl.
      rewrite <- app_assoc. reflexivity.
  - inversion Hrun; subst r w'. clear Hrun.
    split; [exact Hit1|]. split; [exact Hep1|]. split; [exact Hreg1|].
    split; [exact Hk1|]. split; [|discriminate].
    exists 1. simpl. rewrite take_0. reflexivity.
Qed.

Lemma load_state_dict_returns sn w :
  (forall h v d, exists d', hook_load_state_dict C h v d = (Ok tt, d')) ->
  (forall v o, exists o', optimizer_load_state_dict C v o = (Ok tt, o')) ->
  exists w', load_state_dict C sn w = (Ok tt, w').
Proof.
  intros Himp Hopt. rewrite load_state_dict_unfold. cbv zeta.
  rewrite fst_on_optimizer.
  match goal with
  | |- context [optimizer_load_state_dict C ?v ?o] =>
      destruct (Hopt v o) as [o' Ho']; rewrite Ho'
  end.
  cbn [fst]. apply load_hooks_state_returns, Himp.
Qed.

Lemma first_of_kind_kind s key hs h :
  first_of_kind s key hs = Some h -> hook_kind s h = key.
Proof.
  intros Hfirst.
  destruct (first_of_kind_Some s key hs h Hfirst) as (_ & _ & _ & Hk & _).
  exact Hk.
Qed.

(** One step of the restore keeps the hook list and the kinds. *)
Lemma load_entry_frame h value w :
  let w1 := mkWorld (snd (on_hook h (hook_load_state_dict C h value) (store w)))
                    (events w ++ [EvHookLoadStateDict h value]) in
  registry w1 = registry w /\
  (forall h', hook_kind (store w1) h' = hook_kind (store w) h') /\
  (forall h', h' <> h -> heap (store w1) h' = heap (store w) h') /\
  hdata (heap (store w1) h)
  = snd (hook_load_state_dict C h value (hdata (heap (store w) h))).
Proof.
  pose proof (on_hook_frame h (hook_load_state_dict C h value) (store w))
    as (Hr & _ & Hq & _ & Hother & Hdata).
  cbv zeta. unfold registry, hook_kind. simpl.
  split; [rewrite Hr; reflexivity|]. split; [exact Hq|].
  split; [exact Hother|exact Hdata].
Qed.

(** A hook that no entry is delivered to is not touched by the restore of
    the entries. *)
Lemma load_hooks_state_untargeted h items : forall w r w',
  load_hooks_state C items w = (r, w') ->
  Forall (fun kv => first_of_kind (store w) (fst kv) (registry w) <> Some h)
         items ->
  heap (store w') h = heap (store w) h.
Proof.
  induction items as [|[key value] rest IH]; intros w r w' Hrun Hnot.
  - inversion Hrun; reflexivity.
  - rewrite load_hooks_state_cons, bind_unfold in Hrun.
    pose proof (load_entry_step key value w) as Hstep. simpl in Hstep.
    inversion Hnot as [|? ? Hhead Hrest]; subst. simpl in Hhead.
    destruct (first_of_kind (store w) key (registry w)) as [h0|] eqn:Hfirst;
      rewrite Hstep in Hrun; clear Hstep.
    + destruct (load_entry_frame h0 value w) as (Hreg & Hk & Hother & _).
      assert (Hne : h <> h0) by (intros ->; apply Hhead; reflexivity).
      destruct (fst (hook_load_state_dict C h0 value _)) as [[]|e].
      * apply IH in Hrun.
        -- rewrite Hrun. apply Hother, Hne.
        -- rewrite Hreg. eapply Forall_impl; [exact Hrest|].
           intros kv Hkv. rewrite (first_of_kind_ext (store w)) by exact Hk.
           exact Hkv.
      * inversion Hrun; subst. apply Hother, Hne.
    + apply IH in Hrun; [exact Hrun|exact Hrest].
Qed.

(** The entry of a kind is delivered to the first hook of the kind, and
    with keys that do not repeat nothing else is. *)
Lemma load_hooks_state_delivers h k v items : forall w w',
  load_hooks_state C items w = (Ok tt, w') ->
  NoDup (map fst items) ->
  assoc k items = Some v ->
  first_of_kind (store w) k (registry w) = Some h ->
  hdata (heap (store w') h)
  = snd (hook_load_state_dict C h v (hdata (heap (store w) h))).
Proof.
  induction items as [|[key value] rest IH]; intros w w' Hrun Hnd Hassoc Hfirst;
    [discriminate|].
  rewrite load_hooks_state_cons, bind_unfold in Hrun.
  pose proof (load_entry_step key value w) as Hstep. simpl in Hstep.
  simpl in Hnd. inversion Hnd as [|? ? Hnotin Hnd']; subst.
  simpl in Hassoc.
  destruct (String.eqb_spec key k) as [->|Hne].
  - inversion Hassoc; subst value. clear Hassoc.
    rewrite Hfirst in Hstep. rewrite Hstep in Hrun. clear Hstep.
    destruct (load_entry_frame h v w) as (Hreg & Hk & _ & Hdata).
    destruct (fst (hook_load_state_dict C h v _)) as [[]|e];
      [|discriminate].
    apply load_hooks_state_untargeted with (h := h) in Hrun.
    + rewrite Hrun. exact Hdata.
    + rewrite Hreg. apply Forall_forall. intros [k' v'] Hin. simpl.
      rewrite (first_of_kind_ext (store w)) by exact Hk.
      intros Hk'. apply first_of_kind_kind in Hk'.
      apply first_of_kind_kind in Hfirst. apply Hnotin.
      apply list_elem_of_fmap. exists (k', v'). split; [|exact Hin].
      simpl. congruence.
  - destruct (first_of_kind (store w) key (registry w)) as [h0|] eqn:Hfirst0;
      rewrite Hstep in Hrun; clear Hstep.
    + destruct (load_entry_frame h0 value w) as (Hreg & Hk & Hother & _).
      assert (Hne0 : h <> h0).
      { intros ->. apply first_of_kind_kind in Hfirst0.
        apply first_of_kind_kind in Hfirst. congruence. }
      destruct (fst (hook_load_state_dict C h0 value _)) as [[]|e];
        [|discriminate].
      apply IH in Hrun; [| exact Hnd' | exact Hassoc |].
      * rewrite Hrun, (Hother h Hne0). reflexivity.
      * rewrite Hreg, (first_of_kind_ext (store w)) by exact Hk. exact Hfirst.
    + apply IH in Hrun; [exact Hrun|exact Hnd'|exact Hassoc|exact Hfirst].
Qed.

(** With keys that do not repeat, as in a dict, an entry is the one that
    a lookup of its key finds. *)
Lemma assoc_NoDup_in k v (d : list (string * pyval)) :
  NoDup (map fst d) -> (k, v) ∈ d -> assoc k d = Some v.
Proof.
  induction d as [|[k' v'] d IH]; intros Hnd Hin; [inversion Hin|].
  simpl in Hnd. inversion Hnd as [|? ? Hnotin Hnd']; subst.
  apply elem_of_cons in Hin. simpl. destruct Hin as [[= -> ->]|Hin].
  - rewrite String.eqb_refl. reflexivity.
  - destruct (String.eqb_spec k' k) as [->|_]; [|apply IH; assumption].
    exfalso. apply Hnotin. apply list_elem_of_fmap.
    exists (k, v). split; [reflexivity|exact Hin].
Qed.

(** What a restore that returned did to the hooks: with keys that do not
    repeat, the first hook of the kind of an entry holds what its import
    of the entry's value made of its data, and a hook that is the first
    of the kind of no entry is as it was. *)
Lemma load_state_dict_delivers sn w r w' :
  load_state_dict C sn w = (r, w') ->
  (r = Ok tt ->
   NoDup (map fst (default [] (sn_hooks sn))) ->
   forall key value h,
     (key, value) ∈ default [] (sn_hooks sn) ->
     first_of_kind (store w) key (registry w) = Some h ->
     hdata (heap (store w') h)
     = snd (hook_load_state_dict C h value (hdata (heap (store w) h)))) /\
  (forall h,
     (forall key value, (key, value) ∈ default [] (sn_hooks sn) ->
        first_of_kind (store w) key (registry w) <> Some h) ->
     heap (store w') h = heap (store w) h).
Proof.
  rewrite load_state_dict_unfold. cbv zeta.
  set (s1 := set_runner _ (store w)).
  destruct (on_optimizer_frame (optimizer_load_state_dict C (sn_optimizer sn)) s1)
    as [Hr Hh].
  set (w1 := mkWorld _ _).
  assert (Hreg1 : registry w1 = registry w)
    by (unfold registry, w1; simpl; rewrite Hr; reflexivity).
  assert (Hheap1 : forall h, heap (store w1) h = heap (store w) h)
    by (intros h; unfold w1; simpl; rewrite Hh; reflexivity).
  assert (Hk1 : forall h, hook_kind (store w1) h = hook_kind (store w) h)
    by (intros h; unfold hook_kind; rewrite Hheap1; reflexivity).
  assert (Hfirst1 : forall key, first_of_kind (store w1) key (registry w1)
                                = first_of_kind (store w) key (registry w))
    by (intros key; rewrite Hreg1; apply first_of_kind_ext, Hk1).
  destruct (fst (on_optimizer _ s1)) as [[]|e]; intros Hrun.
  - split.
    + intros -> Hnd key value h Hin Hfirst.
      rewrite <- Hheap1.
      apply (load_hooks_state_delivers h key value _ w1 w' Hrun Hnd).
      * apply assoc_NoDup_in; assumption.
      * rewrite Hfirst1. exact Hfirst.
    + intros h Hnot. rewrite <- Hheap1.
      apply (load_hooks_state_untargeted h _ w1 r w' Hrun).
      apply Forall_forall. intros [key value] Hin. simpl.
      rewrite Hfirst1. apply (Hnot key value Hin).
  - inversion Hrun; subst r w'. split; [discriminate|].
    intros h _. apply Hheap1.
Qed.

(** The kind can be read off the warning about it. *)
Lemma append_inj_r (s k1 k2 : string) :
  (k1 +:+ s = k2 +:+ s)%string -> k1 = k2.
Proof.
  assert (Hcons : forall c a b, (String c a +:+ b)%string = String c (a +:+ b))
    by reflexivity.
  assert (Hnil : forall b, ("" +:+ b)%string = b) by reflexivity.
  assert (Hlen : forall a b,
            String.length (a +:+ b) = String.length a + String.length b).
  { induction a as [|c a IH]; intros b; [reflexivity|].
    rewrite Hcons. simpl. rewrite IH. reflexivity. }
  revert k2. induction k1 as [|c1 k1 IH]; intros [|c2 k2] Heq;
    rewrite ?Hcons, ?Hnil in Heq.
  - reflexivity.
  - apply (f_equal String.length) in Heq. simpl in Heq.
    rewrite Hlen in Heq. lia.
  - apply (f_equal String.length) in Heq. simpl in Heq.
    rewrite Hlen in Heq. lia.
  - injection Heq as -> Heq. rewrite (IH k2 Heq). reflexivity.
Qed.

Lemma missing_hook_warning_inj k1 k2 :
  missing_hook_warning k1 = missing_hook_warning k2 -> k1 = k2.
Proof.
  unfold missing_hook_warning. intros Heq.
  apply (inj (String.append "Cannot find the hook '")) in Heq.
  exact (append_inj_r _ _ _ Heq).
Qed.

(** C5: with imports that return, the restore returns whatever entries
    match no registered hook; each entry makes exactly its call, in the
    order of the snapshot: a warning whose text holds the missing kind
    between quotes, and from which the kind can be read off, for an entry
    without a hook of its kind, the import by the first hook of the kind
    for every other entry.  With keys that do not repeat, as in a dict,
    the hook reached by an entry ends with what its import of the entry's
    value made of its data, and a hook reached by no entry is as it was.
    The unmatched entry itself only appends its warning: the restore goes
    on as it would without that entry. *)
Theorem load_state_dict_unmatched_entry (sn : Snapshot) (w : World) :
  (forall h v d, exists d', hook_load_state_dict C h v d = (Ok tt, d')) ->
  (forall v o, exists o', optimizer_load_state_dict C v o = (Ok tt, o')) ->
  (exists w',
     load_state_dict C sn w = (Ok tt, w') /\
     events w'
     = events w ++ EvOptimizerLoadStateDict (sn_optimizer sn)
         :: restore_events (store w) (registry w) (default [] (sn_hooks sn)) /\
     (forall key value, (key, value) ∈ default [] (sn_hooks sn) ->
       match first_of_kind (store w) key (registry w) with
       | None =>
           EvWarning ("Cannot find the hook '" +:+ key
                      +:+ "', its state_dict is ignored.") ∈ events w'
       | Some h => EvHookLoadStateDict h value ∈ events w'
       end) /\
     (NoDup (map fst (default [] (sn_hooks sn))) ->
      forall key value h,
        (key, value) ∈ default [] (sn_hooks sn) ->
        first_of_kind (store w) key (registry w) = Some h ->
        hdata (heap (store w') h)
        = snd (hook_load_state_dict C h value (hdata (heap (store w) h)))) /\
     (forall h,
        (forall key value, (key, value) ∈ default [] (sn_hooks sn) ->
           first_of_kind (store w) key (registry w) <> Some h) ->
        heap (store w') h = heap (store w) h)) /\
  (forall key value rest w0,
     first_of_kind (store w0) key (registry w0) = None ->
     load_hooks_state C ((key, value) :: rest) w0
     = load_hooks_state C rest
         (mkWorld (store w0)
                  (events w0 ++ [EvWarning (missing_hook_warning key)]))) /\
  (forall k1 k2,
     missing_hook_warning k1 = missing_hook_warning k2 -> k1 = k2).
Proof.
  intros Himp Hopt. split.
  2:{ split.
      - intros key value rest w0. apply load_hooks_state_unmatched.
      - apply missing_hook_warning_inj. }
  destruct (load_state_dict_returns sn w Himp Hopt) as [w' Hrun].
  exists w'. split; [exact Hrun|].
  destruct (load_state_dict_run _ _ _ _ Hrun) as (_ & _ & _ & _ & _ & Hev).
  destruct (load_state_dict_delivers _ _ _ _ Hrun) as [Hdata Hframe].
  specialize (Hev eq_refl). split; [exact Hev|].
  split; [|split; [exact (Hdata eq_refl)|exact Hframe]].
  intros key value Hin.
  assert (Hmem : forall ev,
            ev ∈ match first_of_kind (store w) key (registry w) with
                 | Some h => [EvHookLoadStateDict h value]
                 | None => [EvWarning (missing_hook_warning key)]
                 end -> ev ∈ events w').
  { intros ev Hev'. rewrite Hev. apply elem_of_app. right. right.
    unfold restore_events. apply list_elem_of_In, in_flat_map.
    exists (key, value). split; apply list_elem_of_In; assumption. }
  destruct (first_of_kind (store w) key (registry w)); apply Hmem; left.
Qed.

(** C10, as the code has it: the scan for one entry goes through the
    registry in its order and stops at the first hook whose kind is the
    key: that hook alone is called with the value, once, and no other hook
    object changes; when no hook has the kind, no hook is called.  The
    first hook is the first in registry order, which is by priority before
    time of registration: where the hooks of the kind share one priority
    it is the first-registered of them.  Over a whole restore each entry
    makes at most one call. *)
Theorem load_state_dict_first_in_registry_order
    (key : string) (value : pyval) (w : World) :
  match first_of_kind (store w) key (registry w) with
  | Some h =>
      (exists l1 l2,
         registry w = l1 ++ h :: l2 /\ hook_kind (store w) h = key /\
         Forall (fun h' => hook_kind (store w) h' <> key) l1) /\
      let w' := snd (load_hook_state C key value (registry w) w) in
      events w' = events w ++ [EvHookLoadStateDict h value] /\
      (forall h', h' <> h -> heap (store w') h' = heap (store w) h') /\
      hdata (heap (store w') h)
      = snd (hook_load_state_dict C h value (hdata (heap (store w) h)))
  | None =>
      Forall (fun h' => hook_kind (store w) h' <> key) (registry w) /\
      load_hook_state C key value (registry w) w = (Ok false, w)
  end /\
  (forall sn r w',
     load_state_dict C sn w = (r, w') ->
     exists n, events w'
       = events w ++ take n (EvOptimizerLoadStateDict (sn_optimizer sn)
           :: restore_events (store w) (registry w) (default [] (sn_hooks sn)))) /\
  (forall registered q,
     registry_holds w registered ->
     (forall h, h ∈ registry w -> hook_kind (store w) h = key ->
                hook_priority (store w) h = Some q) ->
     first_of_kind (store w) key (registry w)
     = first_of_kind (store w) key registered).
Proof.
  split; [|split].
  - rewrite load_hook_state_eq.
    destruct (first_of_kind (store w) key (registry w)) as [h|] eqn:Hfirst.
    + split; [apply first_of_kind_Some; exact Hfirst|].
      rewrite bind_unfold, call_unfold.
      pose proof (on_hook_frame h (hook_load_state_dict C h value) (store w))
        as (_ & _ & _ & _ & Hother & Hdata).
      destruct (fst (on_hook h _ (store w))); simpl;
        (split; [reflexivity|]); split; assumption.
    + split; [apply first_of_kind_None; exact Hfirst|reflexivity].
  - intros sn r w' Hrun.
    destruct (load_state_dict_run _ _ _ _ Hrun) as (_ & _ & _ & _ & Hn & _).
    exact Hn.
  - intros registered q Hholds Hq.
    eapply first_of_kind_registered; eassumption.
Qed.






End RestoreFacts.

(** ** call_hook *)

Section DispatchFacts.

Variable C : Collaborators.
Variable fn_name : string.

Lemma run_callbacks_ok l : forall s s' entered,
  run_callbacks C fn_name l s = (Ok tt, s', entered) -> entered = l.
Proof.
  induction l as [|h rest IH]; intros s s' entered Hrun; simpl in Hrun.
  - inversion Hrun; reflexivity.
  - destruct (hook_callback C h fn_name s) as [[[]|e] s1]; [|discriminate].
    destruct (run_callbacks C fn_name rest s1) as [[r s2] ent] eqn:Hrest.
    inversion Hrun; subst. f_equal. eapply IH; eassumption.
Qed.



(** While the callbacks leave the hook list alone, the loop over the live
    list, given fuel for its length, is the run over the list as it was
    when the loop began. *)
Lemma call_hook_from_static :
  (forall h s, _hooks (runner (snd (hook_callback C h fn_name s)))
               = _hooks (runner s)) ->
  forall fuel i w,
  length (registry w) - i < fuel ->
  call_hook_from C fuel fn_name i w =
  Some (let '(r, s', entered) :=
          run_callbacks C fn_name (drop i (registry w)) (store w) in
        (r, mkWorld s' (events w ++ map (fun h => EvCallback h fn_name) entered))).
Proof.
  intros Hreg. induction fuel as [|fuel IH]; intros i w Hfuel; [lia|].
  simpl. fold (registry w).
  destruct (registry w !! i) as [hook|] eqn:Hi.
  - rewrite (drop_S _ _ _ Hi). simpl. rewrite call_unfold.
    specialize (Hreg hook (store w)).
    destruct (hook_callback C hook fn_name (store w)) as [[[]|e] s1];
      simpl in *.
    + set (w1 := mkWorld s1 _).
      assert (Hreg1 : registry w1 = registry w) by exact Hreg.
      rewrite IH by (rewrite Hreg1; apply lookup_lt_Some in Hi; lia).
      rewrite Hreg1. simpl.
      destruct (run_callbacks C fn_name (drop (S i) (registry w)) s1)
        as [[r s2] ent].
      simpl. rewrite <- app_assoc. reflexivity.
    + reflexivity.
  - apply lookup_ge_None in Hi. rewrite drop_ge by exact Hi. simpl.
    rewrite app_nil_r. destruct w; reflexivity.
Qed.


End DispatchFacts.

(** ** __init__ *)

Section InitFacts.

Variable C : Collaborators.

(** Registering the default hook in a runner that has just been set up. *)
Lemma register_default_hook_run w :
  _hooks (runner (store w)) = [] ->
  _register_default_hook C w =
  if dist_is_main_process C then
    match cfg (runner (store w)) with
    | None => (Raise (AttributeError "checkpoint"), w)
    | Some c =>
        let h := next_ref (store w) in
        let obj := mkHook "PeriodicCheckpointer" None
                     (PyDict [("by_epoch", PyBool (checkpoint_by_epoch c));
                              ("period", PyInt (checkpoint_period c))]) in
        let w1 := mkWorld (set_next_ref (S h)
                             (set_heap (heap_set h obj (heap (store w))) (store w)))
                          (events w) in
        match get_priority C (PrioStr "NORMAL") with
        | None => (Raise PriorityError, w1)
        | Some p => (Ok tt, inserted_at 0 h (with_priority h p w1))
        end
    end
  else (Ok tt, w).
Proof.
  intros Hempty. unfold _register_default_hook.
  destruct (dist_is_main_process C); [|reflexivity].
  rewrite bind_gets. destruct (cfg (runner (store w))) as [c|]; [|reflexivity].
  unfold new_hook. rewrite bind_assoc, bind_gets, bind_assoc, bind_modify, bind_ret.
  cbv zeta. set (w1 := mkWorld _ _).
  assert (Hnone : hook_priority (store w1) (next_ref (store w)) = None).
  { unfold hook_priority, w1, heap_set. simpl. rewrite Nat.eqb_refl. reflexivity. }
  destruct (get_priority C (PrioStr "NORMAL")) as [p|] eqn:Hget.
  - rewrite (register_hook_run C _ _ _ _ Hnone Hget).
    change (registry w1) with (_hooks (runner (store w))). rewrite Hempty.
    reflexivity.
  - apply register_hook_rejected; assumption.
Qed.

(** [__init__] after the steps that involve the collaborators. *)
Lemma init_run a w m :
  create_ddp_model C (arg_model a) false None = Ok m ->
  (forall path, arg_work_dir a = WorkDirStr path ->
                mkdir_or_exist C (abspath C path) = Ok tt) ->
  let w1 := mkWorld (set_optimizer (arg_optimizer a)
                       (set_runner (set_cfg (arg_cfg a) (runner (store w)))
                                   (store w)))
                    (events w) in
  init C a w =
  match arg_work_dir a with
  | WorkDirOther => (Raise TypeError_work_dir, w1)
  | wd =>
      let dir := match wd with
                 | WorkDirStr path => Some (abspath C path)
                 | _ => None
                 end in
      let w2 := mkWorld (set_runner (set_work_dir dir (runner (store w1)))
                                    (store w1))
                        (match wd with
                         | WorkDirStr path =>
                             events w1 ++ [EvMkdir (abspath C path)]
                         | _ => events w1
                         end) in
      let w3 := mkWorld (set_runner (set_fresh (runner (store w2))) (store w2))
                        (events w2) in
      match arg_max_epochs a, arg_max_iters a with
      | Some _, Some _ => (Raise ValueError_both_budgets, w3)
      | max_epochs, max_iters =>
          _register_default_hook C
            (mkWorld (set_runner (set_budgets max_epochs max_iters (runner (store w3)))
                                 (store w3)) (events w3))
      end
  end.
Proof.
  intros Hddp Hmkdir w1. unfold init.
  rewrite bind_modify, bind_unfold. unfold lift_res at 1. rewrite Hddp.
  rewrite bind_modify. fold w1.
  destruct (arg_work_dir a) as [path| |] eqn:Hwd.
  - rewrite bind_assoc, bind_modify. cbv beta.
    rewrite bind_assoc, bind_emit. cbv beta. rewrite bind_unfold.
    unfold lift_res at 1. rewrite (Hmkdir path eq_refl).
    rewrite bind_modify.
    destruct (arg_max_epochs a), (arg_max_iters a);
      try reflexivity; rewrite bind_modify; reflexivity.
  - rewrite !bind_modify.
    destruct (arg_max_epochs a), (arg_max_iters a);
      try reflexivity; rewrite bind_modify; reflexivity.
  - reflexivity.
Qed.


(** C7, as the code has it: given that the collaborators called on the
    way return (the wrapping of the model, the creation of the working
    directory), construction fails with a configuration error exactly
    when the working directory is neither a string nor absent (a
    [TypeError]) or both [max_epochs] and [max_iters] are set (a
    [ValueError]); with a working directory that is a string or absent
    and at most one budget set it succeeds as soon as the default
    checkpoint hook can be registered, and the new runner has the budgets
    given and its counters at 0. *)
Theorem init_configuration_errors (a : InitArgs) (w : World) :
  (exists m, create_ddp_model C (arg_model a) false None = Ok m) ->
  (forall path, arg_work_dir a = WorkDirStr path ->
                mkdir_or_exist C (abspath C path) = Ok tt) ->
  (arg_work_dir a = WorkDirOther ->
   exists w', init C a w = (Raise TypeError_work_dir, w')) /\
  (arg_work_dir a <> WorkDirOther ->
   is_Some (arg_max_epochs a) -> is_Some (arg_max_iters a) ->
   exists w', init C a w = (Raise ValueError_both_budgets, w')) /\
  (arg_work_dir a <> WorkDirOther ->
   arg_max_epochs a = None \/ arg_max_iters a = None ->
   dist_is_main_process C = false \/
     (is_Some (arg_cfg a) /\ is_Some (get_priority C (PrioStr "NORMAL"))) ->
   exists w',
     init C a w = (Ok tt, w') /\
     _max_epochs (runner (store w')) = arg_max_epochs a /\
     _max_iters (runner (store w')) = arg_max_iters a /\
     _iter (runner (store w')) = 0%Z /\
     _epoch (runner (store w')) = 0%Z /\
     _inner_iter (runner (store w')) = 0%Z) /\
  (forall e w',
     init C a w = (Raise e, w') -> ConfigurationError e = true ->
     arg_work_dir a = WorkDirOther \/
     (is_Some (arg_max_epochs a) /\ is_Some (arg_max_iters a))).
Proof.
  intros [m Hddp] Hmkdir.
  pose proof (init_run a w m Hddp Hmkdir) as Hinit. cbv zeta in Hinit.
  split; [|split; [|split]].
  - intros Hwd. rewrite Hwd in Hinit. eauto.
  - intros Hwd [me Hme] [mi Hmi]. rewrite Hme, Hmi in Hinit.
    destruct (arg_work_dir a); [eauto|eauto|contradiction].
  - intros Hwd Hone Hhook.
    assert (Hreg : forall w0, _hooks (runner (store w0)) = [] ->
              _max_epochs (runner (store w0)) = arg_max_epochs a ->
              _max_iters (runner (store w0)) = arg_max_iters a ->
              _iter (runner (store w0)) = 0%Z ->
              _epoch (runner (store w0)) = 0%Z ->
              _inner_iter (runner (store w0)) = 0%Z ->
              cfg (runner (store w0)) = arg_cfg a ->
              exists w',
                _register_default_hook C w0 = (Ok tt, w') /\
                _max_epochs (runner (store w')) = arg_max_epochs a /\
                _max_iters (runner (store w')) = arg_max_iters a /\
                _iter (runner (store w')) = 0%Z /\
                _epoch (runner (store w')) = 0%Z /\
                _inner_iter (runner (store w')) = 0%Z).
    { intros w0 Hempty H1 H2 H3 H4 H5 Hcfg.
      rewrite (register_default_hook_run w0 Hempty). rewrite Hcfg.
      destruct Hhook as [->|[[c ->] [p ->]]].
      - exists w0. repeat split; assumption.
      - destruct (dist_is_main_process C).
        + eexists. split; [reflexivity|]. simpl. repeat split; assumption.
        + exists w0. repeat split; assumption. }
    destruct (arg_work_dir a); [| |contradiction];
      destruct (arg_max_epochs a) as [me|], (arg_max_iters a) as [mi|];
      try (destruct Hone; discriminate);
      rewrite Hinit; apply Hreg; reflexivity.
  - intros e w' Hrun Hcfg. rewrite Hinit in Hrun.
    destruct (arg_work_dir a) eqn:Hwd; [right|right|left; reflexivity];
      (destruct (arg_max_epochs a) as [me|], (arg_max_iters a) as [mi|];
       try (split; eauto; fail); exfalso;
       rewrite register_default_hook_run in Hrun by reflexivity;
       simpl in Hrun;
       destruct (dist_is_main_process C); try discriminate;
       destruct (arg_cfg a);
       try (inversion Hrun; subst; discriminate);
       destruct (get_priority C (PrioStr "NORMAL"));
       inversion Hrun; subst; discriminate).
Qed.

End InitFacts.

(** ** resume_or_load *)

Section ResumeFacts.

Variable C : Collaborators.







End ResumeFacts.

(** * The sample runners *)

Lemma sample_exports_pure h d :
  exists v, hook_state_dict sample h d = (Ok v, d).
Proof. exists d. reflexivity. Qed.

Lemma sample_optimizer_exports_pure o :
  exists v, optimizer_state_dict sample o = (Ok v, o).
Proof. exists o. reflexivity. Qed.

Lemma sample_imports_return h v d :
  exists d', hook_load_state_dict sample h v d = (Ok tt, d').
Proof. exists v. reflexivity. Qed.

Lemma sample_optimizer_imports_return v o :
  exists o', optimizer_load_state_dict sample v o = (Ok tt, o').
Proof. exists v. reflexivity. Qed.


Lemma sample_callbacks_keep_registry fn_name h s :
  _hooks (runner (snd (hook_callback sample h fn_name s))) = _hooks (runner s).
Proof.
  simpl. unfold sample_callback. destruct (hdata (heap s h)); reflexivity.
Qed.

(** ** Snapshot *)

(** The snapshot of a runner with two hooks leaves it as it was. *)
Lemma state_dict_no_side_effect_witness :
  let w := sample_two_of_a_kind in
  let w' := snd (state_dict sample w) in
  registry w' = [1; 0] /\
  runner (store w') = runner (store w) /\
  (forall h, heap (store w') h = heap (store w) h) /\
  optimizer (store w') = optimizer (store w).
Proof.
  intros w w'.
  destruct (state_dict_no_side_effect sample w
              (fun h d => eq_refl) (fun o => eq_refl))
    as (Hr & _ & Hh & Ho).
  split; [vm_compute; reflexivity|].
  split; [exact Hr|]. split; [exact Hh|exact Ho].
Defined.

(** Two hooks of one kind: the state kept is that of the hook of
    priority 10. *)
Lemma state_dict_keeps_first_in_registry_order_witness :
  let w := sample_two_of_a_kind in
  registry w = [1; 0] /\
  state_dict sample w = state_dict_spec sample w /\
  exists sn w',
    state_dict sample w = (Ok sn, w') /\
    events w' = [EvOptimizerStateDict; EvHookStateDict 1; EvHookStateDict 0] /\
    assoc "K" (default [] (sn_hooks sn)) = Some (PyInt 2).
Proof.
  intros w.
  destruct (state_dict_keeps_first_in_registry_order sample w
              sample_exports_pure sample_optimizer_exports_pure)
    as (Hspec & sn & w' & Hrun & Hev & _ & Hassoc & _ & _).
  split; [vm_compute; reflexivity|]. split; [exact Hspec|].
  exists sn, w'. split; [exact Hrun|]. split.
  - rewrite Hev. vm_compute. reflexivity.
  - rewrite Hassoc. vm_compute. reflexivity.
Defined.

(** Against C4 as stated: hook 0 is registered first and hook 1 second,
    both of kind "K" and both with a non-empty state; the snapshot keeps
    the state of hook 1, which the lower priority value puts first in the
    registry, and not that of the first-registered hook 0. *)
Lemma state_dict_first_registered_counterexample :
  let w0 := sample_world [("K", PyInt 1); ("K", PyInt 2)] in
  let w := sample_two_of_a_kind in
  register_hooks sample [(0, PrioInt 50); (1, PrioInt 10)] w0 = ([0; 1], w) /\
  hook_kind (store w) 0 = hook_kind (store w) 1 /\
  exported sample (store w) 0 = Ok (PyInt 1) /\
  exported sample (store w) 1 = Ok (PyInt 2) /\
  fst (state_dict sample w)
  = Ok (mkSnapshot 0 0 PyNone (Some [("K", PyInt 2)])) /\
  fst (state_dict sample w)
  <> Ok (mkSnapshot 0 0 PyNone (Some [("K", PyInt 1)])).
Proof.
  intros w0 w.
  assert (Hsn : fst (state_dict sample w)
                = Ok (mkSnapshot 0 0 PyNone (Some [("K", PyInt 2)])))
    by (vm_compute; reflexivity).
  repeat split; try (vm_compute; reflexivity).
  rewrite Hsn. discriminate.
Qed.

(** ** Restore *)

(** A snapshot with an entry of an unknown kind before an entry of a
    known kind. *)
Lemma load_state_dict_unmatched_entry_witness :
  let w := sample_two_of_a_kind in
  let sn := mkSnapshot 5 1 PyNone
              (Some [("Missing", PyInt 9); ("K", PyInt 7)]) in
  first_of_kind (store w) "Missing" (registry w) = None /\
  exists w',
    load_state_dict sample sn w = (Ok tt, w') /\
    events w'
    = [EvOptimizerLoadStateDict PyNone;
       EvWarning "Cannot find the hook 'Missing', its state_dict is ignored.";
       EvHookLoadStateDict 1 (PyInt 7)] /\
    hdata (heap (store w') 1) = PyInt 7 /\
    heap (store w') 0 = heap (store w) 0.
Proof.
  intros w sn.
  destruct (load_state_dict_unmatched_entry sample sn w
              sample_imports_return sample_optimizer_imports_return)
    as [(w' & Hrun & Hev & _ & Hdata & Hframe) _].
  assert (Hnd : NoDup (map fst (default [] (sn_hooks sn))))
    by (apply (bool_decide_unpack _); vm_compute; reflexivity).
  split; [vm_compute; reflexivity|].
  exists w'. split; [exact Hrun|]. split; [|split].
  - rewrite Hev. vm_compute. reflexivity.
  - rewrite (Hdata Hnd "K" (PyInt 7) 1).
    + vm_compute. reflexivity.
    + right. left.
    + vm_compute. reflexivity.
  - apply Hframe. intros key value Hin.
    apply elem_of_cons in Hin. destruct Hin as [[= -> ->]|Hin].
    + vm_compute. discriminate.
    + apply list_elem_of_singleton in Hin. injection Hin as -> ->.
      vm_compute. discriminate.
Defined.

(** Two hooks of one kind: the entry reaches the hook of priority 10
    and the other keeps its object. *)
Lemma load_state_dict_first_in_registry_order_witness :
  let w := sample_two_of_a_kind in
  let w' := snd (load_hook_state sample "K" (PyInt 7) (registry w) w) in
  first_of_kind (store w) "K" (registry w) = Some 1 /\
  events w' = [EvHookLoadStateDict 1 (PyInt 7)] /\
  heap (store w') 0 = heap (store w) 0 /\
  hdata (heap (store w') 1) = PyInt 7.
Proof.
  intros w w'.
  assert (Hfirst : first_of_kind (store w) "K" (registry w) = Some 1)
    by (vm_compute; reflexivity).
  destruct (load_state_dict_first_in_registry_order sample "K" (PyInt 7) w)
    as (Hentry & _ & _).
  rewrite Hfirst in Hentry. destruct Hentry as (_ & Hev & Hother & Hdata).
  split; [exact Hfirst|]. split; [exact Hev|].
  split; [apply Hother; discriminate|exact Hdata].
Defined.

(** Against C10 as stated: of the two hooks of kind "K", hook 0 is the
    first-registered one; the entry for "K" goes to hook 1, registered
    second, and hook 0 is never called. *)
Lemma load_state_dict_first_registered_counterexample :
  let w0 := sample_world [("K", PyInt 1); ("K", PyInt 2)] in
  let w := sample_two_of_a_kind in
  let sn := mkSnapshot 5 1 PyNone (Some [("K", PyInt 7)]) in
  let w' := snd (load_state_dict sample sn w) in
  register_hooks sample [(0, PrioInt 50); (1, PrioInt 10)] w0 = ([0; 1], w) /\
  hook_kind (store w) 0 = "K" /\
  hook_kind (store w) 1 = "K" /\
  fst (load_state_dict sample sn w) = Ok tt /\
  events w' = [EvOptimizerLoadStateDict PyNone; EvHookLoadStateDict 1 (PyInt 7)] /\
  (EvHookLoadStateDict 0 (PyInt 7) ∉ events w') /\
  hdata (heap (store w') 0) = PyInt 1 /\
  hdata (heap (store w') 1) = PyInt 7.
Proof.
  intros w0 w sn w'.
  assert (Hev : events w' = [EvOptimizerLoadStateDict PyNone;
                             EvHookLoadStateDict 1 (PyInt 7)])
    by (vm_compute; reflexivity).
  repeat split; try (vm_compute; reflexivity).
  rewrite Hev. intros Hin.
  apply elem_of_cons in Hin as [Hc|Hin]; [discriminate|].
  apply elem_of_cons in Hin as [Hc|Hin]; [discriminate|].
  inversion Hin.
Qed.



(** ** Dispatch *)



(** ** Construction *)

(** A runner with a working directory and [max_iters] alone. *)
Lemma init_configuration_errors_witness :
  let a := sample_args (WorkDirStr "work") (Some 100%Z) None in
  let w := sample_world [] in
  (exists m, create_ddp_model sample (arg_model a) false None = Ok m) /\
  mkdir_or_exist sample (abspath sample "work") = Ok tt /\
  exists w',
    init sample a w = (Ok tt, w') /\
    _max_epochs (runner (store w')) = None /\
    _max_iters (runner (store w')) = Some 100%Z /\
    _iter (runner (store w')) = 0%Z /\
    _epoch (runner (store w')) = 0%Z.
Proof.
  intros a w.
  assert (Hddp : exists m, create_ddp_model sample (arg_model a) false None = Ok m)
    by (exists PyNone; reflexivity).
  assert (Hmkdir : forall path, arg_work_dir a = WorkDirStr path ->
            mkdir_or_exist sample (abspath sample path) = Ok tt)
    by (intros path _; reflexivity).
  destruct (init_configuration_errors sample a w Hddp Hmkdir)
    as (_ & _ & Hok & _).
  destruct Hok as (w' & Hrun & Hme & Hmi & Hit & Hep & _).
  - discriminate.
  - left. reflexivity.
  - right. split; eexists; reflexivity.
  - split; [exact Hddp|]. split; [reflexivity|].
    exists w'. repeat split; assumption.
Defined.

(** Against C7 as stated: with neither budget set and a working directory
    that is neither a string nor absent, construction fails, and with a
    [TypeError], which section 7 counts as a configuration error. *)
Lemma init_work_dir_counterexample :
  let a := sample_args WorkDirOther None None in
  arg_max_epochs a = None /\
  arg_max_iters a = None /\
  fst (init sample a (sample_world [])) = Raise TypeError_work_dir /\
  ConfigurationError TypeError_work_dir = true.
Proof.
  repeat split; vm_compute; reflexivity.
Qed.

(** ** Resume *)


(** * More of the runner *)

(** ** register_hook: what it writes, and where the hook lands *)

Section RegistryMore.

Variable C : Collaborators.

(** The scan either leaves the world as it is or puts the hook in. *)
Lemma register_scan_cases hook p n : forall w r w',
  register_scan hook p n w = (r, w') ->
  w' = w \/ exists k, r = Ok true /\ w' = inserted_at k hook w.
Proof.
  induction n as [|i IH]; intros w r w' Hrun.
  - inversion Hrun; subst. left. reflexivity.
  - simpl in Hrun. unfold bind at 1 in Hrun.
    rewrite hook_priority_at_eq in Hrun.
    destruct (registry w !! i) as [h|].
    2:{ inversion Hrun; subst. left. reflexivity. }
    destruct (hook_priority (store w) h) as [q|].
    2:{ inversion Hrun; subst. left. reflexivity. }
    destruct (p >=? q)%Z.
    + inversion Hrun; subst. right. exists (S i). split; reflexivity.
    + eapply IH. exact Hrun.
Qed.

(** The worlds a call of [register_hook] can leave. *)
Lemma register_hook_cases hook pa w :
  let w' := snd (register_hook C hook pa w) in
  w' = w \/
  exists p, get_priority C pa = Some p /\
            hook_priority (store w) hook = None /\
            (w' = with_priority hook p w \/
             exists k, w' = inserted_at k hook (with_priority hook p w)).
Proof.
  intros w'. subst w'.
  destruct (hook_priority (store w) hook) as [q|] eqn:Hprio.
  { rewrite (register_hook_reserved C _ _ _ _ Hprio). left. reflexivity. }
  destruct (get_priority C pa) as [p|] eqn:Hget.
  2:{ rewrite (register_hook_rejected C _ _ _ Hprio Hget). left. reflexivity. }
  right. exists p. split; [reflexivity|]. split; [reflexivity|].
  rewrite (register_hook_run C _ _ _ _ Hprio Hget).
  destruct (register_scan hook p _ _) as [r w1] eqn:Hscan.
  destruct (register_scan_cases _ _ _ _ _ _ Hscan) as [->|(k & -> & ->)].
  - destruct r as [[|]|e]; simpl.
    + left. reflexivity.
    + right. exists 0. reflexivity.
    + left. reflexivity.
  - right. exists k. reflexivity.
Qed.

(** X1: whatever its outcome, [register_hook] writes nothing but the hook
    list and the [priority] of the hook it is given: the counters, the
    mode, the budgets, the working directory and the configuration of the
    runner, the optimizer, the storage, the log of calls, the kind and the
    data of every hook and the whole object of every other hook are as
    before, and the hooks that were in the list stay in it in their
    order. *)
Theorem register_hook_writes_only_the_registry
    (hook : href) (pa : priority_arg) (w : World) :
  let w' := snd (register_hook C hook pa w) in
  events w' = events w /\
  optimizer (store w') = optimizer (store w) /\
  last_checkpoint (store w') = last_checkpoint (store w) /\
  next_ref (store w') = next_ref (store w) /\
  (_epoch (runner (store w')) = _epoch (runner (store w)) /\
   _iter (runner (store w')) = _iter (runner (store w)) /\
   _inner_iter (runner (store w')) = _inner_iter (runner (store w)) /\
   mode (runner (store w')) = mode (runner (store w)) /\
   _max_epochs (runner (store w')) = _max_epochs (runner (store w)) /\
   _max_iters (runner (store w')) = _max_iters (runner (store w)) /\
   work_dir (runner (store w')) = work_dir (runner (store w)) /\
   cfg (runner (store w')) = cfg (runner (store w))) /\
  (forall h, qualname (heap (store w') h) = qualname (heap (store w) h) /\
             hdata (heap (store w') h) = hdata (heap (store w) h)) /\
  (forall h, h <> hook -> heap (store w') h = heap (store w) h) /\
  (registry w' = registry w \/
   exists k, registry w' = take k (registry w) ++ hook :: drop k (registry w)).
Proof.
  intros w'.
  assert (Hobj : forall p h,
            (qualname (heap (store (with_priority hook p w)) h)
             = qualname (heap (store w) h) /\
             hdata (heap (store (with_priority hook p w)) h)
             = hdata (heap (store w) h)) /\
            (h <> hook -> heap (store (with_priority hook p w)) h
                          = heap (store w) h)).
  { intros p h. unfold with_priority, heap_set. simpl.
    destruct (Nat.eqb_spec h hook) as [->|Hne].
    - split; [split; reflexivity|]. intros Hc. contradiction.
    - split; [split; reflexivity|]. reflexivity. }
  destruct (register_hook_cases hook pa w)
    as [Hw|(p & _ & _ & [Hw|(k & Hw)])]; fold w' in Hw; rewrite Hw.
  - repeat split. left. reflexivity.
  - repeat split; try apply Hobj. left. reflexivity.
  - repeat split; try apply Hobj. right. exists k. reflexivity.
Qed.

(** A hook that is not registered goes in once. *)
Lemma register_hook_step_NoDup hook pa w registered :
  registry_holds w registered ->
  NoDup (registry w) ->
  NoDup (registry (snd (register_hook C hook pa w))).
Proof.
  intros Hholds Hnd.
  destruct (register_hook_cases hook pa w)
    as [Hw|(p & _ & Hnone & [Hw|(k & Hw)])]; rewrite Hw; try exact Hnd.
  change (registry (inserted_at k hook (with_priority hook p w)))
    with (take k (registry w) ++ hook :: drop k (registry w)).
  rewrite <- Permutation_middle. apply NoDup_cons. split.
  - rewrite take_drop. apply unregistered_not_in; [apply Hholds|exact Hnone].
  - rewrite take_drop. exact Hnd.
Qed.

Lemma register_hooks_NoDup calls : forall w1 reg1 registered w,
  registry_holds w1 reg1 -> NoDup (registry w1) ->
  register_hooks C calls w1 = (registered, w) ->
  NoDup (registry w).
Proof.
  induction calls as [|[h pa] calls IH];
    intros w1 reg1 registered w Hholds Hnd Hrun.
  - inversion Hrun; subst. exact Hnd.
  - simpl in Hrun.
    destruct (register_hook C h pa w1) as [r w2] eqn:Hcall.
    destruct (register_hooks C calls w2) as [reg2 w3] eqn:Hrest.
    inversion Hrun; subst. clear Hrun.
    eapply IH; [| |exact Hrest].
    + eapply register_hook_step; eassumption.
    + pose proof (register_hook_step_NoDup h pa w1 reg1 Hholds Hnd) as H.
      rewrite Hcall in H. exact H.
Qed.

(** X2: after any sequence of [register_hook] calls on a registry that
    starts empty, no hook stands twice in the registry, and no hook was
    registered twice. *)
Theorem register_hook_no_duplicates
    (calls : list (href * priority_arg)) (w0 w : World)
    (registered : list href) :
  registry w0 = [] ->
  register_hooks C calls w0 = (registered, w) ->
  NoDup (registry w) /\ NoDup registered.
Proof.
  intros Hempty Hrun.
  assert (Hnd : NoDup (registry w)).
  { eapply register_hooks_NoDup;
      [apply registry_holds_empty; exact Hempty| |exact Hrun].
    rewrite Hempty. constructor. }
  split; [exact Hnd|].
  destruct (register_hooks_holds C calls w0 [] registered w
              (registry_holds_empty _ Hempty) Hrun) as (_ & _ & Hperm & _).
  simpl in Hperm. rewrite <- Hperm. exact Hnd.
Qed.

(** A hook whose priority no registered hook exceeds goes to the end. *)
Lemma register_hook_append hook pa p w registered :
  registry_holds w registered ->
  hook_priority (store w) hook = None ->
  get_priority C pa = Some p ->
  Forall (fun h => exists q, hook_priority (store w) h = Some q /\ (q <= p)%Z)
         (registry w) ->
  exists k,
    register_hook C hook pa w
      = (Ok tt, inserted_at k hook (with_priority hook p w)) /\
    registry (inserted_at k hook (with_priority hook p w))
      = registry w ++ [hook] /\
    registry_holds (inserted_at k hook (with_priority hook p w))
                   (registered ++ [hook]).
Proof.
  intros Hholds Hnone Hget Hall.
  destruct (register_hook_next C hook pa p w registered Hholds Hnone Hget)
    as (k & Hrun & _ & Habove & Hholds').
  exists k. split; [exact Hrun|]. split; [|exact Hholds'].
  change (registry (inserted_at k hook (with_priority hook p w)))
    with (take k (registry w) ++ hook :: drop k (registry w)).
  assert (Hdrop : drop k (registry w) = []).
  { destruct (drop k (registry w)) as [|h tl] eqn:Hd; [reflexivity|].
    exfalso. inversion Habove as [|? ? (q & Hq & Hlt) _]; subst.
    assert (Hin : h ∈ registry w)
      by (apply (subseteq_drop k); rewrite Hd; left).
    rewrite Forall_forall in Hall.
    destruct (Hall h Hin) as (q' & Hq' & Hle). rewrite Hq in Hq'.
    inversion Hq'; subst. lia. }
  rewrite Hdrop. f_equal.
  rewrite <- (take_drop k (registry w)) at 2. rewrite Hdrop, app_nil_r.
  reflexivity.
Qed.

(** X3: where the registry is in order, a hook whose priority is not
    below that of any registered hook is put at the end of the list, and a
    hook whose priority is below that of every registered hook at the
    head. *)
Theorem register_hook_extremes
    (hook : href) (pa : priority_arg) (p : Z) (w : World)
    (registered : list href) :
  registry_holds w registered ->
  hook_priority (store w) hook = None ->
  get_priority C pa = Some p ->
  (Forall (fun h => exists q, hook_priority (store w) h = Some q /\ (q <= p)%Z)
          (registry w) ->
   exists w', register_hook C hook pa w = (Ok tt, w') /\
              registry w' = registry w ++ [hook]) /\
  (Forall (fun h => exists q, hook_priority (store w) h = Some q /\ (p < q)%Z)
          (registry w) ->
   exists w', register_hook C hook pa w = (Ok tt, w') /\
              registry w' = hook :: registry w).
Proof.
  intros Hholds Hnone Hget. split; intros Hall.
  - destruct (register_hook_append hook pa p w registered Hholds Hnone Hget Hall)
      as (k & Hrun & Hreg & _).
    eexists. split; [exact Hrun|exact Hreg].
  - destruct (register_hook_next C hook pa p w registered Hholds Hnone Hget)
      as (k & Hrun & Hbelow & _ & _).
    eexists. split; [exact Hrun|].
    change (registry (inserted_at k hook (with_priority hook p w)))
      with (take k (registry w) ++ hook :: drop k (registry w)).
    assert (Htake : take k (registry w) = []).
    { destruct (take k (registry w)) as [|h tl] eqn:Ht; [reflexivity|].
      exfalso. inversion Hbelow as [|? ? (q & Hq & Hle) _]; subst.
      assert (Hin : h ∈ registry w)
        by (apply (subseteq_take k); rewrite Ht; left).
      rewrite Forall_forall in Hall.
      destruct (Hall h Hin) as (q' & Hq' & Hlt). rewrite Hq in Hq'.
      inversion Hq'; subst. lia. }
    rewrite Htake. simpl. f_equal.
    rewrite <- (take_drop k (registry w)) at 2. rewrite Htake. reflexivity.
Qed.

(** Hooks registered in the order of their priorities. *)
Lemma register_hooks_in_order calls : forall ps w1 registered,
  registry_holds w1 registered ->
  Forall (fun h => exists q, hook_priority (store w1) h = Some q /\
                             Forall (Z.le q) ps) (registry w1) ->
  NoDup (map fst calls) ->
  Forall (fun c => hook_priority (store w1) (fst c) = None) calls ->
  map (fun c => get_priority C (snd c)) calls = map Some ps ->
  StronglySorted Z.le ps ->
  exists w,
    register_hooks C calls w1 = (map fst calls, w) /\
    registry w = registry w1 ++ map fst calls.
Proof.
  induction calls as [|[h pa] calls IH];
    intros ps w1 registered Hholds Hall Hnd Hfree Hget Hsorted.
  - exists w1. simpl. rewrite app_nil_r. split; reflexivity.
  - destruct ps as [|p ps]; [discriminate|].
    simpl in Hget. injection Hget as Hp Hget.
    simpl in Hnd. apply NoDup_cons in Hnd as [Hnotin Hnd].
    inversion Hfree as [|? ? Hh Hfree']; subst. simpl in Hh.
    inversion Hsorted as [|? ? Hsorted' Hle]; subst.
    assert (Hall' : Forall (fun h0 => exists q,
              hook_priority (store w1) h0 = Some q /\ (q <= p)%Z) (registry w1)).
    { eapply Forall_impl; [exact Hall|]. intros h0 (q & Hq & Hqs).
      exists q. split; [exact Hq|]. inversion Hqs; assumption. }
    destruct (register_hook_append h pa p w1 registered Hholds Hh Hp Hall')
      as (k & Hrun & Hreg & Hholds').
    set (w2 := inserted_at k h (with_priority h p w1)) in *.
    assert (Hprio : forall h0, hook_priority (store w2) h0
              = if Nat.eqb h0 h then Some p else hook_priority (store w1) h0)
      by (intros h0; apply hook_priority_with_priority).
    destruct (IH ps w2 (registered ++ [h]) Hholds') as (w & Hrest & Hfinal).
    + rewrite Hreg. apply Forall_app. split.
      * rewrite Forall_forall in Hall |- *. intros h0 Hin.
        destruct (Hall h0 Hin) as (q & Hq & Hqs). exists q.
        split; [|inversion Hqs; assumption].
        rewrite Hprio. destruct (Nat.eqb_spec h0 h) as [->|_]; [|exact Hq].
        congruence.
      * constructor; [|constructor]. exists p.
        rewrite Hprio, Nat.eqb_refl. split; [reflexivity|exact Hle].
    + exact Hnd.
    + rewrite Forall_forall in Hfree' |- *. intros c Hc.
      rewrite Hprio. destruct (Nat.eqb_spec (fst c) h) as [Heq|_];
        [|apply Hfree', Hc].
      exfalso. apply Hnotin. rewrite <- Heq.
      apply list_elem_of_fmap. exists c. split; [reflexivity|exact Hc].
    + exact Hget.
    + exact Hsorted'.
    + exists w. split.
      * simpl. rewrite Hrun. fold w2. rewrite Hrest. reflexivity.
      * rewrite Hfinal, Hreg, <- app_assoc. reflexivity.
Qed.

(** X4: distinct hooks registered into an empty registry with priorities
    that never decrease from one call to the next, equal priorities
    included, are all registered and stand in the registry in the order of
    the calls. *)
Theorem register_hook_in_priority_order
    (calls : list (href * priority_arg)) (ps : list Z) (w0 : World) :
  registry w0 = [] ->
  NoDup (map fst calls) ->
  Forall (fun c => hook_priority (store w0) (fst c) = None) calls ->
  map (fun c => get_priority C (snd c)) calls = map Some ps ->
  StronglySorted Z.le ps ->
  exists w,
    register_hooks C calls w0 = (map fst calls, w) /\
    registry w = map fst calls.
Proof.
  intros Hempty Hnd Hfree Hget Hsorted.
  destruct (register_hooks_in_order calls ps w0 []
              (registry_holds_empty _ Hempty)) as (w & Hrun & Hreg);
    try assumption.
  - rewrite Hempty. constructor.
  - exists w. split; [exact Hrun|]. rewrite Hreg, Hempty. reflexivity.
Qed.

(** X5: a registration that fails because the priority does not resolve
    leaves the world as it was, the hook still without [priority]; where
    the registry is in order the same hook can then be registered with a
    priority that resolves. *)
Theorem register_hook_retry
    (hook : href) (bad good : priority_arg) (p : Z) (w : World)
    (registered : list href) :
  registry_holds w registered ->
  hook_priority (store w) hook = None ->
  get_priority C bad = None ->
  get_priority C good = Some p ->
  register_hook C hook bad w = (Raise PriorityError, w) /\
  exists w',
    register_hook C hook good (snd (register_hook C hook bad w)) = (Ok tt, w') /\
    hook_priority (store w') hook = Some p /\
    registry w' ≡ₚ hook :: registry w.
Proof.
  intros Hholds Hnone Hbad Hgood.
  pose proof (register_hook_rejected C hook bad w Hnone Hbad) as Hfail.
  split; [exact Hfail|]. rewrite Hfail. simpl.
  destruct (register_hook_next C hook good p w registered Hholds Hnone Hgood)
    as (k & Hrun & _ & _ & _).
  eexists. split; [exact Hrun|]. split.
  - change (hook_priority (store (inserted_at k hook (with_priority hook p w))) hook)
      with (hook_priority (store (with_priority hook p w)) hook).
    rewrite hook_priority_with_priority, Nat.eqb_refl. reflexivity.
  - change (registry (inserted_at k hook (with_priority hook p w)))
      with (take k (registry w) ++ hook :: drop k (registry w)).
    rewrite <- Permutation_middle, take_drop. reflexivity.
Qed.

End RegistryMore.

(** ** __init__: the runner it builds *)

Section InitMore.

Variable C : Collaborators.

(** A construction that returned went through every check. *)
Lemma init_returns_inv a w w' :
  init C a w = (Ok tt, w') ->
  (exists m, create_ddp_model C (arg_model a) false None = Ok m) /\
  (forall path, arg_work_dir a = WorkDirStr path ->
                mkdir_or_exist C (abspath C path) = Ok tt) /\
  arg_work_dir a <> WorkDirOther /\
  (arg_max_epochs a = None \/ arg_max_iters a = None).
Proof.
  intros Hinit. unfold init in Hinit.
  rewrite bind_modify, bind_unfold in Hinit. unfold lift_res at 1 in Hinit.
  destruct (create_ddp_model C (arg_model a) false None) as [m|e];
    [|discriminate].
  rewrite bind_modify in Hinit.
  split; [exists m; reflexivity|].
  destruct (arg_work_dir a) as [path| |].
  - rewrite bind_assoc, bind_modify in Hinit. cbv beta in Hinit.
    rewrite bind_assoc, bind_emit in Hinit. cbv beta in Hinit.
    rewrite bind_unfold in Hinit. unfold lift_res at 1 in Hinit.
    destruct (mkdir_or_exist C (abspath C path)) as [[]|e] eqn:Hmk;
      [|discriminate].
    rewrite bind_modify in Hinit.
    split; [intros path' [= <-]; exact Hmk|]. split; [discriminate|].
    destruct (arg_max_epochs a), (arg_max_iters a); try discriminate; auto.
  - rewrite !bind_modify in Hinit.
    split; [discriminate|]. split; [discriminate|].
    destruct (arg_max_epochs a), (arg_max_iters a); try discriminate; auto.
  - discriminate.
Qed.

(** The hook list of a constructed runner is empty or holds one hook with
    a priority. *)
Lemma init_registry_shape a w w' :
  init C a w = (Ok tt, w') ->
  registry w' = [] \/
  exists h p, registry w' = [h] /\ hook_priority (store w') h = Some p.
Proof.
  intros Hinit.
  destruct (init_returns_inv a w w' Hinit) as ([m Hddp] & Hmkdir & Hwd & Hone).
  rewrite (init_run C a w m Hddp Hmkdir) in Hinit. cbv zeta in Hinit.
  destruct (arg_work_dir a) as [path| |]; [| |contradiction];
    (destruct (arg_max_epochs a) as [me|], (arg_max_iters a) as [mi|];
     try (destruct Hone; discriminate);
     rewrite register_default_hook_run in Hinit by reflexivity;
     simpl in Hinit;
     (destruct (dist_is_main_process C);
      [ (destruct (arg_cfg a) as [c|]; [|discriminate]);
        (destruct (get_priority C (PrioStr "NORMAL")) as [p|]; [|discriminate]);
        inversion Hinit; subst w'; clear Hinit;
        right; exists (next_ref (store w)), p;
        (split; [reflexivity|]);
        unfold hook_priority; simpl; unfold heap_set;
        rewrite Nat.eqb_refl; reflexivity
      | inversion Hinit; subst w'; clear Hinit; left; reflexivity ])).
Qed.

(** X6: a runner that was constructed has an empty hook list on a process
    that is not the main one; on the main process its hook list holds one
    hook, a new object of kind PeriodicCheckpointer that carries the
    settings of [cfg.checkpoint] and the priority that NORMAL resolves to.
    Its working directory is the absolute path of the one given, created
    by one call, or absent when none was given; its optimizer is the one
    given, its mode is unset and its budgets are the ones given. *)
Theorem init_builds (a : InitArgs) (w w' : World) :
  init C a w = (Ok tt, w') ->
  (if dist_is_main_process C then
     exists c p,
       arg_cfg a = Some c /\
       get_priority C (PrioStr "NORMAL") = Some p /\
       registry w' = [next_ref (store w)] /\
       heap (store w') (next_ref (store w))
       = mkHook "PeriodicCheckpointer" (Some p)
           (PyDict [("by_epoch", PyBool (checkpoint_by_epoch c));
                    ("period", PyInt (checkpoint_period c))]) /\
       next_ref (store w') = S (next_ref (store w)) /\
       (forall h, h <> next_ref (store w) ->
                  heap (store w') h = heap (store w) h)
   else
     registry w' = [] /\
     next_ref (store w') = next_ref (store w) /\
     (forall h, heap (store w') h = heap (store w) h)) /\
  match arg_work_dir a with
  | WorkDirStr path =>
      work_dir (runner (store w')) = Some (abspath C path) /\
      events w' = events w ++ [EvMkdir (abspath C path)]
  | _ => work_dir (runner (store w')) = None /\ events w' = events w
  end /\
  optimizer (store w') = arg_optimizer a /\
  mode (runner (store w')) = None /\
  _max_epochs (runner (store w')) = arg_max_epochs a /\
  _max_iters (runner (store w')) = arg_max_iters a /\
  cfg (runner (store w')) = arg_cfg a.
Proof.
  intros Hinit.
  destruct (init_returns_inv a w w' Hinit) as ([m Hddp] & Hmkdir & Hwd & Hone).
  rewrite (init_run C a w m Hddp Hmkdir) in Hinit. cbv zeta in Hinit.
  destruct (arg_work_dir a) as [path| |]; [| |contradiction];
    (destruct (arg_max_epochs a) as [me|], (arg_max_iters a) as [mi|];
     try (destruct Hone; discriminate);
     rewrite register_default_hook_run in Hinit by reflexivity;
     simpl in Hinit;
     (destruct (dist_is_main_process C);
      [ (destruct (arg_cfg a) as [c|]; [|discriminate]);
        (destruct (get_priority C (PrioStr "NORMAL")) as [p|]; [|discriminate]);
        inversion Hinit; subst w'; clear Hinit;
        (split; [exists c, p|]);
        repeat split; simpl; unfold heap_set;
        try (rewrite !Nat.eqb_refl; reflexivity);
        intros h Hne;
        (destruct (Nat.eqb_spec h (next_ref (store w)));
         [contradiction|reflexivity])
      | inversion Hinit; subst w'; clear Hinit; repeat split ])).
Qed.

(** X7: on the main process a construction without a configuration, which
    is the default of the argument, fails with an [AttributeError] when it
    comes to the default checkpoint hook, the arguments being otherwise
    good and the collaborators returning; no hook is registered. *)
Theorem init_without_cfg (a : InitArgs) (w : World) :
  (exists m, create_ddp_model C (arg_model a) false None = Ok m) ->
  (forall path, arg_work_dir a = WorkDirStr path ->
                mkdir_or_exist C (abspath C path) = Ok tt) ->
  arg_work_dir a <> WorkDirOther ->
  arg_max_epochs a = None \/ arg_max_iters a = None ->
  dist_is_main_process C = true ->
  arg_cfg a = None ->
  exists w',
    init C a w = (Raise (AttributeError "checkpoint"), w') /\
    registry w' = [].
Proof.
  intros [m Hddp] Hmkdir Hwd Hone Hmain Hcfg.
  rewrite (init_run C a w m Hddp Hmkdir). cbv zeta.
  destruct (arg_work_dir a) as [path| |]; [| |contradiction];
    destruct (arg_max_epochs a) as [me|], (arg_max_iters a) as [mi|];
    try (destruct Hone; discriminate);
    rewrite register_default_hook_run by reflexivity;
    rewrite Hmain; simpl; rewrite Hcfg;
    eexists; split; reflexivity.
Qed.

(** The hook list of a runner that was constructed is in order. *)
Lemma init_registry_holds a w w' :
  init C a w = (Ok tt, w') ->
  registry_holds w' (registry w') /\ NoDup (registry w').
Proof.
  intros Hinit.
  assert (Hone : registry w' = [] \/
            exists h p, registry w' = [h] /\ hook_priority (store w') h = Some p).
  { exact (init_registry_shape a w w' Hinit). }
  destruct Hone as [Hreg|(h & p & Hreg & Hp)].
  - split; [|rewrite Hreg; constructor].
    pose proof (registry_holds_empty _ Hreg) as Hholds.
    rewrite <- Hreg in Hholds. exact Hholds.
  - split; [|rewrite Hreg; apply NoDup_singleton].
    unfold registry_holds, registry_wf, registry_sorted.
    fold (registry w'). rewrite Hreg.
    split; [constructor; [rewrite Hp; eexists; reflexivity|constructor]|].
    split; [constructor; constructor|]. split; reflexivity.
Qed.

(** X8: hooks registered after construction, by any sequence of calls,
    share the registry with the default checkpoint hook if there is one:
    the registry stays sorted by priority and without duplicates, holds
    the hooks of the constructed runner and the hooks whose registration
    returned, and among hooks of one priority the default hook comes
    first and the others follow in registration order. *)
Theorem init_then_register_hooks
    (a : InitArgs) (calls : list (href * priority_arg))
    (w0 w1 w : World) (registered : list href) :
  init C a w0 = (Ok tt, w1) ->
  register_hooks C calls w1 = (registered, w) ->
  registry_wf (store w) /\
  registry_sorted (store w) /\
  NoDup (registry w) /\
  registry w ≡ₚ registry w1 ++ registered /\
  forall q, of_priority (store w) q (registry w)
            = of_priority (store w) q (registry w1 ++ registered).
Proof.
  intros Hinit Hrun.
  destruct (init_registry_holds a w0 w1 Hinit) as [Hholds Hnd].
  destruct (register_hooks_holds C calls w1 _ registered w Hholds Hrun)
    as (Hwf & Hsorted & Hperm & Hstable).
  split; [exact Hwf|]. split; [exact Hsorted|].
  split; [eapply register_hooks_NoDup; eassumption|].
  split; [exact Hperm|exact Hstable].
Qed.

(** X9: the construction does not guard its collaborators and does not
    undo what it wrote.  When the wrapping of the model raises, the
    construction raises the same exception having assigned [cfg] and
    nothing else; when the creation of the working directory raises, the
    construction raises that exception having assigned [cfg], the
    optimizer and [work_dir] and made the one call for the directory, and
    before it sets the hook list, the mode, the counters or the budgets,
    whatever the budgets are. *)
Theorem init_collaborator_failure (a : InitArgs) (w : World) :
  (forall e,
     create_ddp_model C (arg_model a) false None = Raise e ->
     init C a w
     = (Raise e,
        mkWorld (set_runner (set_cfg (arg_cfg a) (runner (store w))) (store w))
                (events w))) /\
  (forall m path e,
     create_ddp_model C (arg_model a) false None = Ok m ->
     arg_work_dir a = WorkDirStr path ->
     mkdir_or_exist C (abspath C path) = Raise e ->
     exists w',
       init C a w = (Raise e, w') /\
       runner (store w')
       = set_work_dir (Some (abspath C path))
           (set_cfg (arg_cfg a) (runner (store w))) /\
       optimizer (store w') = arg_optimizer a /\
       heap (store w') = heap (store w) /\
       next_ref (store w') = next_ref (store w) /\
       last_checkpoint (store w') = last_checkpoint (store w) /\
       events w' = events w ++ [EvMkdir (abspath C path)]).
Proof.
  split.
  - intros e Hddp. unfold init.
    rewrite bind_modify, bind_unfold. unfold lift_res at 1.
    rewrite Hddp. reflexivity.
  - intros m path e Hddp Hwd Hmk. unfold init.
    rewrite bind_modify, bind_unfold. unfold lift_res at 1. rewrite Hddp.
    rewrite bind_modify, Hwd.
    rewrite bind_assoc, bind_modify. cbv beta.
    rewrite bind_assoc, bind_emit. cbv beta. rewrite bind_unfold.
    unfold lift_res at 1. rewrite Hmk.
    eexists. split; [reflexivity|]. repeat split.
Qed.

End InitMore.

(** ** state_dict and load_state_dict: failures and frames *)

Section SnapshotMore.

Variable C : Collaborators.

Lemma exported_same_store s s' h :
  same_store s s' -> exported C s' h = exported C s h.
Proof.
  intros (_ & Hh & _). unfold exported. rewrite Hh. reflexivity.
Qed.

(** The pass over the hooks stops at the first export that raises. *)
Lemma export_all_raises l1 h l2 e :
  (forall h d, snd (hook_state_dict C h d) = d) ->
  forall w0 w,
  same_store (store w0) (store w) ->
  Forall (fun h' => exists v, exported C (store w0) h' = Ok v) l1 ->
  exported C (store w0) h = Raise e ->
  exists w',
    export_all C (l1 ++ h :: l2) w = (Raise e, w') /\
    events w' = events w ++ map EvHookStateDict (l1 ++ [h]).
Proof.
  intros Hpure w0. induction l1 as [|h1 l1 IH]; intros w Hsame Hok Hraise.
  - simpl. rewrite bind_unfold, call_unfold, fst_on_hook.
    rewrite <- (exported_same_store _ _ h Hsame) in Hraise.
    unfold exported in Hraise. rewrite Hraise.
    eexists. split; reflexivity.
  - inversion Hok as [|? ? [v Hv] Hok']; subst.
    simpl. rewrite bind_unfold, call_unfold, fst_on_hook.
    rewrite <- (exported_same_store _ _ h1 Hsame) in Hv.
    unfold exported in Hv. rewrite Hv.
    rewrite bind_gets, bind_unfold.
    pose proof (on_hook_pure h1 (hook_state_dict C h1) (store w) (Hpure _ _))
      as Hstep.
    match goal with
    | |- context [export_all C _ ?w1] =>
        destruct (IH w1) as (w' & Hrun & Hev);
          [eapply same_store_trans; [exact Hsame|exact Hstep]
          |exact Hok'|exact Hraise|]
    end.
    rewrite Hrun. exists w'. split; [reflexivity|].
    rewrite Hev. simpl. rewrite <- app_assoc. reflexivity.
Qed.

(** X10: [state_dict] does not guard the exports.  When the export of the
    optimizer raises, [state_dict] raises the same exception and asks no
    hook; when the export of a hook raises after those of the hooks before
    it returned, [state_dict] raises that exception and the hooks after it
    are not asked (the exports being reads). *)
Theorem state_dict_export_failure (w : World) :
  (forall h d, snd (hook_state_dict C h d) = d) ->
  (forall e,
     fst (optimizer_state_dict C (optimizer (store w))) = Raise e ->
     exists w',
       state_dict C w = (Raise e, w') /\
       events w' = events w ++ [EvOptimizerStateDict]) /\
  (forall l1 h l2 e,
     (exists v, optimizer_state_dict C (optimizer (store w))
                = (Ok v, optimizer (store w))) ->
     registry w = l1 ++ h :: l2 ->
     Forall (fun h' => exists v, exported C (store w) h' = Ok v) l1 ->
     exported C (store w) h = Raise e ->
     exists w',
       state_dict C w = (Raise e, w') /\
       events w' = events w ++ EvOptimizerStateDict
                     :: map EvHookStateDict (l1 ++ [h])).
Proof.
  intros Hpure. split.
  - intros e Hopt. rewrite state_dict_refines. unfold state_dict_spec.
    rewrite !bind_gets, bind_unfold, call_unfold, fst_on_optimizer, Hopt.
    eexists. split; reflexivity.
  - intros l1 h l2 e [v Hopt] Hreg Hok Hraise.
    rewrite state_dict_refines. unfold state_dict_spec.
    rewrite !bind_gets, bind_unfold, call_unfold, fst_on_optimizer, Hopt.
    cbn [fst]. rewrite bind_gets, bind_unfold.
    pose proof (on_optimizer_pure (optimizer_state_dict C) (store w)) as Hstep.
    rewrite Hopt in Hstep. specialize (Hstep eq_refl).
    assert (Hhooks :
      _hooks (runner (snd (on_optimizer (optimizer_state_dict C) (store w))))
      = l1 ++ h :: l2).
    { destruct Hstep as (Hr & _). rewrite Hr. exact Hreg. }
    cbn [store]. rewrite Hhooks.
    match goal with
    | |- context [export_all C _ ?w1] =>
        destruct (export_all_raises l1 h l2 e Hpure w w1 Hstep Hok Hraise)
          as (w' & Hrun & Hev)
    end.
    rewrite Hrun. exists w'. split; [reflexivity|].
    rewrite Hev. simpl. rewrite <- app_assoc. reflexivity.
Qed.

(** The restore of the entries writes the data of hooks and nothing
    else. *)
Lemma load_hooks_state_frame items : forall w r w',
  load_hooks_state C items w = (r, w') ->
  runner (store w') = runner (store w) /\
  next_ref (store w') = next_ref (store w) /\
  forall h, qualname (heap (store w') h) = qualname (heap (store w) h) /\
            priority (heap (store w') h) = priority (heap (store w) h).
Proof.
  assert (Hhook : forall {A} h (op : pyval -> Res A * pyval) s,
            next_ref (snd (on_hook h op s)) = next_ref s).
  { intros A h op s. unfold on_hook. destruct (op _); reflexivity. }
  induction items as [|[key value] rest IH]; intros w r w' Hrun.
  - inversion Hrun; subst. repeat split.
  - rewrite load_hooks_state_cons, bind_unfold in Hrun.
    pose proof (load_entry_step C key value w) as Hstep. simpl in Hstep.
    destruct (first_of_kind (store w) key (registry w)) as [h|];
      rewrite Hstep in Hrun; clear Hstep.
    + pose proof (on_hook_frame h (hook_load_state_dict C h value) (store w))
        as (Hr & _ & Hq & Hp & _ & _).
      set (s1 := snd (on_hook h (hook_load_state_dict C h value) (store w))) in *.
      assert (Hn : next_ref s1 = next_ref (store w)) by apply Hhook.
      destruct (fst (hook_load_state_dict C h value _)) as [[]|e].
      * apply IH in Hrun. destruct Hrun as (Hr' & Hn' & Hobj').
        cbn [store] in Hr', Hn', Hobj'.
        split; [congruence|]. split; [congruence|].
        intros h0. destruct (Hobj' h0) as [Ha Hb].
        rewrite Ha, Hb. split; [apply Hq|apply Hp].
      * inversion Hrun; subst. cbn [store].
        split; [exact Hr|]. split; [exact Hn|].
        intros h0. split; [apply Hq|apply Hp].
    + apply IH in Hrun. exact Hrun.
Qed.

(** X11: [load_state_dict] is not atomic and is confined: whether it
    returns or an import raises, [_iter] and [_epoch] hold the values of
    the snapshot afterwards, and the hook list, [_inner_iter], the mode,
    the budgets and the kind and priority of every hook are untouched; a
    snapshot without a hooks entry changes no hook object and warns of
    nothing. *)
Theorem load_state_dict_overwrites (sn : Snapshot) (w : World) :
  let w' := snd (load_state_dict C sn w) in
  _iter (runner (store w')) = sn_iter sn /\
  _epoch (runner (store w')) = sn_epoch sn /\
  _hooks (runner (store w')) = _hooks (runner (store w)) /\
  _inner_iter (runner (store w')) = _inner_iter (runner (store w)) /\
  mode (runner (store w')) = mode (runner (store w)) /\
  _max_epochs (runner (store w')) = _max_epochs (runner (store w)) /\
  _max_iters (runner (store w')) = _max_iters (runner (store w)) /\
  (forall h, qualname (heap (store w') h) = qualname (heap (store w) h) /\
             priority (heap (store w') h) = priority (heap (store w) h)) /\
  (sn_hooks sn = None ->
   (forall h, heap (store w') h = heap (store w) h) /\
   events w' = events w ++ [EvOptimizerLoadStateDict (sn_optimizer sn)]).
Proof.
  intros w'. subst w'. rewrite load_state_dict_unfold. cbv zeta.
  set (s1 := set_runner _ (store w)).
  destruct (on_optimizer_frame (optimizer_load_state_dict C (sn_optimizer sn)) s1)
    as [Hr Hh].
  set (w1 := mkWorld _ _).
  assert (Hr1 : runner (store w1) = runner s1) by exact Hr.
  assert (Hh1 : heap (store w1) = heap (store w)) by exact Hh.
  assert (Hfront : forall w2,
            runner (store w2) = runner s1 ->
            (forall h, qualname (heap (store w2) h) = qualname (heap (store w) h) /\
                       priority (heap (store w2) h) = priority (heap (store w) h)) ->
            _iter (runner (store w2)) = sn_iter sn /\
            _epoch (runner (store w2)) = sn_epoch sn /\
            _hooks (runner (store w2)) = _hooks (runner (store w)) /\
            _inner_iter (runner (store w2)) = _inner_iter (runner (store w)) /\
            mode (runner (store w2)) = mode (runner (store w)) /\
            _max_epochs (runner (store w2)) = _max_epochs (runner (store w)) /\
            _max_iters (runner (store w2)) = _max_iters (runner (store w)) /\
            (forall h, qualname (heap (store w2) h) = qualname (heap (store w) h) /\
                       priority (heap (store w2) h) = priority (heap (store w) h))).
  { intros w2 Hr2 Hobj. rewrite Hr2.
    do 7 (split; [reflexivity|]). exact Hobj. }
  destruct (fst (on_optimizer _ s1)) as [[]|e].
  - destruct (load_hooks_state C (default [] (sn_hooks sn)) w1)
      as [r w2] eqn:Hrun.
    pose proof (load_hooks_state_frame _ _ _ _ Hrun) as (Hr2 & _ & Hobj).
    cbn [snd].
    assert (Hobj2 : forall h,
              qualname (heap (store w2) h) = qualname (heap (store w) h) /\
              priority (heap (store w2) h) = priority (heap (store w) h))
      by (intros h; rewrite <- Hh1; apply Hobj).
    destruct (Hfront w2 (eq_trans Hr2 Hr1) Hobj2)
      as (H1 & H2 & H3 & H4 & H5 & H6 & H7 & H8).
    do 8 (split; [assumption|]).
    intros Hnone. rewrite Hnone in Hrun. inversion Hrun; subst.
    split; [intros h; rewrite Hh1; reflexivity|reflexivity].
  - cbn [snd].
    assert (Hobj1 : forall h,
              qualname (heap (store w1) h) = qualname (heap (store w) h) /\
              priority (heap (store w1) h) = priority (heap (store w) h))
      by (intros h; rewrite Hh1; split; reflexivity).
    destruct (Hfront w1 Hr1 Hobj1)
      as (H1 & H2 & H3 & H4 & H5 & H6 & H7 & H8).
    do 8 (split; [assumption|]).
    intros _. split; [intros h; rewrite Hh1; reflexivity|reflexivity].
Qed.

(** The restore of the entries stops at the first import that raises. *)
Lemma load_hooks_state_raises h key value e items2 :
  (forall h' v' d, h' <> h ->
     exists d', hook_load_state_dict C h' v' d = (Ok tt, d')) ->
  (forall d, fst (hook_load_state_dict C h value d) = Raise e) ->
  forall items1 w,
  Forall (fun kv => first_of_kind (store w) (fst kv) (registry w) <> Some h)
         items1 ->
  first_of_kind (store w) key (registry w) = Some h ->
  exists w',
    load_hooks_state C (items1 ++ (key, value) :: items2) w = (Raise e, w') /\
    events w' = events w ++ restore_events (store w) (registry w) items1
                  ++ [EvHookLoadStateDict h value].
Proof.
  intros Hothers Hraise. induction items1 as [|[k1 v1] items1 IH];
    intros w Hnot Hfirst.
  - simpl app. rewrite load_hooks_state_cons, bind_unfold.
    pose proof (load_entry_step C key value w) as Hstep. simpl in Hstep.
    rewrite Hfirst in Hstep. rewrite Hstep, Hraise.
    eexists. split; reflexivity.
  - inversion Hnot as [|? ? Hk1 Hnot']; subst. simpl in Hk1.
    simpl app. rewrite load_hooks_state_cons, bind_unfold.
    pose proof (load_entry_step C k1 v1 w) as Hstep. simpl in Hstep.
    unfold restore_events. simpl flat_map.
    fold (restore_events (store w) (registry w) items1).
    destruct (first_of_kind (store w) k1 (registry w)) as [h1|] eqn:Hf1;
      rewrite Hstep; clear Hstep.
    + assert (Hne : h1 <> h) by congruence.
      destruct (Hothers h1 v1 (hdata (heap (store w) h1)) Hne) as [d' Hd'].
      rewrite Hd'. cbn [fst].
      pose proof (on_hook_frame h1 (hook_load_state_dict C h1 v1) (store w))
        as (Hr & _ & Hq & _ & _ & _).
      set (w1 := mkWorld _ _).
      assert (Hreg1 : registry w1 = registry w)
        by (unfold registry, w1; cbn [store]; rewrite Hr; reflexivity).
      assert (Hk : forall h0, hook_kind (store w1) h0 = hook_kind (store w) h0)
        by (intros h0; apply Hq).
      destruct (IH w1) as (w' & Hrun & Hev).
      * eapply Forall_impl; [exact Hnot'|]. intros kv Hkv.
        rewrite Hreg1, (first_of_kind_ext (store w)) by exact Hk. exact Hkv.
      * rewrite Hreg1, (first_of_kind_ext (store w)) by exact Hk. exact Hfirst.
      * exists w'. split; [exact Hrun|].
        rewrite Hev, Hreg1, (restore_events_ext (store w)) by exact Hk.
        unfold w1. simpl. rewrite <- !app_assoc. reflexivity.
    + set (w1 := mkWorld _ _).
      destruct (IH w1 Hnot' Hfirst) as (w' & Hrun & Hev).
      exists w'. split; [exact Hrun|].
      rewrite Hev. unfold w1. simpl. rewrite <- !app_assoc. reflexivity.
Qed.

(** X12: [load_state_dict] does not guard the imports.  When the import of
    the hook that an entry reaches raises, the entries before it having
    been imported by other hooks or skipped with a warning, the restore
    raises that exception at once: the entries after it are neither
    imported nor warned of. *)
Theorem load_state_dict_import_failure
    (sn : Snapshot) (w : World) (items1 items2 : list (string * pyval))
    (key : string) (value : pyval) (h : href) (e : Exc) :
  (forall v o, exists o', optimizer_load_state_dict C v o = (Ok tt, o')) ->
  (forall h' v' d, h' <> h ->
     exists d', hook_load_state_dict C h' v' d = (Ok tt, d')) ->
  (forall d, fst (hook_load_state_dict C h value d) = Raise e) ->
  sn_hooks sn = Some (items1 ++ (key, value) :: items2) ->
  Forall (fun kv => first_of_kind (store w) (fst kv) (registry w) <> Some h)
         items1 ->
  first_of_kind (store w) key (registry w) = Some h ->
  exists w',
    load_state_dict C sn w = (Raise e, w') /\
    events w'
    = events w ++ EvOptimizerLoadStateDict (sn_optimizer sn)
        :: restore_events (store w) (registry w) items1
        ++ [EvHookLoadStateDict h value].
Proof.
  intros Hopt Hothers Hraise Hitems Hnot Hfirst.
  rewrite load_state_dict_unfold. cbv zeta. rewrite fst_on_optimizer.
  match goal with
  | |- context [optimizer_load_state_dict C ?v ?o] =>
      destruct (Hopt v o) as [o' Ho']; rewrite Ho'
  end.
  cbn [fst]. rewrite Hitems. simpl default.
  set (s1 := set_runner _ (store w)).
  destruct (on_optimizer_frame (optimizer_load_state_dict C (sn_optimizer sn)) s1)
    as [Hr Hh].
  set (w1 := mkWorld _ _).
  assert (Hreg1 : registry w1 = registry w)
    by (unfold registry, w1; cbn [store]; rewrite Hr; reflexivity).
  assert (Hk : forall h0, hook_kind (store w1) h0 = hook_kind (store w) h0)
    by (intros h0; unfold hook_kind, w1; cbn [store]; rewrite Hh; reflexivity).
  destruct (load_hooks_state_raises h key value e items2 Hothers Hraise
              items1 w1) as (w' & Hrun & Hev).
  - eapply Forall_impl; [exact Hnot|]. intros kv Hkv.
    rewrite Hreg1, (first_of_kind_ext (store w)) by exact Hk. exact Hkv.
  - rewrite Hreg1, (first_of_kind_ext (store w)) by exact Hk. exact Hfirst.
  - exists w'. split; [exact Hrun|].
    rewrite Hev, Hreg1, (restore_events_ext (store w)) by exact Hk.
    unfold w1. simpl. rewrite <- !app_assoc. reflexivity.
Qed.

End SnapshotMore.

(** ** call_hook twice *)

Section DispatchMore.

Variable C : Collaborators.

(** Callbacks that leave the hook list alone leave it alone together. *)
Lemma run_callbacks_registry fn_name :
  (forall h s, _hooks (runner (snd (hook_callback C h fn_name s)))
               = _hooks (runner s)) ->
  forall l s r s' entered,
  run_callbacks C fn_name l s = (r, s', entered) ->
  _hooks (runner s') = _hooks (runner s).
Proof.
  intros Hreg. induction l as [|h rest IH]; intros s r s' entered Hrun;
    simpl in Hrun.
  - inversion Hrun; reflexivity.
  - specialize (Hreg h s).
    destruct (hook_callback C h fn_name s) as [[[]|e] s1]; simpl in Hreg.
    + destruct (run_callbacks C fn_name rest s1) as [[r2 s2] ent] eqn:Hrest.
      inversion Hrun; subst. rewrite (IH _ _ _ _ Hrest). exact Hreg.
    + inversion Hrun; subst. exact Hreg.
Qed.

(** X13: two dispatches that return, one after the other, enter the same
    hooks in the same order, the registry order, and leave the hook list
    as it was (while no callback changes the hook list and with fuel for
    its length). *)
Theorem call_hook_twice (fn1 fn2 : string) (fuel : nat) (w w1 w2 : World) :
  (forall fn h s, _hooks (runner (snd (hook_callback C h fn s)))
                  = _hooks (runner s)) ->
  length (registry w) < fuel ->
  call_hook C fuel fn1 w = Some (Ok tt, w1) ->
  call_hook C fuel fn2 w1 = Some (Ok tt, w2) ->
  registry w2 = registry w /\
  events w2 = events w ++ map (fun h => EvCallback h fn1) (registry w)
                       ++ map (fun h => EvCallback h fn2) (registry w).
Proof.
  intros Hreg Hfuel H1 H2.
  assert (Hone : forall fn w0 w0',
            length (registry w0) < fuel ->
            call_hook C fuel fn w0 = Some (Ok tt, w0') ->
            registry w0' = registry w0 /\
            events w0' = events w0 ++ map (fun h => EvCallback h fn) (registry w0)).
  { intros fn w0 w0' Hf Hcall. unfold call_hook in Hcall.
    rewrite (call_hook_from_static C fn (Hreg fn)) in Hcall by lia.
    rewrite drop_0 in Hcall.
    destruct (run_callbacks C fn (registry w0) (store w0))
      as [[r s'] entered] eqn:Hrun.
    inversion Hcall; subst. clear Hcall.
    rewrite (run_callbacks_ok C fn _ _ _ _ Hrun). split; [|reflexivity].
    apply (run_callbacks_registry fn (Hreg fn) _ _ _ _ _ Hrun). }
  destruct (Hone fn1 w w1 Hfuel H1) as [Hr1 He1].
  destruct (Hone fn2 w1 w2) as [Hr2 He2]; [rewrite Hr1; exact Hfuel|exact H2|].
  split; [congruence|].
  rewrite He2, He1, Hr1, <- app_assoc. reflexivity.
Qed.

End DispatchMore.

(** ** register_hook_from_cfg *)

Section FromCfg.

Variable C : Collaborators.
Variable build_from_cfg : list (string * pyval) -> Store -> Res href * Store.

(** The invariant of the registry looks at the hook list and at the
    priorities only. *)
Lemma registry_holds_ext w w' registered :
  registry w' = registry w ->
  (forall h, hook_priority (store w') h = hook_priority (store w) h) ->
  registry_holds w registered -> registry_holds w' registered.
Proof.
  intros Hreg Hprio (Hwf & Hs & Hperm & Hstable).
  unfold registry_holds, registry_wf, registry_sorted in *.
  fold (registry w) in Hwf, Hs. fold (registry w'). rewrite Hreg.
  split; [|split; [|split]].
  - eapply Forall_impl; [exact Hwf|]. intros h Hh. rewrite Hprio. exact Hh.
  - apply (StronglySorted_ext (prio_le (store w))); [|exact Hs].
    intros x y _ _. unfold prio_le. rewrite !Hprio. trivial.
  - exact Hperm.
  - intros q. unfold of_priority in *.
    rewrite (filter_ext_in (fun h => hook_priority (store w') h = Some q)
               (fun h => hook_priority (store w) h = Some q) (registry w))
      by (intros h _; rewrite Hprio; reflexivity).
    rewrite (filter_ext_in (fun h => hook_priority (store w') h = Some q)
               (fun h => hook_priority (store w) h = Some q) registered)
      by (intros h _; rewrite Hprio; reflexivity).
    apply Hstable.
Qed.

(** X14: [register_hook_from_cfg] hands the entries of the dict other than
    'priority' to the builder and registers what it builds with the
    priority of the dict, NORMAL when the dict has none.  With a builder
    that returns a hook without [priority] and leaves the hook list and
    the priorities alone, the hook lands in order like any other: after
    the hooks of lower or equal priority and before those of higher
    priority.  When the builder raises, that exception is the result and
    nothing is registered. *)
Theorem register_hook_from_cfg_registers
    (hook_cfg : HookCfg) (w : World) (registered : list href) :
  registry_holds w registered ->
  (forall hook s1 p,
     build_from_cfg (hc_items hook_cfg) (store w) = (Ok hook, s1) ->
     _hooks (runner s1) = registry w ->
     (forall h, h <> hook -> priority (heap s1 h) = hook_priority (store w) h) ->
     priority (heap s1 hook) = None ->
     hook_priority (store w) hook = None ->
     get_priority C (default (PrioStr "NORMAL") (hc_priority hook_cfg)) = Some p ->
     exists k w',
       register_hook_from_cfg C build_from_cfg hook_cfg w = (Ok tt, w') /\
       registry w' = take k (registry w) ++ hook :: drop k (registry w) /\
       hook_priority (store w') hook = Some p /\
       Forall (fun h => exists q, hook_priority (store w) h = Some q /\ (q <= p)%Z)
              (take k (registry w)) /\
       Forall (fun h => exists q, hook_priority (store w) h = Some q /\ (p < q)%Z)
              (drop k (registry w)) /\
       registry_holds w' (registered ++ [hook])) /\
  (forall e s1,
     build_from_cfg (hc_items hook_cfg) (store w) = (Raise e, s1) ->
     register_hook_from_cfg C build_from_cfg hook_cfg w
     = (Raise e, mkWorld s1 (events w))).
Proof.
  intros Hholds. split.
  - intros hook s1 p Hbuild Hreg Hothers Hfresh Hnone Hget.
    set (w1 := mkWorld s1 (events w)).
    assert (Hprio : forall h, hook_priority (store w1) h = hook_priority (store w) h).
    { intros h. unfold hook_priority at 1. simpl.
      destruct (decide (h = hook)) as [->|Hne].
      - rewrite Hfresh, Hnone. reflexivity.
      - apply Hothers, Hne. }
    assert (Hholds1 : registry_holds w1 registered)
      by (apply (registry_holds_ext w); [exact Hreg|exact Hprio|exact Hholds]).
    assert (Hnone1 : hook_priority (store w1) hook = None)
      by (rewrite Hprio; exact Hnone).
    destruct (register_hook_next C hook _ p w1 registered Hholds1 Hnone1 Hget)
      as (k & Hrun & Hbelow & Habove & Hholds').
    exists k. eexists. split.
    { unfold register_hook_from_cfg. cbv zeta. rewrite bind_unfold, Hbuild.
      fold w1. exact Hrun. }
    change (registry w1) with (_hooks (runner s1)) in Hbelow, Habove.
    rewrite Hreg in Hbelow, Habove.
    split; [|split; [|split; [|split]]].
    + change (registry (inserted_at k hook (with_priority hook p w1)))
        with (take k (_hooks (runner s1)) ++ hook :: drop k (_hooks (runner s1))).
      rewrite Hreg. reflexivity.
    + change (hook_priority (store (inserted_at k hook (with_priority hook p w1))) hook)
        with (hook_priority (store (with_priority hook p w1)) hook).
      rewrite hook_priority_with_priority, Nat.eqb_refl. reflexivity.
    + eapply Forall_impl; [exact Hbelow|]. intros h (q & Hq & Hle).
      exists q. rewrite <- Hprio. split; assumption.
    + eapply Forall_impl; [exact Habove|]. intros h (q & Hq & Hlt).
      exists q. rewrite <- Hprio. split; assumption.
    + exact Hholds'.
  - intros e s1 Hbuild. unfold register_hook_from_cfg. cbv zeta.
    rewrite bind_unfold, Hbuild. reflexivity.
Qed.

End FromCfg.

(** ** State handed from one hook to another of its kind *)

Section CrossDelivery.

Variable C : Collaborators.

Lemma first_of_kind_here s key l1 h l2 :
  Forall (fun h' => hook_kind s h' <> key) l1 ->
  hook_kind s h = key ->
  first_of_kind s key (l1 ++ h :: l2) = Some h.
Proof.
  intros Hall Hk. induction Hall as [|h0 l1 Hne _ IH]; simpl.
  - rewrite Hk, String.eqb_refl. reflexivity.
  - destruct (String.eqb_spec (hook_kind s h0) key); [contradiction|exact IH].
Qed.

(** Hooks of the kind without state are passed over. *)
Lemma first_state_skip s k l rest :
  Forall (fun h => hook_kind s h = k -> truthy (exported_value C s h) = false) l ->
  first_state C s k (l ++ rest) = first_state C s k rest.
Proof.
  intros Hall. induction Hall as [|h l Hh _ IH]; [reflexivity|]. simpl.
  destruct (String.eqb_spec (hook_kind s h) k) as [Hk|Hne].
  - rewrite (Hh Hk). exact IH.
  - rewrite andb_false_r. exact IH.
Qed.

(** X15: state can pass from one hook to another of its kind.  When the
    first hook of a kind in the registry has no state and a later hook of
    the kind has state [v], the snapshot keeps [v] under the kind, and
    restoring that snapshot into the same runner hands [v] to the first
    hook, which did not export it: the first hook's data becomes what its
    import of [v] makes of it, and the hook that exported [v] is not
    called and stays as it was (exports that are reads and return, imports
    that return). *)
Theorem state_dict_load_state_dict_cross_hooks
    (w : World) (l1 l2 l3 : list href) (h1 h2 : href) (k : string) (v : pyval) :
  (forall h d, exists sd, hook_state_dict C h d = (Ok sd, d)) ->
  (forall o, exists sd, optimizer_state_dict C o = (Ok sd, o)) ->
  (forall h sd d, exists d', hook_load_state_dict C h sd d = (Ok tt, d')) ->
  (forall sd o, exists o', optimizer_load_state_dict C sd o = (Ok tt, o')) ->
  registry w = l1 ++ h1 :: l2 ++ h2 :: l3 ->
  Forall (fun h => hook_kind (store w) h <> k) l1 ->
  hook_kind (store w) h1 = k ->
  truthy (exported_value C (store w) h1) = false ->
  Forall (fun h => hook_kind (store w) h = k ->
                   truthy (exported_value C (store w) h) = false) l2 ->
  hook_kind (store w) h2 = k ->
  exported_value C (store w) h2 = v ->
  truthy v = true ->
  exists sn w1 w2 evs,
    state_dict C w = (Ok sn, w1) /\
    assoc k (default [] (sn_hooks sn)) = Some v /\
    load_state_dict C sn w1 = (Ok tt, w2) /\
    events w2 = events w1 ++ evs /\
    EvHookLoadStateDict h1 v ∈ evs /\
    (forall v', EvHookLoadStateDict h2 v' ∉ evs) /\
    hdata (heap (store w2) h1)
    = snd (hook_load_state_dict C h1 v (hdata (heap (store w) h1))) /\
    heap (store w2) h2 = heap (store w) h2.
Proof.
  intros Hexp Hoexp Himp Hoimp Hsplit Hl1 Hk1 Hf1 Hl2 Hk2 Hv2 Htv.
  assert (Hne : h2 <> h1).
  { intros ->. rewrite Hv2, Htv in Hf1. discriminate. }
  assert (Hfirst : first_of_kind (store w) k (registry w) = Some h1)
    by (rewrite Hsplit; apply first_of_kind_here; assumption).
  assert (Hstate : first_state C (store w) k (registry w) = Some v).
  { rewrite Hsplit.
    rewrite (first_state_skip (store w) k l1).
    2:{ eapply Forall_impl; [exact Hl1|]. intros h Hh Hk. contradiction. }
    simpl. rewrite Hf1. simpl.
    rewrite (first_state_skip (store w) k l2) by exact Hl2.
    simpl. rewrite Hv2, Htv, Hk2, String.eqb_refl. reflexivity. }
  destruct (state_dict_pure C w Hexp Hoexp)
    as (opt & w1 & Hrun & (Hr1 & Hh1 & _) & Hev1).
  set (d := snapshot_hooks_spec (entries C (store w) (registry w))) in *.
  set (sn := mkSnapshot _ _ opt _) in Hrun.
  assert (Hd : default [] (sn_hooks sn) = d)
    by (unfold sn; simpl; destruct d; reflexivity).
  assert (Hassoc : assoc k d = Some v).
  { unfold d, snapshot_hooks_spec. rewrite keep_first_assoc. simpl.
    rewrite first_state_assoc. exact Hstate. }
  assert (Hnd : NoDup (map fst d)) by apply keep_first_NoDup.
  assert (Hreg1 : registry w1 = registry w)
    by (unfold registry; rewrite Hr1; reflexivity).
  assert (Hkind1 : forall h, hook_kind (store w1) h = hook_kind (store w) h)
    by (intros h; unfold hook_kind; rewrite Hh1; reflexivity).
  assert (Hfirst1 : forall key, first_of_kind (store w1) key (registry w1)
                                = first_of_kind (store w) key (registry w))
    by (intros key; rewrite Hreg1; apply first_of_kind_ext, Hkind1).
  destruct (load_state_dict_returns C sn w1 Himp Hoimp) as [w2 Hload].
  destruct (load_state_dict_run C sn w1 (Ok tt) w2 Hload)
    as (_ & _ & _ & _ & _ & Hev2).
  specialize (Hev2 eq_refl). rewrite Hd in Hev2.
  rewrite Hreg1, (restore_events_ext (store w)) in Hev2 by exact Hkind1.
  exists sn, w1, w2. eexists.
  split; [exact Hrun|]. split; [rewrite Hd; exact Hassoc|].
  split; [exact Hload|]. split; [exact Hev2|].
  assert (Hin : (k, v) ∈ d).
  { clear -Hassoc. induction d as [|[k' v'] d IH]; [discriminate|].
    simpl in Hassoc. destruct (String.eqb_spec k' k) as [->|_].
    - inversion Hassoc; subst. left.
    - right. apply IH, Hassoc. }
  split; [|split].
  - right. apply list_elem_of_In. unfold restore_events. apply in_flat_map.
    exists (k, v). split; [apply list_elem_of_In, Hin|].
    simpl. rewrite Hfirst. left. reflexivity.
  - intros v' Hmem. apply list_elem_of_In in Hmem.
    destruct Hmem as [Habs|Hmem]; [discriminate|].
    unfold restore_events in Hmem. apply in_flat_map in Hmem.
    destruct Hmem as ([k' v''] & _ & Hmem). simpl in Hmem.
    destruct (first_of_kind (store w) k' (registry w)) as [h|] eqn:Hk';
      destruct Hmem as [Heq|[]]; [|discriminate].
    inversion Heq; subst h v''.
    pose proof (first_of_kind_kind _ _ _ _ Hk') as Hkk.
    rewrite Hk2 in Hkk. subst k'. apply Hne. congruence.
  - revert Hload. rewrite load_state_dict_unfold. cbv zeta.
    set (s1 := set_runner _ (store w1)).
    destruct (on_optimizer_frame (optimizer_load_state_dict C (sn_optimizer sn)) s1)
      as [Hr Hh].
    set (w1' := mkWorld _ _).
    assert (Hreg' : registry w1' = registry w).
    { rewrite <- Hreg1. unfold registry, w1'. cbn [store]. rewrite Hr.
      reflexivity. }
    assert (Hheap' : forall h, heap (store w1') h = heap (store w) h).
    { intros h. rewrite <- Hh1. unfold w1'. cbn [store]. rewrite Hh.
      reflexivity. }
    assert (Hkind' : forall h, hook_kind (store w1') h = hook_kind (store w) h)
      by (intros h; unfold hook_kind; rewrite Hheap'; reflexivity).
    destruct (fst (on_optimizer _ s1)) as [[]|e]; [|discriminate].
    rewrite Hd. intros Hload. split.
    + rewrite (load_hooks_state_delivers C h1 k v d w1' w2 Hload Hnd Hassoc).
      * rewrite Hheap'. reflexivity.
      * rewrite Hreg', (first_of_kind_ext (store w)) by exact Hkind'.
        exact Hfirst.
    + rewrite <- Hheap'.
      apply (load_hooks_state_untargeted C h2 d w1' (Ok tt) w2 Hload).
      apply Forall_forall. intros [k' v'] _. simpl.
      rewrite Hreg', (first_of_kind_ext (store w)) by exact Hkind'.
      intros Hk'. pose proof (first_of_kind_kind _ _ _ _ Hk') as Hkk.
      rewrite Hk2 in Hkk. subst k'. apply Hne. congruence.
Qed.

End CrossDelivery.

(** ** The runner at work on sample hooks *)

Lemma sample_registry_holds calls w0 :
  registry w0 = [] ->
  registry_holds (snd (register_hooks sample calls w0))
                 (fst (register_hooks sample calls w0)).
Proof.
  intros Hempty.
  destruct (register_hooks sample calls w0) as [registered w] eqn:Hrun.
  apply (register_hooks_holds sample calls w0 [] registered w);
    [apply registry_holds_empty, Hempty|exact Hrun].
Qed.

Lemma sample_failing_exports_read h d :
  snd (hook_state_dict sample_failing h d) = d.
Proof. destruct d; reflexivity. Qed.

(** Hook 0 is offered a second time, after hook 1. *)
Lemma register_hook_no_duplicates_witness :
  let w0 := sample_world [("A", PyNone); ("B", PyNone)] in
  let calls := [(0, PrioInt 10); (1, PrioInt 5); (0, PrioInt 7)] in
  let w := snd (register_hooks sample calls w0) in
  registry w0 = [] /\
  register_hooks sample calls w0 = ([0; 1], w) /\
  registry w = [1; 0] /\
  NoDup (registry w).
Proof.
  intros w0 calls w.
  assert (H0 : registry w0 = []) by reflexivity.
  assert (H1 : register_hooks sample calls w0 = ([0; 1], w))
    by (vm_compute; reflexivity).
  destruct (register_hook_no_duplicates sample calls w0 w [0; 1] H0 H1)
    as [Hnd _].
  split; [exact H0|]. split; [exact H1|].
  split; [vm_compute; reflexivity|exact Hnd].
Defined.

(** A hook of priority LOW goes to the end of two hooks of priority
    NORMAL, one of priority HIGH to the head. *)
Lemma register_hook_extremes_witness :
  let w := sample_twins in
  registry w = [0; 1] /\
  (exists w', register_hook sample 2 (PrioStr "LOW") w = (Ok tt, w') /\
              registry w' = [0; 1; 2]) /\
  (exists w', register_hook sample 2 (PrioStr "HIGH") w = (Ok tt, w') /\
              registry w' = [2; 0; 1]).
Proof.
  intros w.
  assert (Hreg : registry w = [0; 1]) by (vm_compute; reflexivity).
  assert (Hholds : registry_holds w [0; 1])
    by (apply (sample_registry_holds
                 [(0, PrioStr "NORMAL"); (1, PrioStr "NORMAL")]
                 (sample_world [("K", PyInt 1); ("K", PyInt 2)])); reflexivity).
  assert (Hfresh : hook_priority (store w) 2 = None) by (vm_compute; reflexivity).
  destruct (register_hook_extremes sample 2 (PrioStr "LOW") 70 w [0; 1]
              Hholds Hfresh eq_refl) as [Hlast _].
  destruct (register_hook_extremes sample 2 (PrioStr "HIGH") 30 w [0; 1]
              Hholds Hfresh eq_refl) as [_ Hhead].
  split; [exact Hreg|]. split.
  - destruct Hlast as (w' & Hrun & Hend).
    + rewrite Hreg. repeat constructor;
        (exists 50%Z; split; [vm_compute; reflexivity|lia]).
    + exists w'. split; [exact Hrun|]. rewrite Hend, Hreg. reflexivity.
  - destruct Hhead as (w' & Hrun & Hfront).
    + rewrite Hreg. repeat constructor;
        (exists 50%Z; split; [vm_compute; reflexivity|lia]).
    + exists w'. split; [exact Hrun|]. rewrite Hfront, Hreg. reflexivity.
Defined.

(** Three hooks registered with priorities 5, 10 and 10. *)
Lemma register_hook_in_priority_order_witness :
  let w0 := sample_world [("A", PyNone); ("B", PyNone); ("C", PyNone)] in
  let calls := [(0, PrioInt 5); (1, PrioInt 10); (2, PrioInt 10)] in
  exists w, register_hooks sample calls w0 = ([0; 1; 2], w) /\
            registry w = [0; 1; 2].
Proof.
  intros w0 calls.
  apply (register_hook_in_priority_order sample calls [5; 10; 10]%Z w0).
  - reflexivity.
  - apply (bool_decide_unpack _). vm_compute. reflexivity.
  - repeat constructor.
  - reflexivity.
  - repeat constructor; lia.
Defined.

(** A priority name that does not resolve, then one that does. *)
Lemma register_hook_retry_witness :
  let w := sample_twins in
  register_hook sample 2 (PrioStr "URGENT") w = (Raise PriorityError, w) /\
  exists w',
    register_hook sample 2 (PrioStr "HIGH") w = (Ok tt, w') /\
    hook_priority (store w') 2 = Some 30%Z.
Proof.
  intros w.
  assert (Hholds : registry_holds w [0; 1])
    by (apply (sample_registry_holds
                 [(0, PrioStr "NORMAL"); (1, PrioStr "NORMAL")]
                 (sample_world [("K", PyInt 1); ("K", PyInt 2)])); reflexivity).
  assert (Hfresh : hook_priority (store w) 2 = None) by (vm_compute; reflexivity).
  destruct (register_hook_retry sample 2 (PrioStr "URGENT") (PrioStr "HIGH") 30
              w [0; 1] Hholds Hfresh eq_refl eq_refl)
    as (Hbad & w' & Hgood & Hprio & _).
  split; [exact Hbad|]. exists w'. split; [|exact Hprio].
  rewrite Hbad in Hgood. exact Hgood.
Defined.

(** A runner constructed on the main process, with a working directory. *)
Lemma init_builds_witness :
  let a := sample_args (WorkDirStr "work") (Some 100%Z) None in
  let w := sample_world [] in
  let w' := snd (init sample a w) in
  init sample a w = (Ok tt, w') /\
  registry w' = [0] /\
  heap (store w') 0
  = mkHook "PeriodicCheckpointer" (Some 50%Z)
      (PyDict [("by_epoch", PyBool true); ("period", PyInt 1)]) /\
  work_dir (runner (store w')) = Some "work" /\
  events w' = [EvMkdir "work"].
Proof.
  intros a w w'.
  assert (Hrun : init sample a w = (Ok tt, w')) by (vm_compute; reflexivity).
  destruct (init_builds sample a w w' Hrun) as (Hmain & Hdir & _).
  simpl in Hmain, Hdir.
  destruct Hmain as (c & p & Hc & Hp & Hreg & Hobj & _).
  destruct Hdir as [Hwd Hev].
  inversion Hc; subst c. inversion Hp; subst p.
  split; [exact Hrun|]. split; [exact Hreg|]. split; [exact Hobj|].
  split; [exact Hwd|exact Hev].
Defined.

(** The constructor called without [cfg]. *)
Lemma init_without_cfg_witness :
  let a := mkInitArgs PyNone PyNone WorkDirNone None None None in
  exists w',
    init sample a (sample_world []) = (Raise (AttributeError "checkpoint"), w') /\
    registry w' = [].
Proof.
  intros a.
  apply (init_without_cfg sample a (sample_world [])).
  - exists PyNone. reflexivity.
  - intros path Hpath. discriminate.
  - discriminate.
  - left. reflexivity.
  - reflexivity.
  - reflexivity.
Defined.

(** Two hooks registered after construction, one of them with the
    priority of the default checkpoint hook. *)
Lemma init_then_register_hooks_witness :
  let a := sample_args WorkDirNone None None in
  let w0 := sample_world [] in
  let w1 := snd (init sample a w0) in
  let calls := [(1, PrioInt 10); (2, PrioStr "NORMAL")] in
  let w := snd (register_hooks sample calls w1) in
  init sample a w0 = (Ok tt, w1) /\
  register_hooks sample calls w1 = ([1; 2], w) /\
  registry w = [1; 0; 2] /\
  registry_sorted (store w) /\
  NoDup (registry w) /\
  of_priority (store w) 50 (registry w) = [0; 2].
Proof.
  intros a w0 w1 calls w.
  assert (H0 : init sample a w0 = (Ok tt, w1)) by (vm_compute; reflexivity).
  assert (H1 : register_hooks sample calls w1 = ([1; 2], w))
    by (vm_compute; reflexivity).
  destruct (init_then_register_hooks sample a calls w0 w1 w [1; 2] H0 H1)
    as (_ & Hsorted & Hnd & _ & Hstable).
  split; [exact H0|]. split; [exact H1|].
  split; [vm_compute; reflexivity|]. split; [exact Hsorted|].
  split; [exact Hnd|]. rewrite Hstable. vm_compute. reflexivity.
Defined.

(** A wrapping that raises, and a directory that cannot be created, in
    constructions with [max_iters] set: [cfg] and [work_dir] have been
    assigned, the budget has not. *)
Lemma init_collaborator_failure_witness :
  let w := sample_world [] in
  let a1 := sample_args (WorkDirStr "work") (Some 100%Z) None in
  let a2 := mkInitArgs (PyInt 1) (PyInt 7) (WorkDirStr "work") (Some 100%Z) None
                       (Some (mkCfg true 1)) in
  (exists w',
     init sample_failing a1 w
     = (Raise (CollaboratorError "DistributedDataParallel"), w') /\
     cfg (runner (store w')) = Some (mkCfg true 1) /\
     work_dir (runner (store w')) = None /\
     events w' = []) /\
  exists w',
    init sample_failing a2 w = (Raise (CollaboratorError "mkdir_or_exist"), w') /\
    cfg (runner (store w')) = Some (mkCfg true 1) /\
    work_dir (runner (store w')) = Some "work" /\
    optimizer (store w') = PyInt 7 /\
    _max_iters (runner (store w')) = None /\
    events w' = [EvMkdir "work"].
Proof.
  intros w a1 a2.
  destruct (init_collaborator_failure sample_failing a1 w) as [Hddp _].
  destruct (init_collaborator_failure sample_failing a2 w) as [_ Hmkdir].
  split.
  - eexists. split; [apply Hddp; reflexivity|]. repeat split.
  - destruct (Hmkdir (PyInt 1) "work" (CollaboratorError "mkdir_or_exist")
                eq_refl eq_refl eq_refl)
      as (w' & Hrun & Hr & Ho & _ & _ & _ & Hev).
    exists w'. split; [exact Hrun|]. rewrite Hr.
    split; [reflexivity|]. split; [reflexivity|]. split; [exact Ho|].
    split; [reflexivity|exact Hev].
Defined.

(** An optimizer whose export raises; then, with an optimizer whose export
    returns, three hooks of which the second raises in its export. *)
Lemma state_dict_export_failure_witness :
  (exists w',
     state_dict sample_failing sample_three
     = (Raise (CollaboratorError "optimizer"), w') /\
     events w' = [EvOptimizerStateDict]) /\
  (exists w',
     state_dict sample_failing sample_three_optimized
     = (Raise (CollaboratorError "state_dict"), w') /\
     events w' = [EvOptimizerStateDict; EvHookStateDict 0; EvHookStateDict 1]).
Proof.
  destruct (state_dict_export_failure sample_failing sample_three
              sample_failing_exports_read) as [Hopt _].
  destruct (state_dict_export_failure sample_failing sample_three_optimized
              sample_failing_exports_read) as [_ Hhook].
  split.
  - apply Hopt. reflexivity.
  - apply (Hhook [0] 1 [2]).
    + exists (PyInt 7). reflexivity.
    + vm_compute. reflexivity.
    + repeat constructor. exists (PyInt 1). vm_compute. reflexivity.
    + vm_compute. reflexivity.
Defined.

(** A snapshot of three entries restored into a timer and a logger, the
    logger raising in its import: the third entry is not reached. *)
Lemma load_state_dict_import_failure_witness :
  let w := sample_distinct in
  let sn := mkSnapshot 4 1 PyNone
              (Some [("IterTimerHook", PyInt 5); ("LoggerHook", PyInt 6);
                     ("EvalHook", PyInt 7)]) in
  exists w',
    load_state_dict sample_failing sn w
    = (Raise (CollaboratorError "load_state_dict"), w') /\
    events w' = [EvOptimizerLoadStateDict PyNone;
                 EvHookLoadStateDict 0 (PyInt 5);
                 EvHookLoadStateDict 1 (PyInt 6)].
Proof.
  intros w sn.
  destruct (load_state_dict_import_failure sample_failing sn w
              [("IterTimerHook", PyInt 5)] [("EvalHook", PyInt 7)]
              "LoggerHook" (PyInt 6) 1 (CollaboratorError "load_state_dict"))
    as (w' & Hrun & Hev).
  - intros v o. exists v. reflexivity.
  - intros h' v' d Hne. exists v'. simpl.
    destruct (Nat.eqb_spec h' 1); [contradiction|reflexivity].
  - intros d. reflexivity.
  - reflexivity.
  - repeat constructor. vm_compute. discriminate.
  - vm_compute. reflexivity.
  - exists w'. split; [exact Hrun|]. rewrite Hev. vm_compute. reflexivity.
Defined.

(** Two dispatches over two hooks. *)
Lemma call_hook_twice_witness :
  let w := sample_twins in
  let w1 := snd (default (Ok tt, w) (call_hook sample 10 "before_run" w)) in
  let w2 := snd (default (Ok tt, w1) (call_hook sample 10 "after_run" w1)) in
  registry w = [0; 1] /\
  call_hook sample 10 "before_run" w = Some (Ok tt, w1) /\
  call_hook sample 10 "after_run" w1 = Some (Ok tt, w2) /\
  registry w2 = [0; 1] /\
  events w2 = [EvCallback 0 "before_run"; EvCallback 1 "before_run";
               EvCallback 0 "after_run"; EvCallback 1 "after_run"].
Proof.
  intros w w1 w2.
  assert (Hreg : registry w = [0; 1]) by (vm_compute; reflexivity).
  assert (Hfuel : length (registry w) < 10) by (rewrite Hreg; simpl; lia).
  assert (H1 : call_hook sample 10 "before_run" w = Some (Ok tt, w1))
    by (vm_compute; reflexivity).
  assert (H2 : call_hook sample 10 "after_run" w1 = Some (Ok tt, w2))
    by (vm_compute; reflexivity).
  destruct (call_hook_twice sample "before_run" "after_run" 10 w w1 w2
              (fun fn h s => sample_callbacks_keep_registry fn h s)
              Hfuel H1 H2) as [Hreg2 Hev].
  split; [exact Hreg|]. split; [exact H1|]. split; [exact H2|].
  split; [rewrite Hreg2; exact Hreg|].
  rewrite Hev, Hreg. vm_compute. reflexivity.
Defined.

(** A timer built from a dict without 'priority' joins two hooks of
    priorities 10 and 50 at the end; a dict without 'type' is refused by
    the builder. *)
Lemma register_hook_from_cfg_registers_witness :
  let w := sample_two_of_a_kind in
  let hook_cfg := mkHookCfg None [("type", PyStr "IterTimerHook");
                                  ("interval", PyInt 10)] in
  registry w = [1; 0] /\
  (exists w',
     register_hook_from_cfg sample sample_build_from_cfg hook_cfg w = (Ok tt, w') /\
     hook_priority (store w') 2 = Some 50%Z /\
     registry_holds w' [0; 1; 2]) /\
  fst (register_hook_from_cfg sample sample_build_from_cfg
         (mkHookCfg (Some (PrioInt 10)) [("interval", PyInt 10)]) w)
  = Raise (CollaboratorError "build_from_cfg").
Proof.
  intros w hook_cfg.
  assert (Hreg : registry w = [1; 0]) by (vm_compute; reflexivity).
  assert (Hholds : registry_holds w [0; 1])
    by (apply (sample_registry_holds [(0, PrioInt 50); (1, PrioInt 10)]
                 (sample_world [("K", PyInt 1); ("K", PyInt 2)])); reflexivity).
  destruct (register_hook_from_cfg_registers sample sample_build_from_cfg
              hook_cfg w [0; 1] Hholds) as [Hok _].
  destruct (register_hook_from_cfg_registers sample sample_build_from_cfg
              (mkHookCfg (Some (PrioInt 10)) [("interval", PyInt 10)])
              w [0; 1] Hholds) as [_ Hraise].
  split; [exact Hreg|]. split.
  - destruct (Hok 2 (snd (sample_build_from_cfg (hc_items hook_cfg) (store w)))
                50%Z) as (k & w' & Hrun & _ & Hprio & _ & _ & Hholds').
    + reflexivity.
    + reflexivity.
    + intros h Hne. unfold hook_priority. simpl. unfold heap_set.
      destruct (Nat.eqb_spec h 2); [contradiction|reflexivity].
    + reflexivity.
    + reflexivity.
    + reflexivity.
    + exists w'. split; [exact Hrun|]. split; [exact Hprio|exact Hholds'].
  - rewrite (Hraise (CollaboratorError "build_from_cfg") (store w) eq_refl).
    reflexivity.
Defined.

(** Hook 0 has no state, hook 1 of the same kind has state 2: restoring
    the runner's own snapshot gives state 2 to hook 0. *)
Lemma state_dict_load_state_dict_cross_hooks_witness :
  let w := sample_silent_first in
  registry w = [0; 1] /\
  exported sample (store w) 0 = Ok PyNone /\
  exported sample (store w) 1 = Ok (PyInt 2) /\
  exists sn w1 w2,
    state_dict sample w = (Ok sn, w1) /\
    sn_hooks sn = Some [("K", PyInt 2)] /\
    load_state_dict sample sn w1 = (Ok tt, w2) /\
    hdata (heap (store w2) 0) = PyInt 2 /\
    heap (store w2) 1 = heap (store w) 1.
Proof.
  intros w.
  assert (Hreg : registry w = [0; 1]) by (vm_compute; reflexivity).
  assert (Hk0 : hook_kind (store w) 0 = "K") by (vm_compute; reflexivity).
  assert (Hk1 : hook_kind (store w) 1 = "K") by (vm_compute; reflexivity).
  assert (Hf0 : truthy (exported_value sample (store w) 0) = false)
    by (vm_compute; reflexivity).
  assert (Hv1 : exported_value sample (store w) 1 = PyInt 2)
    by (vm_compute; reflexivity).
  destruct (state_dict_load_state_dict_cross_hooks sample w [] [] [] 0 1
              "K" (PyInt 2)
              sample_exports_pure sample_optimizer_exports_pure
              sample_imports_return sample_optimizer_imports_return
              Hreg (List.Forall_nil _) Hk0 Hf0 (List.Forall_nil _) Hk1 Hv1 eq_refl)
    as (sn & w1 & w2 & evs & Hrun & _ & Hload & _ & _ & _ & Hdata & Hother).
  split; [exact Hreg|]. split; [vm_compute; reflexivity|].
  split; [vm_compute; reflexivity|].
  exists sn, w1, w2. split; [exact Hrun|]. split.
  - assert (Hsn : fst (state_dict sample w)
                  = Ok (mkSnapshot 0 0 PyNone (Some [("K", PyInt 2)])))
      by (vm_compute; reflexivity).
    rewrite Hrun in Hsn. simpl in Hsn. inversion Hsn. reflexivity.
  - split; [exact Hload|]. split; [|exact Hother].
    rewrite Hdata. vm_compute. reflexivity.
Defined.
